(** * meteoCocitoPy: the catalog, the archive scan and the statistics

    A shallow embedding of [meteoCocito.py]: the [DataTypeArchive] catalog,
    [Value], [DataArchive.betweenDatetimes] with its fixed ranges [day],
    [week] and [month], [DataArchive.latestDatetime] and [Stats], followed
    by the properties of the specification that concern them and by further
    properties of the code.

    Conventions of the embedding.
    - A Python exception is a value of [exn]; code that may raise returns a
      [result], and a [for] loop is a fold that stops at the first exception.
    - A Python [float] is a [pyfloat]: a finite value is the rational it
      denotes, next to the two infinities and NaN (the sign of zero is not
      kept).  Operations that round do so to binary64, ties to even.
    - A [dict] is an association list in insertion order, which is the order
      in which Python iterates over it.
    - The archive is a tree of named entries; [glob] lists the entries of a
      directory in the order of the tree.
    - The library functions that the code calls ([int], [float], [round],
      [str.split], [str.zfill], [datetime.strptime], [datetime.strftime],
      [datetime.weekday], the difference of a [datetime] and a [timedelta],
      [glob.glob], [os.path.isdir], [statistics.mean], [statistics.stdev])
      are written out after CPython 3.11, on naive [datetime] objects.
    - Text is a list of one-byte characters.  On ASCII text this is what
      Python does; on other text it is not: a file may fail to decode, and
      [int], [float] and [strptime] read digits and blanks that are not
      ASCII.  A property that depends on what these functions accept says
      so, with [ascii_text] or [ascii_archive] among its hypotheses. *)

From Stdlib Require Import ZArith QArith String Ascii List Bool Lia.
From Stdlib Require Import DecimalString DecimalPos.
Import ListNotations.

Local Open Scope Z_scope.

(** ** Exceptions and results *)

Inductive exn : Type :=
| ValueError
| OverflowError
| AttributeError
| StatisticsError
| KeyError
| IsADirectoryError.

Inductive result (A : Type) : Type :=
| Ok (a : A)
| Raise (e : exn).

Arguments Ok {A} a.
Arguments Raise {A} e.

Definition bind {A B : Type} (r : result A) (k : A -> result B) : result B :=
  match r with
  | Ok a => k a
  | Raise e => Raise e
  end.

Notation "x <- r ;; k" := (bind r (fun x => k))
  (at level 61, r at next level, right associativity).
Notation "' p <- r ;; k" := (bind r (fun p => k))
  (at level 61, p pattern, r at next level, right associativity).

(** ** Python floats *)

Inductive pyfloat : Type :=
| Fin (q : Q)
| Inf (negative : bool)
| NaN.

(** [a / b] rounded to the nearest integer, ties to the even one
    ([0 <= a], [0 < b]). *)
Definition round_half_even (a b : Z) : Z :=
  let q := a / b in
  match 2 * (a mod b) ?= b with
  | Lt => q
  | Gt => q + 1
  | Eq => if Z.even q then q else q + 1
  end.

(** [floor (log2 (n / d))] for positive [n] and [d]. *)
Definition floor_log2 (n d : Z) : Z :=
  let e0 := Z.log2 n - Z.log2 d in
  if d * 2 ^ Z.max 0 e0 <=? n * 2 ^ Z.max 0 (- e0) then e0 else e0 - 1.

(** The binary64 number nearest to [n / d] (positive [n], [d]), as the pair
    [(m, q)] of an integer significand and the exponent of its unit. *)
Definition binary64_round (n d : Z) : Z * Z :=
  let q := Z.max (floor_log2 n d - 52) (-1074) in
  let m := if 0 <=? q then round_half_even n (d * 2 ^ q)
           else round_half_even (n * 2 ^ (- q)) d in
  (m, q).

Definition binary64_overflows (mq : Z * Z) : bool :=
  let '(m, q) := mq in
  (971 <? q) || ((q =? 971) && (2 ^ 53 <=? m)).

Definition scaled (s : Z) (mq : Z * Z) : Q :=
  let '(m, q) := mq in
  if 0 <=? q then inject_Z (s * m * 2 ^ q)
  else Qred (Qmake (s * m) (Z.to_pos (2 ^ (- q)))).

(** Round-to-nearest conversion of an exact rational to a float; beyond the
    largest finite float the result is an infinity. *)
Definition float_of_Q (x : Q) : pyfloat :=
  match Qnum x with
  | Z0 => Fin 0
  | Zpos n =>
      let mq := binary64_round (Zpos n) (Zpos (Qden x)) in
      if binary64_overflows mq then Inf false else Fin (scaled 1 mq)
  | Zneg n =>
      let mq := binary64_round (Zpos n) (Zpos (Qden x)) in
      if binary64_overflows mq then Inf true else Fin (scaled (-1) mq)
  end.

(** [int / int] and [float(Fraction)]: the same rounding, but a result too
    large for a float raises. *)
Definition true_division (x : Q) : result pyfloat :=
  match float_of_Q x with
  | Fin q => Ok (Fin q)
  | _ => Raise OverflowError
  end.

(** Comparison operators on floats: every comparison with NaN is false. *)
Definition float_lt (a b : pyfloat) : bool :=
  match a, b with
  | NaN, _ | _, NaN => false
  | Fin x, Fin y => match Qcompare x y with Lt => true | _ => false end
  | Inf true, Inf true => false
  | Inf true, _ => true
  | _, Inf false => match a with Inf false => false | _ => true end
  | _, _ => false
  end.

Definition float_gt (a b : pyfloat) : bool := float_lt b a.

Definition float_le (a b : pyfloat) : bool :=
  match a, b with
  | NaN, _ | _, NaN => false
  | Fin x, Fin y => match Qcompare x y with Gt => false | _ => true end
  | Inf true, _ => true
  | _, Inf false => true
  | _, _ => false
  end.

(** [int(x)]: truncation towards zero. *)
Definition py_int (x : pyfloat) : result Z :=
  match x with
  | Fin q => Ok (Z.quot (Qnum q) (Zpos (Qden q)))
  | Inf _ => Raise OverflowError
  | NaN => Raise ValueError
  end.

(** [x] as a multiple of [10 ^ (- ndigits)], ties to even, exactly. *)
Definition decimal_round (x : Q) (ndigits : Z) : Q :=
  let n := Qnum x in
  let d := Zpos (Qden x) in
  let k := if 0 <=? ndigits
           then round_half_even (Z.abs n * 10 ^ ndigits) d
           else round_half_even (Z.abs n) (d * 10 ^ (- ndigits)) in
  let sk := Z.sgn n * k in
  if 0 <=? ndigits then Qmake sk (Z.to_pos (10 ^ ndigits))
  else inject_Z (sk * 10 ^ (- ndigits)).

(** [round(x, ndigits)] on a float: the exact value is rounded to [ndigits]
    decimals and the decimal is read back as the nearest float. *)
Definition py_round (x : pyfloat) (ndigits : Z) : result pyfloat :=
  match x with
  | Fin q =>
      if 323 <? ndigits then Ok x
      else if ndigits <? -308 then Ok (Fin 0)
      else match float_of_Q (decimal_round q ndigits) with
           | Fin r => Ok (Fin r)
           | _ => Raise OverflowError
           end
  | _ => Ok x
  end.

(** ** Python strings

    A [str] is handled as the list of its characters. *)

Definition code (c : ascii) : Z := Z.of_nat (nat_of_ascii c).

Definition is_digit (c : ascii) : bool := (48 <=? code c) && (code c <=? 57).

Definition digit_value (c : ascii) : Z := code c - 48.

(** The ASCII characters that [str.isspace()] and the regular expression
    class [\s] take for white space: the separators 28 to 31 are among
    them. *)
Definition is_space (c : ascii) : bool :=
  ((9 <=? code c) && (code c <=? 13)) || ((28 <=? code c) && (code c <=? 32)).

(** The white space of C, which is what [int()] and [float()] skip at both
    ends of an ASCII string: the separators 28 to 31 are not among it, and a
    number followed by one of them is refused. *)
Definition Py_ISSPACE (c : ascii) : bool :=
  ((9 <=? code c) && (code c <=? 13)) || (code c =? 32).

Fixpoint lstrip (s : list ascii) : list ascii :=
  match s with
  | c :: s' => if Py_ISSPACE c then lstrip s' else s
  | [] => []
  end.

(** The string between the white space that [int()] and [float()] skip. *)
Definition strip (s : list ascii) : list ascii := rev (lstrip (rev (lstrip s))).

(** [s.split(sep)] for a one-character separator. *)
Fixpoint split (sep : ascii) (s : list ascii) : list (list ascii) :=
  match s with
  | [] => [[]]
  | c :: s' =>
      if Ascii.eqb c sep then [] :: split sep s'
      else match split sep s' with
           | h :: t => (c :: h) :: t
           | [] => [[c]]
           end
  end.

(** Decimal digits in which single underscores may separate digits. *)
Fixpoint int_digits (acc : Z) (after_digit : bool) (s : list ascii) : option Z :=
  match s with
  | [] => if after_digit then Some acc else None
  | c :: s' =>
      if is_digit c then int_digits (10 * acc + digit_value c) true s'
      else if Ascii.eqb c "_" && after_digit then
        match s' with
        | d :: _ => if is_digit d then int_digits acc false s' else None
        | [] => None
        end
      else None
  end.

(** [int(s)] on a string, base ten. *)
Definition int_of_str (s : list ascii) : result Z :=
  let t := strip s in
  let digits r := match int_digits 0 false r with
                  | Some n => Ok n
                  | None => Raise ValueError
                  end in
  match t with
  | "+"%char :: r => digits r
  | "-"%char :: r => n <- digits r ;; Ok (- n)
  | _ => digits t
  end.

(** [str(n)] on an integer. *)
Definition str_of_int (n : Z) : list ascii :=
  list_ascii_of_string (DecimalString.NilZero.string_of_int (Z.to_int n)).

(** [s.zfill(width)]. *)
Definition zfill (s : list ascii) (width : nat) : list ascii :=
  let pad := repeat "0"%char (width - length s) in
  match s with
  | c :: r => if Ascii.eqb c "+" || Ascii.eqb c "-" then c :: pad ++ r
              else pad ++ s
  | [] => pad
  end.

Fixpoint take_digits (s : list ascii) : list ascii * list ascii :=
  match s with
  | c :: s' => if is_digit c then let '(d, r) := take_digits s' in (c :: d, r)
               else ([], s)
  | [] => ([], [])
  end.

Definition digits_value (ds : list ascii) : Z :=
  fold_left (fun acc c => 10 * acc + digit_value c) ds 0.

Definition lower (c : ascii) : ascii :=
  if (65 <=? code c) && (code c <=? 90)
  then ascii_of_nat (nat_of_ascii c + 32) else c.

(** Underscores of a numeric literal are dropped when each stands between two
    digits; otherwise the literal is refused. *)
Fixpoint drop_underscores (prev : option ascii) (s : list ascii)
  : option (list ascii) :=
  match s with
  | [] => match prev with
          | Some p => if Ascii.eqb p "_" then None else Some []
          | None => Some []
          end
  | c :: s' =>
      if Ascii.eqb c "_" then
        match prev with
        | Some p => if is_digit p then drop_underscores (Some c) s' else None
        | None => None
        end
      else
        let bad := match prev with
                   | Some p => Ascii.eqb p "_" && negb (is_digit c)
                   | None => false
                   end in
        if bad then None
        else option_map (cons c) (drop_underscores (Some c) s')
  end.

Definition pow10 (e : Z) : Q :=
  if 0 <=? e then inject_Z (10 ^ e) else Qmake 1 (Z.to_pos (10 ^ (- e))).

(** An unsigned decimal literal [digits [. digits] [e [sign] digits]]. *)
Definition decimal_literal (s : list ascii) : option Q :=
  let '(ip, r1) := take_digits s in
  let '(fp, r2) := match r1 with
                   | "."%char :: r => take_digits r
                   | _ => ([], r1)
                   end in
  match ip ++ fp with
  | [] => None
  | ds =>
      let finish (e : Z) (rest : list ascii) :=
        match rest with
        | [] => Some (Qmult (inject_Z (digits_value ds))
                            (pow10 (e - Z.of_nat (length fp))))
        | _ => None
        end in
      match r2 with
      | c :: r =>
          if Ascii.eqb (lower c) "e" then
            let '(neg, r') := match r with
                              | "-"%char :: t => (true, t)
                              | "+"%char :: t => (false, t)
                              | _ => (false, r)
                              end in
            let '(ed, r3) := take_digits r' in
            match ed with
            | [] => None
            | _ => finish (if neg then - digits_value ed else digits_value ed) r3
            end
          else None
      | [] => finish 0 []
      end
  end.

(** [float(s)] on a string. *)
Definition float_of_str (s : list ascii) : result pyfloat :=
  match drop_underscores None (strip s) with
  | None => Raise ValueError
  | Some t =>
      let '(neg, u) := match t with
                       | "-"%char :: r => (true, r)
                       | "+"%char :: r => (false, r)
                       | _ => (false, t)
                       end in
      let word := string_of_list_ascii (map lower u) in
      if String.eqb word "inf" || String.eqb word "infinity" then Ok (Inf neg)
      else if String.eqb word "nan" then Ok NaN
      else match decimal_literal u with
           | Some q => Ok (float_of_Q (if neg then Qopp q else q))
           | None => Raise ValueError
           end
  end.

(** ** datetime *)

Record datetime : Type := mkDatetime {
  year : Z; month : Z; day : Z;
  hour : Z; minute : Z; second : Z; microsecond : Z
}.

Definition is_leap (y : Z) : bool :=
  (y mod 4 =? 0) && (negb (y mod 100 =? 0) || (y mod 400 =? 0)).

Definition days_in_month (y m : Z) : Z :=
  if m =? 2 then (if is_leap y then 29 else 28)
  else if (m =? 4) || (m =? 6) || (m =? 9) || (m =? 11) then 30
  else 31.

(** The constructor [datetime(y, m, d, H, M, S)] checks every field. *)
Definition datetime_new (y m d hh mm ss : Z) : result datetime :=
  if (1 <=? y) && (y <=? 9999) && (1 <=? m) && (m <=? 12)
     && (1 <=? d) && (d <=? days_in_month y m)
     && (0 <=? hh) && (hh <=? 23) && (0 <=? mm) && (mm <=? 59)
     && (0 <=? ss) && (ss <=? 59)
  then Ok (mkDatetime y m d hh mm ss 0)
  else Raise ValueError.

Fixpoint lex_compare (a b : list Z) : comparison :=
  match a, b with
  | [], [] => Eq
  | [], _ :: _ => Lt
  | _ :: _, [] => Gt
  | x :: a', y :: b' =>
      match x ?= y with
      | Eq => lex_compare a' b'
      | c => c
      end
  end.

Definition fields (t : datetime) : list Z :=
  [year t; month t; day t; hour t; minute t; second t; microsecond t].

(** Datetimes compare field by field, the year first. *)
Definition dt_compare (a b : datetime) : comparison :=
  lex_compare (fields a) (fields b).

Definition dt_lt (a b : datetime) : bool :=
  match dt_compare a b with Lt => true | _ => false end.

Definition dt_gt (a b : datetime) : bool := dt_lt b a.

Definition dt_le (a b : datetime) : bool :=
  match dt_compare a b with Gt => false | _ => true end.

(** [t] lies in the closed interval from [a] to [b]. *)
Definition in_range (a b t : datetime) : bool := dt_le a t && dt_le t b.

(** *** strptime

    [strptime] turns the format into a regular expression: a directive
    becomes a group of alternatives tried from left to right, a blank becomes
    [\s+], any other character stands for itself.  The text must match from
    its start; what the match leaves over is an error. *)

Inductive token : Type :=
| Lit (c : ascii)
| Spaces
| Group (alts : list (list (ascii -> bool))).

Definition range (lo hi : ascii) (c : ascii) : bool :=
  (code lo <=? code c) && (code c <=? code hi).

Definition digit : ascii -> bool := is_digit.

Definition directive_Y : token := Group [[digit; digit; digit; digit]].

Definition directive_m : token :=
  Group [[Ascii.eqb "1"; range "0" "2"]; [Ascii.eqb "0"; range "1" "9"];
         [range "1" "9"]].

Definition directive_d : token :=
  Group [[Ascii.eqb "3"; range "0" "1"]; [range "1" "2"; digit];
         [Ascii.eqb "0"; range "1" "9"]; [range "1" "9"];
         [Ascii.eqb " "; range "1" "9"]].

Definition directive_H : token :=
  Group [[Ascii.eqb "2"; range "0" "3"]; [range "0" "1"; digit]; [digit]].

Definition directive_M : token := Group [[range "0" "5"; digit]; [digit]].

Definition directive_S : token :=
  Group [[Ascii.eqb "6"; range "0" "1"]; [range "0" "5"; digit]; [digit]].

Fixpoint match_classes (cls : list (ascii -> bool)) (s : list ascii)
  : option (list ascii * list ascii) :=
  match cls with
  | [] => Some ([], s)
  | p :: cls' =>
      match s with
      | c :: s' =>
          if p c then
            match match_classes cls' s' with
            | Some (txt, r) => Some (c :: txt, r)
            | None => None
            end
          else None
      | [] => None
      end
  end.

Fixpoint first_alt {X : Type} (alts : list (list (ascii -> bool)))
  (k : list ascii -> list ascii -> option X) (s : list ascii) : option X :=
  match alts with
  | [] => None
  | a :: rest =>
      match match_classes a s with
      | Some (txt, r) =>
          match k txt r with
          | Some x => Some x
          | None => first_alt rest k s
          end
      | None => first_alt rest k s
      end
  end.

(** The tail of [\s+] once one blank is consumed: as many more as the rest
    of the expression allows. *)
Fixpoint more_spaces {X : Type} (k : list ascii -> option X) (s : list ascii)
  : option X :=
  match s with
  | c :: s' =>
      if is_space c then
        match more_spaces k s' with
        | Some x => Some x
        | None => k s
        end
      else k s
  | [] => k s
  end.

(** The groups of the first match of the expression at the start of [s],
    with the text left over. *)
Fixpoint match_tokens (ts : list token) (s : list ascii)
  : option (list (list ascii) * list ascii) :=
  match ts with
  | [] => Some ([], s)
  | Lit c :: ts' =>
      match s with
      | x :: s' => if Ascii.eqb x c then match_tokens ts' s' else None
      | [] => None
      end
  | Spaces :: ts' =>
      match s with
      | x :: s' => if is_space x then more_spaces (match_tokens ts') s' else None
      | [] => None
      end
  | Group alts :: ts' =>
      first_alt alts
        (fun txt r => match match_tokens ts' r with
                      | Some (gs, rest) => Some (txt :: gs, rest)
                      | None => None
                      end) s
  end.

Fixpoint mapM {A B : Type} (f : A -> result B) (l : list A) : result (list B) :=
  match l with
  | [] => Ok []
  | x :: l' => y <- f x ;; ys <- mapM f l' ;; Ok (y :: ys)
  end.

Definition strptime_groups (ts : list token) (s : list ascii) : result (list Z) :=
  match match_tokens ts s with
  | Some (gs, []) => mapM int_of_str gs
  | _ => Raise ValueError
  end.

(** [datetime.strptime(s, "%Y-%m-%d %H:%M:%S")]. *)
Definition strptime_datetime (s : list ascii) : result datetime :=
  gs <- strptime_groups
          [directive_Y; Lit "-"; directive_m; Lit "-"; directive_d; Spaces;
           directive_H; Lit ":"; directive_M; Lit ":"; directive_S] s ;;
  match gs with
  | [y; m; d; hh; mm; ss] => datetime_new y m d hh mm ss
  | _ => Raise ValueError
  end.

(** [datetime.strptime(s, "%Y-%m-%d")]. *)
Definition strptime_date (s : list ascii) : result datetime :=
  gs <- strptime_groups
          [directive_Y; Lit "-"; directive_m; Lit "-"; directive_d] s ;;
  match gs with
  | [y; m; d] => datetime_new y m d 0 0 0
  | _ => Raise ValueError
  end.

(** ** The catalog: [DataType] and [DataTypeArchive] *)

Module DataType.

Record t : Type := mk {
  symbol : string;
  unit : string;
  fileName : string;
  italianName : string;
  precision : Z
}.

(** [__init__] with the default [precision = 2]. *)
Definition init (symbol unit fileName italianName : string) : t :=
  mk symbol unit fileName italianName 2.

(** [__eq__]: two data types are equal when their symbols are. *)
Definition eq (self other : t) : bool := String.eqb (symbol self) (symbol other).

End DataType.

Inductive Symbols : Type :=
| temperature
| humidity
| pressure
| pm10
| pm25
| smoke.

Definition Symbols_value (m : Symbols) : string :=
  match m with
  | temperature => "T"
  | humidity => "H"
  | pressure => "P"
  | pm10 => "PM10"
  | pm25 => "PM25"
  | smoke => "S"
  end.

Definition Symbols_members : list Symbols :=
  [temperature; humidity; pressure; pm10; pm25; smoke].

(** [Symbols(v)]: the member whose value is [v]. *)
Definition Symbols_of_value (v : string) : result Symbols :=
  match find (fun m => String.eqb (Symbols_value m) v) Symbols_members with
  | Some m => Ok m
  | None => Raise ValueError
  end.

Definition Symbols_eqb (a b : Symbols) : bool :=
  String.eqb (Symbols_value a) (Symbols_value b).

Arguments Symbols_eqb : simpl never.

Definition data : list DataType.t :=
  [ DataType.init "T" "°C" "temperature.csv" "Temperatura";
    DataType.init "H" "%" "humidity.csv" "Umidità";
    DataType.init "P" "hPa" "pressure.csv" "Pressione";
    DataType.init "PM10" "µg/m³" "pm10.csv" "PM10";
    DataType.init "PM25" "µg/m³" "pm25.csv" "PM2,5";
    DataType.init "S" "µg/m³" "smoke.csv" "Fumo e vapori infiammabili" ].

Definition fromSymbol (symbol : string) : option DataType.t :=
  find (fun dataType => String.eqb (DataType.symbol dataType) symbol) data.

Definition fromUnit (unit : string) : option DataType.t :=
  find (fun dataType => String.eqb (DataType.unit dataType) unit) data.

Definition fromFileName (fileName : string) : option DataType.t :=
  find (fun dataType => String.eqb (DataType.fileName dataType) fileName) data.

Definition fromItalianName (italianName : string) : option DataType.t :=
  find (fun dataType => String.eqb (DataType.italianName dataType) italianName) data.

(** ** Value *)

Record Value : Type := mkValue {
  value : pyfloat;
  symbol : Symbols;
  instant : datetime
}.

(** An attribute of the entry a lookup returned; [None] has none. *)
Definition attribute {A : Type} (o : option DataType.t) (f : DataType.t -> A)
  : result A :=
  match o with
  | Some dataType => Ok (f dataType)
  | None => Raise AttributeError
  end.

(** [Value.__init__]. *)
Definition Value_init (v : pyfloat) (sym : Symbols) (instant : datetime)
  : result Value :=
  p <- attribute (fromSymbol (Symbols_value sym)) DataType.precision ;;
  r <- py_round v p ;;
  Ok (mkValue r sym instant).

(** ** The archive on disk

    The tree under [dati]: a directory lists its entries in the order in
    which the operating system enumerates them. *)

#[warnings="-register-all"]
Inductive node : Type :=
| File (content : string)
| Dir (entries : list (string * node)).

(** [fnmatch] for patterns made of plain characters, [*] and [?]. *)
Fixpoint fnmatch (pat : list ascii) : list ascii -> bool :=
  match pat with
  | [] => fun name => match name with [] => true | _ => false end
  | p :: pat' =>
      if Ascii.eqb p "*" then
        fix star (name : list ascii) : bool :=
          fnmatch pat' name ||
          match name with
          | [] => false
          | _ :: name' => star name'
          end
      else if Ascii.eqb p "?" then
        fun name => match name with
                    | _ :: name' => fnmatch pat' name'
                    | [] => false
                    end
      else
        fun name => match name with
                    | c :: name' => Ascii.eqb c p && fnmatch pat' name'
                    | [] => false
                    end
  end.

Definition ishidden (name : string) : bool :=
  match name with
  | String "." _ => true
  | _ => false
  end.

(** [glob.glob(dirname + "/" + pattern)] where [d] is what [dirname] names
    and only [pattern] has wildcards: the visible entries of the directory
    that match, as paths; nothing when [d] is not a directory. *)
Definition glob (dirname : string) (d : node) (pattern : string)
  : list (string * node) :=
  match d with
  | File _ => []
  | Dir entries =>
      map (fun e => (dirname ++ "/" ++ fst e, snd e)%string)
        (filter (fun e => (ishidden pattern || negb (ishidden (fst e)))
                          && fnmatch (list_ascii_of_string pattern)
                                     (list_ascii_of_string (fst e)))
           entries)
  end.

(** The names that the pattern [2*] of the scan admits. *)
Definition begins_with_2 (name : string) : bool :=
  match name with
  | String "2" _ => true
  | _ => false
  end.

Definition newline : ascii := "010".
Definition carriage_return : ascii := "013".

(** [f.readlines()] in text mode: each line keeps its end, and every kind of
    line end is delivered as a newline. *)
Fixpoint readlines_from (cur : list ascii) (s : list ascii) : list (list ascii) :=
  match s with
  | [] => match cur with [] => [] | _ => [rev cur] end
  | c :: s' =>
      if Ascii.eqb c newline then rev (newline :: cur) :: readlines_from [] s'
      else if Ascii.eqb c carriage_return then
        rev (newline :: cur) ::
        match s' with
        | c' :: s'' => if Ascii.eqb c' newline then readlines_from [] s''
                       else readlines_from [] s'
        | [] => readlines_from [] s'
        end
      else readlines_from (c :: cur) s'
  end.

(** [open(path, "r")] followed by [readlines()]. *)
Definition open_readlines (n : node) : result (list (list ascii)) :=
  match n with
  | File content => Ok (readlines_from [] (list_ascii_of_string content))
  | Dir _ => Raise IsADirectoryError
  end.

(** ** DataArchive *)

(** [__lastPathElement]. *)
Definition lastPathElement (path : string) : list ascii :=
  last (split "/" (list_ascii_of_string path)) [].

(** A [for] loop whose body updates a state and may raise. *)
Fixpoint for_each {A S : Type} (l : list A) (body : S -> A -> result S) (s : S)
  : result S :=
  match l with
  | [] => Ok s
  | x :: l' => s' <- body s x ;; for_each l' body s'
  end.

Definition dash : list ascii := ["-"%char].

Section betweenDatetimes.

Variables start end_ : datetime.

(** One line of a CSV file. *)
Definition scan_line (type : Symbols) (found : list Value) (line : list ascii)
  : result (list Value) :=
  let l := split "," line in
  if (length l <? 2)%nat then Ok found
  else
    dateT <- strptime_datetime (nth 0 l []) ;;
    if dt_gt start dateT || dt_lt end_ dateT then Ok found
    else
      x <- float_of_str (nth 1 l []) ;;
      v <- Value_init x type dateT ;;
      Ok (found ++ [v]).

(** One CSV file of a day. *)
Definition scan_file (found : list Value) (element : string * node)
  : result (list Value) :=
  let '(elementPath, elementNode) := element in
  let lep := string_of_list_ascii (lastPathElement elementPath) in
  sym <- attribute (fromFileName lep) DataType.symbol ;;
  type <- Symbols_of_value sym ;;
  lines <- open_readlines elementNode ;;
  for_each lines (scan_line type) found.

(** One day directory. *)
Definition scan_day (year month : Z) (found : list Value) (d : string * node)
  : result (list Value) :=
  let '(dPath, dNode) := d in
  day <- int_of_str (lastPathElement dPath) ;;
  pivot <- strptime_date
             (zfill (str_of_int year) 4 ++ dash ++ zfill (str_of_int month) 2
              ++ dash ++ zfill (str_of_int day) 2) ;;
  if dt_gt start pivot || dt_gt pivot end_ then Ok found
  else for_each (glob dPath dNode "*.csv") scan_file found.

(** One month directory. *)
Definition scan_month (year : Z) (found : list Value) (m : string * node)
  : result (list Value) :=
  let '(mPath, mNode) := m in
  month <- int_of_str (lastPathElement mPath) ;;
  for_each (glob mPath mNode "*") (scan_day year month) found.

(** One year directory. *)
Definition scan_year (found : list Value) (y : string * node)
  : result (list Value) :=
  let '(yPath, yNode) := y in
  year <- int_of_str (lastPathElement yPath) ;;
  for_each (glob yPath yNode "*") (scan_month year) found.

(** [DataArchive.betweenDatetimes(start, end)] over the tree [dati]. *)
Definition betweenDatetimes (dati : node) : result (list Value) :=
  for_each (glob "dati" dati "2*") scan_year [].

End betweenDatetimes.

(** What the scan promises of a reading: it was built by [Value.__init__]
    from some parsed float, and its instant passed the row filter. *)
Definition scanned (start end_ : datetime) (v : Value) : Prop :=
  (exists x, Value_init x (symbol v) (instant v) = Ok v) /\
  dt_gt start (instant v) = false /\ dt_lt end_ (instant v) = false.

(** The value stored in [v] is [x] rounded to the precision that the
    catalog declares for the symbol of [v]. *)
Definition rounded_to_precision (x : pyfloat) (v : Value) : Prop :=
  exists dataType,
    fromSymbol (Symbols_value (symbol v)) = Some dataType /\
    py_round x (DataType.precision dataType) = Ok (value v).

(** The row [line] has a timestamp [t] within the range. *)
Definition row_in_range (start end_ : datetime) (line : list ascii)
  (t : datetime) : Prop :=
  (2 <= length (split "," line))%nat /\
  strptime_datetime (nth 0 (split "," line) []) = Ok t /\
  in_range start end_ t = true.

(** [v] is the reading that the row [line], of timestamp [t], stands for. *)
Definition reading_of_row (line : list ascii) (t : datetime) (v : Value) : Prop :=
  exists x,
    float_of_str (nth 1 (split "," line) []) = Ok x /\
    py_round x 2 = Ok (value v) /\ instant v = t.

(** The date that the scan composes for a day directory. *)
Definition pivot_of (year month day : Z) : result datetime :=
  strptime_date
    (zfill (str_of_int year) 4 ++ dash ++ zfill (str_of_int month) 2
     ++ dash ++ zfill (str_of_int day) 2).

(** A float literal of the source text. *)
Definition literal (text : string) : pyfloat :=
  match float_of_str (list_ascii_of_string text) with
  | Ok x => x
  | Raise _ => NaN
  end.

Definition line (text : string) : string := text ++ String newline EmptyString.

(** An archive with one day, 10 May 2023, and one temperature reading on it,
    at noon. *)
Definition one_day_archive : node :=
  Dir [("2023"%string,
        Dir [("05"%string,
              Dir [("10"%string,
                    Dir [("temperature.csv"%string,
                          File (line "2023-05-10 12:00:00,20.0"))])])])].

(** The same day filed under the years 1999 and 3000. *)
Definition other_years_archive : node :=
  match one_day_archive with
  | Dir [(_, y)] => Dir [("1999"%string, y); ("3000"%string, y)]
  | _ => Dir []
  end.

(** ** The [statistics] module

    [mean] and [stdev] work on the exact ratios of their data, as fractions
    in lowest terms, and round once, at the end. *)

Definition exact_ratio (x : pyfloat) : option Q :=
  match x with
  | Fin q => Some q
  | _ => None
  end.

Fixpoint exact_ratios (data : list pyfloat) : option (list Q) :=
  match data with
  | [] => Some []
  | x :: data' =>
      match exact_ratio x, exact_ratios data' with
      | Some q, Some qs => Some (q :: qs)
      | _, _ => None
      end
  end.

Definition Qsum (l : list Q) : Q := fold_right Qplus 0%Q l.

Definition count (l : list Q) : Q := inject_Z (Z.of_nat (length l)).

(** Float addition when an operand is not finite. *)
Definition special_add (a b : pyfloat) : pyfloat :=
  match a, b with
  | NaN, _ | _, NaN => NaN
  | Inf x, Inf y => if Bool.eqb x y then a else NaN
  | Inf _, _ => a
  | _, _ => b
  end.

(** The sum of the data that are not finite: what [_sum] and [_ss] return
    when there are any. *)
Definition special_sum (data : list pyfloat) : pyfloat :=
  fold_left (fun acc x => match x with Fin _ => acc | _ => special_add acc x end)
    data (Fin 0).

(** [statistics.mean] on floats. *)
Definition mean (data : list pyfloat) : result pyfloat :=
  if (length data <? 1)%nat then Raise StatisticsError
  else match exact_ratios data with
       | Some qs => true_division (Qred (Qsum qs / count qs))
       | None => Ok (special_sum data)
       end.

(** [float(statistics.mean(data))] on integers. *)
Definition float_mean_int (data : list Z) : result pyfloat :=
  if (length data <? 1)%nat then Raise StatisticsError
  else true_division
         (Qred (Qsum (map inject_Z data) / count (map inject_Z data))).

Definition bit_length (n : Z) : Z := if n =? 0 then 0 else Z.log2 (Z.abs n) + 1.

(** [_integer_sqrt_of_frac_rto]: the square root of [n / m] rounded to odd. *)
Definition integer_sqrt_of_frac_rto (n m : Z) : Z :=
  let a := Z.sqrt (n / m) in
  Z.lor a (if a * a * m =? n then 0 else 1).

(** [_float_sqrt_of_frac]: the square root of [n / m], correctly rounded. *)
Definition float_sqrt_of_frac (n m : Z) : result pyfloat :=
  let q := (bit_length n - bit_length m - 109) / 2 in
  if 0 <=? q
  then true_division
         (inject_Z (integer_sqrt_of_frac_rto n (m * 2 ^ (2 * q)) * 2 ^ q))
  else true_division
         (Qmake (integer_sqrt_of_frac_rto (n * 2 ^ (- 2 * q)) m)
                (Z.to_pos (2 ^ (- q)))).

(** The sum of squared deviations from the mean, as [_ss] computes it. *)
Definition ssd (qs : list Q) : Q :=
  let sx := Qsum qs in
  let sxx := Qsum (map (fun x => x * x)%Q qs) in
  ((count qs * sxx - sx * sx) / count qs)%Q.

(** [statistics.stdev] on floats. *)
Definition stdev (data : list pyfloat) : result pyfloat :=
  if (length data <? 2)%nat then Raise StatisticsError
  else match exact_ratios data with
       | Some qs =>
           let mss := Qred (ssd qs / (count qs - 1)) in
           float_sqrt_of_frac (Qnum mss) (Zpos (Qden mss))
       | None => Raise AttributeError
       end.

(** ** Stats *)

(** A dictionary keyed by [Symbols], in insertion order. *)
Definition dict (V : Type) : Type := list (Symbols * V).

Fixpoint get {V : Type} (m : dict V) (k : Symbols) : option V :=
  match m with
  | [] => None
  | (k', v) :: m' => if Symbols_eqb k' k then Some v else get m' k
  end.

Definition contains {V : Type} (m : dict V) (k : Symbols) : bool :=
  match get m k with Some _ => true | None => false end.

(** [m[k] = v]: an existing key keeps its place. *)
Fixpoint set {V : Type} (m : dict V) (k : Symbols) (v : V) : dict V :=
  match m with
  | [] => [(k, v)]
  | (k', v') :: m' =>
      if Symbols_eqb k' k then (k', v) :: m' else (k', v') :: set m' k v
  end.

Definition keys {V : Type} (m : dict V) : list Symbols := map fst m.

(** [m[k]]. *)
Definition getitem {V : Type} (m : dict V) (k : Symbols) : result V :=
  match get m k with
  | Some v => Ok v
  | None => Raise KeyError
  end.

(** The two lists kept for a symbol in [tempMap]. *)
Record lists : Type := mkLists {
  values : list pyfloat;   (* "list" *)
  iList : list Z
}.

(** An entry of [resultMap] during the pass over the readings. *)
Record running : Type := mkRunning {
  run_max : Value;
  run_min : Value;
  run_itemCount : Z
}.

(** An entry of [resultMap] once the statistics are added. *)
Record aggregate : Type := mkAggregate {
  agg_max : Value;
  agg_min : Value;
  itemCount : Z;
  agg_stdev : pyfloat;
  agg_mean : pyfloat;
  mode : pyfloat
}.

Section Stats.

(** The default [instant] of [Value.__init__], evaluated once when the class
    is defined. *)
Variable default_instant : datetime.

(** [Value(v)] with the default symbol and instant. *)
Definition Value_default (v : pyfloat) : result Value :=
  Value_init v temperature default_instant.

(** The body of the first loop. *)
Definition Stats_step (maps : dict lists * dict running) (el : Value)
  : result (dict lists * dict running) :=
  let '(tempMap, resultMap) := maps in
  let tempMap :=
    if negb (contains tempMap (symbol el))
    then set tempMap (symbol el) (mkLists [] [])
    else tempMap in
  resultMap <-
    (if negb (contains resultMap (symbol el))
     then vmax <- Value_default (Fin (-10000000)) ;;
          vmin <- Value_default (Fin 10000000) ;;
          Ok (set resultMap (symbol el) (mkRunning vmax vmin 0))
     else Ok resultMap) ;;
  r <- getitem resultMap (symbol el) ;;
  let r :=
    if float_gt (value el) (value (run_max r))
    then mkRunning el (run_min r) (run_itemCount r)
    else if float_lt (value el) (value (run_min r))
    then mkRunning (run_max r) el (run_itemCount r)
    else r in
  t <- getitem tempMap (symbol el) ;;
  let t := mkLists (values t ++ [value el]) (iList t) in
  i <- py_int (value el) ;;
  let t := mkLists (values t) (iList t ++ [i]) in
  let r := mkRunning (run_max r) (run_min r) (run_itemCount r + 1) in
  Ok (set tempMap (symbol el) t, set resultMap (symbol el) r).

(** The first loop. *)
Definition first_pass (dataList : list Value)
  : result (dict lists * dict running) :=
  for_each dataList Stats_step ([], []).

(** The body of the second loop, for one key of [resultMap]. *)
Definition finish (tempMap : dict lists) (entry : Symbols * running)
  : result (Symbols * aggregate) :=
  let '(sym, r) := entry in
  t <- getitem tempMap sym ;;
  sd <- stdev (values t) ;;
  t <- getitem tempMap sym ;;
  mn <- mean (values t) ;;
  t <- getitem tempMap sym ;;
  md <- float_mean_int (iList t) ;;
  Ok (sym, mkAggregate (run_max r) (run_min r) (run_itemCount r) sd mn md).

(** [Stats.__init__]: the [results] attribute it sets. *)
Definition Stats (dataList : list Value) : result (dict aggregate) :=
  '(tempMap, resultMap) <- first_pass dataList ;;
  mapM (finish tempMap) resultMap.

End Stats.

(** *** What the specification says of the aggregates *)

(** The readings of the input that carry the symbol [s], in input order. *)
Definition readings (s : Symbols) (dataList : list Value) : list Value :=
  filter (fun el => Symbols_eqb (symbol el) s) dataList.

Definition Zsum (l : list Z) : Z := fold_right Z.add 0 l.

(** The sum of [itemCount] over the symbols of the result. *)
Definition total_itemCount (results : dict aggregate) : Z :=
  Zsum (map (fun kv => itemCount (snd kv)) results).

Definition running_total (resultMap : dict running) : Z :=
  Zsum (map (fun kv => run_itemCount (snd kv)) resultMap).

(** The arithmetic mean of the values truncated to integers, as a float. *)
Definition truncated_mean (vals : list pyfloat) : result pyfloat :=
  ints <- mapM py_int vals ;;
  true_division (Qred (inject_Z (Zsum ints) / inject_Z (Z.of_nat (length ints)))).



(** The entry with which a symbol enters [resultMap]. *)
Definition seeded (default_instant : datetime) : running :=
  mkRunning (mkValue (Fin (-10000000)) temperature default_instant)
            (mkValue (Fin 10000000) temperature default_instant) 0.

(** The entry of a symbol after one more of its readings. *)
Definition observe (r : running) (el : Value) : running :=
  if float_gt (value el) (value (run_max r))
  then mkRunning el (run_min r) (run_itemCount r + 1)
  else if float_lt (value el) (value (run_min r))
  then mkRunning (run_max r) el (run_itemCount r + 1)
  else mkRunning (run_max r) (run_min r) (run_itemCount r + 1).

(** [m.get(k, d)]. *)
Definition get_default {V : Type} (m : dict V) (k : Symbols) (d : V) : V :=
  match get m k with
  | Some v => v
  | None => d
  end.

(** The maps of the first loop record the readings of [dataList]: a symbol
    is a key exactly when it has readings, [tempMap] holds their values and
    the truncations of these, in input order, and [itemCount] is their
    number. *)
Definition tracked (dataList : list Value) (maps : dict lists * dict running)
  : Prop :=
  forall s,
    (readings s dataList = [] ->
     get (fst maps) s = None /\ get (snd maps) s = None) /\
    (readings s dataList <> [] ->
     exists ints r,
       mapM py_int (map value (readings s dataList)) = Ok ints /\
       get (fst maps) s
       = Some (mkLists (map value (readings s dataList)) ints) /\
       get (snd maps) s = Some r /\
       run_itemCount r = Z.of_nat (length (readings s dataList))).

(** The entries of [resultMap] have a finite [max] that bounds the readings
    seen so far. *)
Definition max_bounds (dataList : list Value) (resultMap : dict running) : Prop :=
  forall s r,
    get resultMap s = Some r ->
    (exists m, value (run_max r) = Fin m) /\
    forall el, In el (readings s dataList) ->
               float_le (value el) (value (run_max r)) = true.

Definition at_hour (h : Z) : datetime := mkDatetime 2023 5 10 h 0 0 0.

(** Two temperature readings, rising. *)
Definition rising : list Value :=
  [mkValue (Fin 1) temperature (at_hour 8);
   mkValue (Fin 2) temperature (at_hour 9)].

(** Three temperature readings of which two agree. *)
Definition skewed : list Value :=
  [mkValue (Fin 1) temperature (at_hour 8);
   mkValue (Fin 1) temperature (at_hour 9);
   mkValue (Fin 4) temperature (at_hour 10)].

(** What [Stats] returns, the empty dictionary standing for an exception. *)
Definition results_of (t : datetime) (dataList : list Value) : dict aggregate :=
  match Stats t dataList with
  | Ok results => results
  | Raise _ => []
  end.

(** The aggregate of the temperature in a dictionary that has one. *)
Definition temperature_of (results : dict aggregate) : aggregate :=
  match get results temperature with
  | Some a => a
  | None => mkAggregate (mkValue NaN temperature (at_hour 0))
              (mkValue NaN temperature (at_hour 0)) 0 NaN NaN NaN
  end.

(** One temperature reading. *)
Definition lone : list Value := [mkValue (Fin 5) temperature (at_hour 8)].

(** ** Further properties: what they speak of *)

(** [DataTypeArchive.__len__]. *)
Definition DataTypeArchive_len : nat := length data.

(** What a lookup loop returns for [key] on the attribute [field]: the first
    entry of the catalog that carries the key, [None] when no entry does. *)
Definition first_match (field : DataType.t -> string) (key : string)
  (found : option DataType.t) : Prop :=
  match found with
  | Some e =>
      exists before after,
        data = before ++ e :: after /\ field e = key /\
        Forall (fun dataType => field dataType <> key) before
  | None => Forall (fun dataType => field dataType <> key) data
  end.

(** The member of [Symbols] for a CSV file name, as the scan derives it:
    [Symbols(fromFileName(lep).symbol)]. *)
Definition type_of_file (lep : string) : result Symbols :=
  sym <- attribute (fromFileName lep) DataType.symbol ;;
  Symbols_of_value sym.

(** A name without a slash, as the entries of a directory are. *)
Definition no_slash (name : string) : Prop :=
  ~ In "/"%char (list_ascii_of_string name).

(** The entries of a node; a file has none. *)
Definition entries_of (d : node) : list (string * node) :=
  match d with
  | Dir entries => entries
  | File _ => []
  end.

(** ASCII text.  The functions above read a character as one byte; they are
    what the code does on text in which every character is ASCII, where
    decoding a file cannot fail and a digit or a blank is an ASCII one. *)
Definition is_ascii (c : ascii) : bool := code c <? 128.

Definition ascii_text (s : string) : bool :=
  forallb is_ascii (list_ascii_of_string s).

(** An archive in which every name and the content of every file is ASCII
    text. *)
Fixpoint ascii_archive (n : node) : bool :=
  match n with
  | File content => ascii_text content
  | Dir entries =>
      (fix all (l : list (string * node)) : bool :=
         match l with
         | [] => true
         | (name, child) :: l' =>
             ascii_text name && ascii_archive child && all l'
         end) entries
  end.

(** A visible entry name, in ASCII, that [int] refuses: not a year, month
    or day. *)
Definition stray (name : string) : Prop :=
  ascii_text name = true /\ no_slash name /\ ishidden name = false /\
  exists e, int_of_str (list_ascii_of_string name) = Raise e.

(** A visible entry name that [int] reads as [n]. *)
Definition numbered (name : string) (n : Z) : Prop :=
  no_slash name /\ ishidden name = false /\
  int_of_str (list_ascii_of_string name) = Ok n.

(** The CSV files of the day directories whose composed date is [pivot]:
    those that [*.csv] lists in a day directory, the day being listed by [*]
    in a month directory, that one by [*] in a year directory, and that one
    by [2*] in [dati], each with a name that [int] reads. *)
Definition opened_on (dati : node) (pivot : datetime) (fPath : string)
  (fNode : node) : Prop :=
  exists yPath yNode mPath mNode dPath dNode year month day,
    In (yPath, yNode) (glob "dati" dati "2*") /\
    int_of_str (lastPathElement yPath) = Ok year /\
    In (mPath, mNode) (glob yPath yNode "*") /\
    int_of_str (lastPathElement mPath) = Ok month /\
    In (dPath, dNode) (glob mPath mNode "*") /\
    int_of_str (lastPathElement dPath) = Ok day /\
    pivot_of year month day = Ok pivot /\
    In (fPath, fNode) (glob dPath dNode "*.csv").

(** The CSV files that a scan over [start], [end_] opens when nothing raises
    before: those of the day directories whose date, at midnight, is in the
    range. *)
Definition opened (start end_ : datetime) (dati : node) (fPath : string)
  (fNode : node) : Prop :=
  exists pivot,
    opened_on dati pivot fPath fNode /\ in_range start end_ pivot = true.

(** [v] is the reading of a row in the range of the file at [fPath]. *)
Definition read_from (start end_ : datetime) (fPath : string) (fNode : node)
  (v : Value) : Prop :=
  exists lines line t,
    type_of_file (string_of_list_ascii (lastPathElement fPath)) = Ok (symbol v) /\
    open_readlines fNode = Ok lines /\
    In line lines /\
    row_in_range start end_ line t /\
    reading_of_row line t v.

(** What makes the scan of one file raise: a name that is not in the catalog,
    a directory in place of the file, a row of two fields or more whose first
    is no timestamp, or a row in the range whose second is no float. *)
Definition unreadable (start end_ : datetime) (fPath : string) (fNode : node)
  : Prop :=
  fromFileName (string_of_list_ascii (lastPathElement fPath)) = None \/
  (exists entries, fNode = Dir entries) \/
  (exists content line e,
      fNode = File content /\
      In line (readlines_from [] (list_ascii_of_string content)) /\
      (2 <= length (split "," line))%nat /\
      strptime_datetime (nth 0 (split "," line) []) = Raise e) \/
  (exists content line t e,
      fNode = File content /\
      In line (readlines_from [] (list_ascii_of_string content)) /\
      row_in_range start end_ line t /\
      float_of_str (nth 1 (split "," line) []) = Raise e).

(** The day of [one_day_archive] with a CSV file that the catalog does not
    know, and a year with a note beside its months. *)
Definition wind_archive : node :=
  Dir [("2023"%string,
        Dir [("05"%string,
              Dir [("10"%string, Dir [("wind.csv"%string, File "")])])])].

Definition noted_archive : list (string * node) :=
  [("2023"%string, Dir [("README"%string, File "")])].

(** The years 1 to 9999, the months and the days of the month. *)
Definition all_years : list Z := map Z.of_nat (seq 1 (Z.to_nat 9999)).
Definition all_months : list Z := map Z.of_nat (seq 1 12).
Definition all_days : list Z := map Z.of_nat (seq 1 31).

(** [str(year).zfill(4)] is four digits that [int] reads back as the year. *)
Definition year_text_ok (y : Z) : bool :=
  match zfill (str_of_int y) 4 with
  | [a; b; c; e] =>
      digit a && digit b && digit c && digit e &&
      match int_of_str [a; b; c; e] with
      | Ok y' => y' =? y
      | Raise _ => false
      end
  | _ => false
  end.

(** After the year, [-mm-dd] is read back as the month and the day. *)
Definition month_day_text_ok (m d : Z) : bool :=
  match match_tokens [Lit "-"; directive_m; Lit "-"; directive_d]
          (dash ++ zfill (str_of_int m) 2 ++ dash ++ zfill (str_of_int d) 2)
  with
  | Some ([gm; gd], []) =>
      match int_of_str gm, int_of_str gd with
      | Ok m', Ok d' => (m' =? m) && (d' =? d)
      | _, _ => false
      end
  | _ => false
  end.

(** The arithmetic mean of exact values. *)
Definition arithmetic_mean (qs : list Q) : Q := (Qsum qs / count qs)%Q.

Definition is_finite (x : pyfloat) : Prop := exists q, x = Fin q.

(** The symbols of a list in the order in which each first appears. *)
Definition first_appearances (l : list Symbols) : list Symbols :=
  fold_left
    (fun seen k => if existsb (Symbols_eqb k) seen then seen else seen ++ [k])
    l [].

(** Three readings of two symbols, and the same with a humidity reading
    moved: the temperature readings keep their order. *)
Definition mixed : list Value :=
  [mkValue (Fin 1) temperature (at_hour 8);
   mkValue (Fin 50) humidity (at_hour 8);
   mkValue (Fin 2) temperature (at_hour 9);
   mkValue (Fin 60) humidity (at_hour 9)].

Definition mixed_again : list Value :=
  [mkValue (Fin 50) humidity (at_hour 8);
   mkValue (Fin 60) humidity (at_hour 9);
   mkValue (Fin 1) temperature (at_hour 8);
   mkValue (Fin 2) temperature (at_hour 9)].

(** The aggregate of a symbol in a dictionary that has one. *)
Definition aggregate_of (results : dict aggregate) (s : Symbols) : aggregate :=
  match get results s with
  | Some a => a
  | None => temperature_of []
  end.

(** One reading that is not a number, after a good one. *)
Definition with_nan : list Value :=
  [mkValue (Fin 1) temperature (at_hour 8);
   mkValue NaN temperature (at_hour 9);
   mkValue (Fin 2) temperature (at_hour 10)].

(** ** The fixed ranges: today, this month *)

(** [t.replace(hour=0, minute=0, second=0, microsecond=0)]. *)
Definition midnight (t : datetime) : datetime :=
  mkDatetime (year t) (month t) (day t) 0 0 0 0.

(** [t.replace(hour=0, minute=0, second=0, microsecond=0, day=1)]. *)
Definition first_of_month (t : datetime) : datetime :=
  mkDatetime (year t) (month t) 1 0 0 0 0.

(** [DataArchive.day()]: the clock is read twice, [now1] for the start and
    [now2] for the end. *)
Definition DataArchive_day (now1 now2 : datetime) (dati : node)
  : result (list Value) :=
  let start := midnight now1 in
  let end_ := now2 in
  betweenDatetimes start end_ dati.

(** [DataArchive.month()], the clock being read twice as well. *)
Definition DataArchive_month (now1 now2 : datetime) (dati : node)
  : result (list Value) :=
  let start := first_of_month now1 in
  let end_ := now2 in
  betweenDatetimes start end_ dati.

(** The time of day of a datetime is never negative. *)
Definition time_of_day_ok (t : datetime) : Prop :=
  0 <= hour t /\ 0 <= minute t /\ 0 <= second t /\ 0 <= microsecond t.

Definition is_midnight (t : datetime) : Prop :=
  hour t = 0 /\ minute t = 0 /\ second t = 0 /\ microsecond t = 0.

Definition noon_now : datetime := mkDatetime 2023 5 10 12 30 0 0.
Definition evening_now : datetime := mkDatetime 2023 5 10 18 0 0 1.

(** ** Days of the calendar: [datetime - timedelta], [weekday]

    The proleptic Gregorian ordinal of a date, day 1 being 1 January of
    year 1, after the [datetime] module. *)

Definition DAYS_IN_MONTH : list Z :=
  [-1; 31; 28; 31; 30; 31; 30; 31; 31; 30; 31; 30; 31].

Definition DAYS_BEFORE_MONTH : list Z :=
  [-1; 0; 31; 59; 90; 120; 151; 181; 212; 243; 273; 304; 334].

(** [l[i]], for the indices of the two tables. *)
Definition item (l : list Z) (i : Z) : Z := nth (Z.to_nat i) l 0.

Definition days_before_year (year : Z) : Z :=
  let y := year - 1 in y * 365 + y / 4 - y / 100 + y / 400.

Definition days_before_month (year month : Z) : Z :=
  item DAYS_BEFORE_MONTH month
  + (if (month >? 2) && is_leap year then 1 else 0).

Definition ymd2ord (year month day : Z) : Z :=
  days_before_year year + days_before_month year month + day.

(** [_ord2ymd]: the date of an ordinal.  The month is found by an estimate
    that is exact or one too large. *)
Definition ord2ymd (n : Z) : Z * Z * Z :=
  let n := n - 1 in
  let n400 := n / 146097 in
  let n := n mod 146097 in
  let year := n400 * 400 + 1 in
  let n100 := n / 36524 in
  let n := n mod 36524 in
  let n4 := n / 1461 in
  let n := n mod 1461 in
  let n1 := n / 365 in
  let n := n mod 365 in
  let year := year + n100 * 100 + n4 * 4 + n1 in
  if (n1 =? 4) || (n100 =? 4) then (year - 1, 12, 31)
  else
    let leapyear := (n1 =? 3) && (negb (n4 =? 24) || (n100 =? 3)) in
    let month := Z.shiftr (n + 50) 5 in
    let preceding :=
      item DAYS_BEFORE_MONTH month
      + (if (month >? 2) && leapyear then 1 else 0) in
    let '(month, preceding) :=
      if preceding >? n
      then (month - 1,
            preceding - (item DAYS_IN_MONTH (month - 1)
                         + (if (month - 1 =? 2) && leapyear then 1 else 0)))
      else (month, preceding) in
    (year, month, n - preceding + 1).

Definition toordinal (t : datetime) : Z :=
  ymd2ord (year t) (month t) (day t).

(** Monday is 0, Sunday is 6. *)
Definition weekday (t : datetime) : Z := (toordinal t + 6) mod 7.

Definition MAXORDINAL : Z := 3652059.

(** [t - timedelta(days=days)]: the time of day stays, the date moves, and a
    date before year 1 or after year 9999 is an [OverflowError]. *)
Definition minus_days (t : datetime) (days : Z) : result datetime :=
  let ordinal := toordinal t - days in
  if (0 <? ordinal) && (ordinal <=? MAXORDINAL)
  then let '(y, m, d) := ord2ymd ordinal in
       Ok (mkDatetime y m d (hour t) (minute t) (second t) (microsecond t))
  else Raise OverflowError.

(** [DataArchive.week()]; the clock is read once. *)
Definition DataArchive_week (now : datetime) (dati : node)
  : result (list Value) :=
  shifted <- minus_days now (weekday now) ;;
  let monday := midnight shifted in
  betweenDatetimes monday now dati.

(** The dates that a [datetime] can hold. *)
Definition valid_date (t : datetime) : Prop :=
  1 <= year t <= 9999 /\ 1 <= month t <= 12 /\
  1 <= day t <= days_in_month (year t) (month t).

(** ** The latest instant: [DataArchive.latestDatetime] *)

(** What a function that opens a file by its path does: it returns, or
    [open] finds no file, or one of the exceptions above is raised. *)
Inductive outcome (A : Type) : Type :=
| Returned (a : A)
| FileNotFoundError
| Raised (e : exn).

Arguments Returned {A} a.
Arguments FileNotFoundError {A}.
Arguments Raised {A} e.

(** The node at [path + "/" + name], [d] being the node at [path]. *)
Definition entry (d : option node) (name : string) : option node :=
  match d with
  | Some (Dir entries) =>
      option_map snd (find (fun e => String.eqb (fst e) name) entries)
  | _ => None
  end.

(** [os.path.isdir]. *)
Definition isdir (n : option node) : bool :=
  match n with
  | Some (Dir _) => true
  | _ => false
  end.

(** [t.strftime("%Y")]: the C library does not pad the year. *)
Definition strftime_Y (t : datetime) : list ascii := str_of_int (year t).

(** [t.strftime("%d/%m/%Y %H:%M:%S")]. *)
Definition strftime_dmY_HMS (t : datetime) : list ascii :=
  zfill (str_of_int (day t)) 2 ++ "/"%char
  :: zfill (str_of_int (month t)) 2 ++ "/"%char
  :: strftime_Y t ++ " "%char
  :: zfill (str_of_int (hour t)) 2 ++ ":"%char
  :: zfill (str_of_int (minute t)) 2 ++ ":"%char
  :: zfill (str_of_int (second t)) 2.

(** [range(n)]. *)
Definition py_range (n : Z) : list Z := map Z.of_nat (seq 0 (Z.to_nat n)).

(** A [for] loop whose body may return from the function: a body that runs
    to its end gives [Returned None], and the loop goes on. *)
Fixpoint for_return {A B : Type} (l : list A)
  (body : A -> outcome (option B)) : outcome (option B) :=
  match l with
  | [] => Returned None
  | x :: l' =>
      match body x with
      | Returned None => for_return l' body
      | r => r
      end
  end.

(** The value of [tdate] after the loop over the lines. *)
Definition last_tdate (lines : list (list ascii)) : list ascii :=
  fold_left
    (fun tdate line =>
       let r := split "," line in
       if (length r <? 2)%nat then tdate else nth 0 r [])
    lines [].

(** The body of the innermost [if]: the day directory is read and the
    function returns.  [now2] is the clock when the file has no row. *)
Definition latest_in_day (now2 : datetime) (dNode : option node)
  : outcome (option (list ascii)) :=
  match entry dNode "temperature.csv" with
  | None => FileNotFoundError
  | Some tfile =>
      match open_readlines tfile with
      | Raise e => Raised e
      | Ok lines =>
          let tdate := last_tdate lines in
          if (length tdate =? 0)%nat
          then Returned (Some (strftime_dmY_HMS now2))
          else match strptime_datetime tdate with
               | Ok t => Returned (Some (strftime_dmY_HMS t))
               | Raise e => Raised e
               end
      end
  end.

(** [latestDatetime()]: [now1] is the clock at the first line.  The paths
    are followed in the tree: [yNode] is the node at [yPath], and so on.  A
    function that runs to its end returns [None]. *)
Definition latestDatetime (now1 now2 : datetime) (dati : node)
  : outcome (option (list ascii)) :=
  match int_of_str (strftime_Y now1) with
  | Raise e => Raised e
  | Ok mY =>
      let mM := 12 in
      let mD := 31 in
      for_return (py_range mY) (fun i =>
        let yNode :=
          entry (Some dati) (string_of_list_ascii (str_of_int (mY - i))) in
        if isdir yNode then
          for_return (py_range mM) (fun j =>
            let mNode :=
              entry yNode
                (string_of_list_ascii (zfill (str_of_int (mM - j)) 2)) in
            if isdir mNode then
              for_return (py_range mD) (fun k =>
                let dNode :=
                  entry mNode
                    (string_of_list_ascii (zfill (str_of_int (mD - k)) 2)) in
                if isdir dNode then latest_in_day now2 dNode
                else Returned None)
            else Returned None)
        else Returned None)
  end.

(** The day directory [dati/y/mm/dd] that [latestDatetime] looks for, when
    it is there. *)
Definition day_directory (dati : node) (y m d : Z) : option node :=
  let yNode := entry (Some dati) (string_of_list_ascii (str_of_int y)) in
  let mNode := entry yNode (string_of_list_ascii (zfill (str_of_int m) 2)) in
  let dNode := entry mNode (string_of_list_ascii (zfill (str_of_int d) 2)) in
  if isdir dNode then dNode else None.

(** The date [y'], [m'], [d'] comes after [y], [m], [d]. *)
Definition later (y' m' d' y m d : Z) : Prop :=
  y < y' \/ (y' = y /\ m < m') \/ (y' = y /\ m' = m /\ d < d').

(** The rows of a file: its lines of two fields or more. *)
Definition is_row (line : list ascii) : bool :=
  negb (length (split "," line) <? 2)%nat.

(** An archive with no entry. *)
Definition empty_archive : node := Dir [].

(** A day directory whose file holds a row, a line without comma, a second
    row and an empty line. *)
Definition two_rows_day : node :=
  Dir [("temperature.csv"%string,
        File (line "2023-05-10 08:00:00,18.5" ++ line "no comma here"
              ++ line "2023-05-10 12:00:00,20.0" ++ line "")%string)].

(** ** Truncation and the readings on which the statistics are checked *)

(** [n] is [x] cut towards zero: the integer on the side of zero that is
    less than one away from [x]. *)
Definition truncates (x : pyfloat) (n : Z) : Prop :=
  exists q,
    x = Fin q /\
    ((0 <= q)%Q -> (inject_Z n <= q)%Q /\ (q < inject_Z n + 1)%Q) /\
    ((q <= 0)%Q -> (q <= inject_Z n)%Q /\ (inject_Z n - 1 < q)%Q).

(** The temperatures 2.5, -1.5 and 4.75: cut to 2, -1 and 4, with the means
    5/3 and 23/12, which no float holds. *)
Definition signed_readings : list Value :=
  [mkValue (Fin (5 # 2)) temperature (at_hour 8);
   mkValue (Fin (-3 # 2)) temperature (at_hour 9);
   mkValue (Fin (19 # 4)) temperature (at_hour 10)].


(** Two temperatures whose mean, 2^53 + 1, lies half way between two
    floats. *)
Definition tied_readings : list Value :=
  [mkValue (Fin 9007199254740992) temperature (at_hour 8);
   mkValue (Fin 9007199254740994) temperature (at_hour 9)].

(** The archive with a day directory [dati/yname/mname/dname] that holds
    [held], among the entries [ya], [yb] of [dati], [ma], [mb] of the year
    and [da], [db] of the month. *)
Definition archive_with_day (ya yb ma mb da db : list (string * node))
  (yname mname dname : string) (held : node) : node :=
  Dir (ya ++ (yname,
              Dir (ma ++ (mname, Dir (da ++ (dname, held) :: db)) :: mb))
          :: yb).

(** A day of readings on 10 May 2023 next to an entry for the 9th. *)
Definition two_days (held : node) : node :=
  archive_with_day [] [] [] []
    [] [("10"%string,
         Dir [("temperature.csv"%string,
               File (line "2023-05-10 12:00:00,20.0"))])]
    "2023" "05" "09" held.

(** The day of [one_day_archive] with a reading whose value is followed by
    the separator 31, which [float] does not take for white space. *)
Definition padded_value_day : node :=
  Dir [("temperature.csv"%string,
        File ("2023-05-10 12:00:00,20.0"
              ++ String "031" (String newline EmptyString))%string)].

Definition padded_value_archive : node :=
  Dir [("2023"%string,
        Dir [("05"%string, Dir [("10"%string, padded_value_day)])])].

(** * Properties *)

(** ** Results and loops *)

Lemma bind_Ok {A B : Type} (r : result A) (k : A -> result B) (b : B) :
  bind r k = Ok b -> exists a, r = Ok a /\ k a = Ok b.
Proof.
  destruct r as [a | e]; simpl; intros H; [eauto | discriminate].
Qed.

Ltac inv_bind H :=
  let a := fresh "a" in
  let Ha := fresh "Ha" in
  apply bind_Ok in H; destruct H as [a [Ha H]].

Lemma for_each_preserves {A S : Type} (P : S -> Prop)
  (body : S -> A -> result S) (l : list A) :
  (forall s x s', P s -> body s x = Ok s' -> P s') ->
  forall s s', P s -> for_each l body s = Ok s' -> P s'.
Proof.
  intros Hbody. induction l as [| x l IH]; simpl; intros s s' Hs H.
  - now inversion H; subst.
  - inv_bind H. eauto.
Qed.

Lemma for_each_ext {A S : Type} (f g : S -> A -> result S) (l : list A) (s : S) :
  (forall s x, f s x = g s x) -> for_each l f s = for_each l g s.
Proof.
  intros Hfg. revert s. induction l as [| x l IH]; simpl; intros s; [reflexivity |].
  rewrite Hfg. destruct (g s x); simpl; auto.
Qed.

(** ** The catalog *)

(** C9.  For each of the six entries of the catalog, [fromFileName] on its
    file name finds an entry whose symbol leads [fromSymbol] back to the
    entry itself; the two are then also equal for [__eq__]. *)
Theorem catalog_lookup_round_trip :
  length data = 6%nat /\
  Forall (fun entry =>
            exists found,
              fromFileName (DataType.fileName entry) = Some found /\
              fromSymbol (DataType.symbol found) = Some entry /\
              DataType.eq found entry = true) data.
Proof.
  split; [reflexivity |].
  repeat constructor; eexists; (split; [reflexivity | split; reflexivity]).
Qed.

Lemma precision_is_2 :
  Forall (fun entry => DataType.precision entry = 2) data.
Proof. repeat constructor. Qed.

Lemma fromSymbol_member (sym : Symbols) :
  exists dataType,
    fromSymbol (Symbols_value sym) = Some dataType /\
    DataType.symbol dataType = Symbols_value sym /\
    DataType.precision dataType = 2.
Proof. destruct sym; eexists; repeat split. Qed.

(** ** The year pattern of the scan *)

Lemma fnmatch_star (name : list ascii) : fnmatch ["*"%char] name = true.
Proof.
  induction name as [| c name IH]; [reflexivity |].
  change (fnmatch ["*"%char] (c :: name))
    with (fnmatch [] (c :: name) || fnmatch ["*"%char] name).
  rewrite IH. apply orb_true_r.
Qed.

Lemma fnmatch_2_star (name : string) :
  fnmatch (list_ascii_of_string "2*") (list_ascii_of_string name)
  = begins_with_2 name.
Proof.
  destruct name as [| c name]; [reflexivity |].
  change (list_ascii_of_string (String c name))
    with (c :: list_ascii_of_string name).
  change (fnmatch (list_ascii_of_string "2*") (c :: list_ascii_of_string name))
    with (Ascii.eqb c "2" && fnmatch ["*"%char] (list_ascii_of_string name)).
  rewrite fnmatch_star, andb_true_r.
  unfold begins_with_2.
  destruct (Ascii.eqb_spec c "2") as [-> | Hne]; [reflexivity |].
  destruct c as [[] [] [] [] [] [] [] []]; try reflexivity.
  now elim Hne.
Qed.

Lemma filter_filter_implied {A : Type} (f g : A -> bool) (l : list A) :
  (forall x, f x = true -> g x = true) ->
  filter f (filter g l) = filter f l.
Proof.
  intros Hfg. induction l as [| x l IH]; simpl; [reflexivity |].
  destruct (g x) eqn:Hg; simpl.
  - now rewrite IH.
  - destruct (f x) eqn:Hf; [| exact IH].
    apply Hfg in Hf. congruence.
Qed.

(** C10.  The scan lists the year directories with the pattern ["dati/2*"]:
    its outcome is the one it has on the archive from which every entry of
    [dati] whose name does not begin with ["2"] is removed, whatever the
    range. *)
Theorem betweenDatetimes_only_years_2 (start end_ : datetime)
  (entries : list (string * node)) :
  betweenDatetimes start end_ (Dir entries)
  = betweenDatetimes start end_
      (Dir (filter (fun e => begins_with_2 (fst e)) entries)).
Proof.
  unfold betweenDatetimes, glob. f_equal. f_equal.
  symmetry. apply filter_filter_implied.
  intros [name n] H. cbn [fst] in H |- *.
  apply andb_true_iff in H. destruct H as [_ H].
  now rewrite fnmatch_2_star in H.
Qed.

(** ** The order of datetimes *)

Lemma lex_compare_antisym (a b : list Z) :
  lex_compare b a = CompOpp (lex_compare a b).
Proof.
  revert b. induction a as [| x a IH]; destruct b as [| y b]; simpl; auto.
  rewrite (Z.compare_antisym x y).
  destruct (x ?= y); simpl; auto.
Qed.

Lemma lex_compare_le_trans (a b c : list Z) :
  lex_compare a b <> Gt -> lex_compare b c <> Gt -> lex_compare a c <> Gt.
Proof.
  revert b c. induction a as [| x a IH]; intros [| y b] [| z c]; simpl;
    try congruence.
  destruct (Z.compare_spec x y), (Z.compare_spec y z), (Z.compare_spec x z);
    subst; try congruence; try lia; eauto.
Qed.

Lemma dt_gt_false (a b : datetime) : dt_gt a b = false -> dt_le a b = true.
Proof.
  unfold dt_gt, dt_lt, dt_le, dt_compare.
  rewrite (lex_compare_antisym (fields b) (fields a)).
  destruct (lex_compare (fields b) (fields a)); simpl; congruence.
Qed.

Lemma dt_lt_false (a b : datetime) : dt_lt a b = false -> dt_le b a = true.
Proof. exact (dt_gt_false b a). Qed.

Lemma dt_le_trans (a b c : datetime) :
  dt_le a b = true -> dt_le b c = true -> dt_le a c = true.
Proof.
  unfold dt_le, dt_compare. intros Hab Hbc.
  pose proof (lex_compare_le_trans (fields a) (fields b) (fields c)) as H.
  destruct (lex_compare (fields a) (fields b)); try discriminate;
    destruct (lex_compare (fields b) (fields c)); try discriminate;
    destruct (lex_compare (fields a) (fields c)); try reflexivity;
    exfalso; apply H; congruence.
Qed.

Lemma dt_gt_not_le (a b : datetime) : dt_gt a b = true -> dt_le a b = false.
Proof.
  unfold dt_gt, dt_lt, dt_le, dt_compare.
  rewrite (lex_compare_antisym (fields a) (fields b)).
  destruct (lex_compare (fields a) (fields b)); simpl; congruence.
Qed.

(** ** The scan *)

Lemma Value_init_Ok (x : pyfloat) (sym : Symbols) (t : datetime) (v : Value) :
  Value_init x sym t = Ok v ->
  py_round x 2 = Ok (value v) /\ symbol v = sym /\ instant v = t.
Proof.
  unfold Value_init. intros H.
  destruct (fromSymbol_member sym) as [dataType [Hfind [_ Hprec]]].
  rewrite Hfind in H. simpl in H. rewrite Hprec in H.
  inv_bind H. inversion H; subst. auto.
Qed.

Section scan_facts.

Variables start end_ : datetime.

Lemma scan_line_scanned type found line found' :
  Forall (scanned start end_) found ->
  scan_line start end_ type found line = Ok found' ->
  Forall (scanned start end_) found'.
Proof.
  unfold scan_line. intros HP H.
  destruct (length (split "," line) <? 2)%nat; [now inversion H; subst |].
  inv_bind H. rename a into dateT.
  destruct (dt_gt start dateT || dt_lt end_ dateT) eqn:Hout;
    [now inversion H; subst |].
  apply orb_false_iff in Hout. destruct Hout as [Hs He].
  inv_bind H. rename a into x. inv_bind H. rename a into v.
  inversion H; subst found'. clear H.
  apply Forall_app. split; [exact HP |].
  constructor; [| constructor].
  destruct (Value_init_Ok _ _ _ _ Ha1) as [_ [Hsym Hinst]].
  unfold scanned. rewrite Hsym, Hinst. split; [eauto | auto].
Qed.

Lemma scan_file_scanned found element found' :
  Forall (scanned start end_) found ->
  scan_file start end_ found element = Ok found' ->
  Forall (scanned start end_) found'.
Proof.
  destruct element as [elementPath elementNode]. unfold scan_file.
  intros HP H. inv_bind H. inv_bind H. inv_bind H.
  revert HP H. apply for_each_preserves. intros. eapply scan_line_scanned; eauto.
Qed.

Lemma scan_day_scanned y m found d found' :
  Forall (scanned start end_) found ->
  scan_day start end_ y m found d = Ok found' ->
  Forall (scanned start end_) found'.
Proof.
  destruct d as [dPath dNode]. unfold scan_day.
  intros HP H. inv_bind H. inv_bind H.
  destruct (dt_gt start a0 || dt_gt a0 end_); [now inversion H; subst |].
  revert HP H. apply for_each_preserves. intros. eapply scan_file_scanned; eauto.
Qed.

Lemma scan_month_scanned y found m found' :
  Forall (scanned start end_) found ->
  scan_month start end_ y found m = Ok found' ->
  Forall (scanned start end_) found'.
Proof.
  destruct m as [mPath mNode]. unfold scan_month.
  intros HP H. inv_bind H.
  revert HP H. apply for_each_preserves. intros. eapply scan_day_scanned; eauto.
Qed.

Lemma scan_year_scanned found y found' :
  Forall (scanned start end_) found ->
  scan_year start end_ found y = Ok found' ->
  Forall (scanned start end_) found'.
Proof.
  destruct y as [yPath yNode]. unfold scan_year.
  intros HP H. inv_bind H.
  revert HP H. apply for_each_preserves. intros. eapply scan_month_scanned; eauto.
Qed.

Lemma betweenDatetimes_scanned dati found :
  betweenDatetimes start end_ dati = Ok found ->
  Forall (scanned start end_) found.
Proof.
  unfold betweenDatetimes.
  apply (for_each_preserves (Forall (scanned start end_))); [| constructor].
  intros. eapply scan_year_scanned; eauto.
Qed.

End scan_facts.

(** C4.  Every reading that a scan over [start], [end_] returns has its
    instant between the two, bounds included; hence a scan whose [start] is
    after its [end_] returns no reading. *)
Theorem betweenDatetimes_range_containment (start end_ : datetime)
  (dati : node) (found : list Value) :
  betweenDatetimes start end_ dati = Ok found ->
  Forall (fun v => dt_le start (instant v) = true /\
                   dt_le (instant v) end_ = true) found /\
  (dt_gt start end_ = true -> found = []).
Proof.
  intros H. apply betweenDatetimes_scanned in H.
  assert (Hall : Forall (fun v => dt_le start (instant v) = true /\
                                  dt_le (instant v) end_ = true) found).
  { eapply Forall_impl; [| exact H].
    intros v [_ [Hs He]]. split; [now apply dt_gt_false | now apply dt_lt_false]. }
  split; [exact Hall |].
  intros Hinv. destruct found as [| v found]; [reflexivity |].
  inversion Hall as [| ? ? [Hs He] _]; subst.
  apply dt_gt_not_le in Hinv.
  rewrite (dt_le_trans _ _ _ Hs He) in Hinv. discriminate.
Qed.

Lemma betweenDatetimes_range_containment_witness :
  Forall (fun v => dt_le (at_hour 0) (instant v) = true /\
                   dt_le (instant v) (at_hour 18) = true)
    [mkValue (Fin 20) temperature (at_hour 12)] /\
  (dt_gt (at_hour 0) (at_hour 18) = true ->
   [mkValue (Fin 20) temperature (at_hour 12)] = []).
Proof.
  apply (betweenDatetimes_range_containment (at_hour 0) (at_hour 18)
           one_day_archive).
  vm_compute. reflexivity.
Defined.

(** C8.  [Value.__init__] stores the input rounded to the precision of the
    catalog entry found for the symbol, which is 2 for each of the six; so
    does every reading of a scan, for the float parsed from its row; and
    12.3456 is stored as 12.35. *)
Theorem Value_rounded_to_precision :
  (forall x sym t v,
      Value_init x sym t = Ok v ->
      rounded_to_precision x v /\ py_round x 2 = Ok (value v)) /\
  (forall start end_ dati found v,
      betweenDatetimes start end_ dati = Ok found -> In v found ->
      exists x, rounded_to_precision x v /\ py_round x 2 = Ok (value v)) /\
  Forall (fun entry => DataType.precision entry = 2) data /\
  (forall sym t,
      Value_init (literal "12.3456") sym t = Ok (mkValue (literal "12.35") sym t)).
Proof.
  assert (H1 : forall x sym t v,
             Value_init x sym t = Ok v ->
             rounded_to_precision x v /\ py_round x 2 = Ok (value v)).
  { intros x sym t v H.
    destruct (Value_init_Ok _ _ _ _ H) as [Hr [Hsym _]].
    split; [| exact Hr].
    destruct (fromSymbol_member sym) as [dataType [Hfind [_ Hprec]]].
    exists dataType. rewrite Hsym, Hprec. auto. }
  split; [exact H1 |]. split; [| split; [exact precision_is_2 |]].
  - intros start end_ dati found v H Hin.
    apply betweenDatetimes_scanned in H.
    rewrite Forall_forall in H. destruct (H v Hin) as [[x Hx] _].
    exists x. eauto.
  - intros sym t. destruct sym; vm_compute; reflexivity.
Qed.

(** The precision lookup of [Value.__init__] cannot fail: only the rounding
    may raise. *)
Lemma Value_init_raises (x : pyfloat) (sym : Symbols) (t : datetime) (e : exn) :
  Value_init x sym t = Raise e -> py_round x 2 = Raise e.
Proof.
  unfold Value_init.
  destruct (fromSymbol_member sym) as [dataType [Hfind [_ Hprec]]].
  rewrite Hfind. simpl. rewrite Hprec.
  destruct (py_round x 2); simpl; congruence.
Qed.

Lemma Value_rounded_to_precision_witness :
  rounded_to_precision (Fin 5) (mkValue (Fin 5) humidity (at_hour 8)) /\
  py_round (Fin 5) 2 = Ok (value (mkValue (Fin 5) humidity (at_hour 8))).
Proof.
  apply (proj1 Value_rounded_to_precision (Fin 5) humidity (at_hour 8)).
  reflexivity.
Defined.

(** C3.  On the archive with one reading at noon of 10 May 2023, the scan
    from 08:00 to 18:00 of that day returns nothing although the reading lies
    in the range: the day is dropped because its midnight is before [start].
    The scan from midnight returns the reading. *)
Theorem betweenDatetimes_drops_start_day :
  exists noon,
    strptime_datetime (list_ascii_of_string "2023-05-10 12:00:00") = Ok noon /\
    in_range (at_hour 8) (at_hour 18) noon = true /\
    betweenDatetimes (at_hour 8) (at_hour 18) one_day_archive = Ok [] /\
    betweenDatetimes (at_hour 0) (at_hour 18) one_day_archive
    = Ok [mkValue (Fin 20) temperature noon].
Proof.
  eexists. split; [vm_compute; reflexivity |].
  split; [vm_compute; reflexivity |].
  split; vm_compute; reflexivity.
Qed.

Example betweenDatetimes_skips_1999_and_3000 :
  betweenDatetimes (mkDatetime 1 1 1 0 0 0 0) (mkDatetime 9999 12 31 23 59 59 0)
    other_years_archive = Ok [].
Proof. vm_compute. reflexivity. Qed.

(** ** Dictionaries *)

Lemma Symbols_eqb_eq (a b : Symbols) : Symbols_eqb a b = true <-> a = b.
Proof. destruct a, b; cbv; split; congruence. Qed.

Lemma Symbols_eqb_refl (a : Symbols) : Symbols_eqb a a = true.
Proof. now apply Symbols_eqb_eq. Qed.

Lemma Symbols_eqb_neq (a b : Symbols) : Symbols_eqb a b = false <-> a <> b.
Proof.
  rewrite <- Symbols_eqb_eq. destruct (Symbols_eqb a b); split; congruence.
Qed.

Lemma get_set {V : Type} (m : dict V) (k k' : Symbols) (v : V) :
  get (set m k v) k' = if Symbols_eqb k k' then Some v else get m k'.
Proof.
  induction m as [| [k0 v0] m IH]; simpl; [reflexivity |].
  destruct (Symbols_eqb k0 k) eqn:Hk; simpl.
  - apply Symbols_eqb_eq in Hk. subst k0.
    destruct (Symbols_eqb k k'); reflexivity.
  - rewrite IH. destruct (Symbols_eqb k0 k') eqn:Hk'; [| reflexivity].
    apply Symbols_eqb_eq in Hk'. subst k0.
    destruct (Symbols_eqb k k') eqn:E; [| reflexivity].
    apply Symbols_eqb_eq in E. subst k'.
    rewrite Symbols_eqb_refl in Hk. discriminate.
Qed.

Lemma get_set_same {V : Type} (m : dict V) (k : Symbols) (v : V) :
  get (set m k v) k = Some v.
Proof. now rewrite get_set, Symbols_eqb_refl. Qed.

Lemma get_set_other {V : Type} (m : dict V) (k k' : Symbols) (v : V) :
  k <> k' -> get (set m k v) k' = get m k'.
Proof.
  intros H. rewrite get_set. apply Symbols_eqb_neq in H. now rewrite H.
Qed.

Lemma set_set {V : Type} (m : dict V) (k : Symbols) (v v' : V) :
  set (set m k v) k v' = set m k v'.
Proof.
  induction m as [| [k0 v0] m IH]; simpl.
  - now rewrite Symbols_eqb_refl.
  - destruct (Symbols_eqb k0 k) eqn:Hk; simpl; rewrite Hk; [reflexivity |].
    now rewrite IH.
Qed.

Lemma get_None_keys {V : Type} (m : dict V) (k : Symbols) :
  get m k = None <-> ~ In k (keys m).
Proof.
  induction m as [| [k0 v0] m IH]; simpl; [tauto |].
  destruct (Symbols_eqb k0 k) eqn:Hk.
  - apply Symbols_eqb_eq in Hk. split; [discriminate | tauto].
  - apply Symbols_eqb_neq in Hk. rewrite IH. tauto.
Qed.

Lemma get_Some_In {V : Type} (m : dict V) (k : Symbols) (v : V) :
  get m k = Some v -> In (k, v) m.
Proof.
  induction m as [| [k0 v0] m IH]; simpl; [discriminate |].
  destruct (Symbols_eqb k0 k) eqn:Hk.
  - apply Symbols_eqb_eq in Hk. intros H. inversion H; subst. now left.
  - auto.
Qed.

Lemma keys_set {V : Type} (m : dict V) (k : Symbols) (v : V) :
  keys (set m k v) = if contains m k then keys m else keys m ++ [k].
Proof.
  unfold contains.
  induction m as [| [k0 v0] m IH]; simpl; [reflexivity |].
  destruct (Symbols_eqb k0 k) eqn:Hk; simpl; [reflexivity |].
  rewrite IH. destruct (get m k); reflexivity.
Qed.

Lemma NoDup_keys_set {V : Type} (m : dict V) (k : Symbols) (v : V) :
  NoDup (keys m) -> NoDup (keys (set m k v)).
Proof.
  intros H. rewrite keys_set. unfold contains.
  destruct (get m k) eqn:Hg; [exact H |].
  apply get_None_keys in Hg.
  apply NoDup_rev in H. rewrite <- (rev_involutive (keys m ++ [k])).
  apply NoDup_rev. rewrite rev_app_distr. simpl.
  constructor; [| exact H]. now rewrite <- in_rev.
Qed.

Lemma running_total_set (m : dict running) (k : Symbols) (r : running) :
  running_total (set m k r)
  = running_total m
    - match get m k with Some r0 => run_itemCount r0 | None => 0 end
    + run_itemCount r.
Proof.
  unfold running_total, Zsum.
  induction m as [| [k0 r0] m IH]; simpl; [lia |].
  destruct (Symbols_eqb k0 k); simpl; [lia |].
  rewrite IH. lia.
Qed.

(** ** The first loop of Stats *)

Lemma Value_default_seeds (t : datetime) :
  Value_default t (Fin (-10000000)) = Ok (run_max (seeded t)) /\
  Value_default t (Fin 10000000) = Ok (run_min (seeded t)).
Proof. split; vm_compute; reflexivity. Qed.

(** One turn of the first loop, in closed form. *)
Lemma Stats_step_eq (t : datetime) (tempMap : dict lists)
  (resultMap : dict running) (el : Value) :
  Stats_step t (tempMap, resultMap) el =
  (i <- py_int (value el) ;;
   let old := get_default tempMap (symbol el) (mkLists [] []) in
   Ok (set tempMap (symbol el)
         (mkLists (values old ++ [value el]) (iList old ++ [i])),
       set resultMap (symbol el)
         (observe (get_default resultMap (symbol el) (seeded t)) el))).
Proof.
  unfold Stats_step, contains, getitem, get_default.
  destruct (Value_default_seeds t) as [Hmax Hmin].
  assert (Hobs : forall r,
             mkRunning
               (run_max (if float_gt (value el) (value (run_max r))
                         then mkRunning el (run_min r) (run_itemCount r)
                         else if float_lt (value el) (value (run_min r))
                              then mkRunning (run_max r) el (run_itemCount r)
                              else r))
               (run_min (if float_gt (value el) (value (run_max r))
                         then mkRunning el (run_min r) (run_itemCount r)
                         else if float_lt (value el) (value (run_min r))
                              then mkRunning (run_max r) el (run_itemCount r)
                              else r))
               (run_itemCount
                  (if float_gt (value el) (value (run_max r))
                   then mkRunning el (run_min r) (run_itemCount r)
                   else if float_lt (value el) (value (run_min r))
                        then mkRunning (run_max r) el (run_itemCount r)
                        else r) + 1)
             = observe r el).
  { intros r. unfold observe.
    destruct (float_gt (value el) (value (run_max r))); [reflexivity |].
    destruct (float_lt (value el) (value (run_min r))); reflexivity. }
  destruct (get resultMap (symbol el)) as [r |] eqn:Hr;
    destruct (get tempMap (symbol el)) as [l |] eqn:Hl; cbn [negb bind].
  - rewrite Hr, Hl. cbn [bind values iList].
    destruct (py_int (value el)); cbn [bind]; [| reflexivity].
    now rewrite Hobs.
  - rewrite Hr, get_set_same. cbn [bind values iList].
    destruct (py_int (value el)); cbn [bind]; [| reflexivity].
    now rewrite Hobs, set_set.
  - rewrite Hmax, Hmin. cbn [bind]. rewrite get_set_same, Hl.
    cbn [bind values iList].
    destruct (py_int (value el)); cbn [bind]; [| reflexivity].
    rewrite set_set. do 2 f_equal. f_equal. exact (Hobs (seeded t)).
  - rewrite Hmax, Hmin. cbn [bind]. rewrite !get_set_same.
    cbn [bind values iList].
    destruct (py_int (value el)); cbn [bind]; [| reflexivity].
    rewrite !set_set. do 2 f_equal. f_equal. exact (Hobs (seeded t)).
Qed.

Lemma readings_app (s : Symbols) (a b : list Value) :
  readings s (a ++ b) = readings s a ++ readings s b.
Proof. apply filter_app. Qed.

Lemma readings_snoc (s : Symbols) (p : list Value) (el : Value) :
  readings s (p ++ [el])
  = if Symbols_eqb (symbol el) s then readings s p ++ [el] else readings s p.
Proof.
  rewrite readings_app. unfold readings at 2. cbn [filter].
  destruct (Symbols_eqb (symbol el) s); [reflexivity | apply app_nil_r].
Qed.

Lemma mapM_app {A B : Type} (f : A -> result B) (a b : list A) (xs ys : list B) :
  mapM f a = Ok xs -> mapM f b = Ok ys -> mapM f (a ++ b) = Ok (xs ++ ys).
Proof.
  revert xs. induction a as [| x a IH]; simpl; intros xs Ha Hb.
  - inversion Ha; subst. exact Hb.
  - inv_bind Ha. inv_bind Ha. inversion Ha; subst.
    rewrite Ha0. simpl. rewrite (IH _ Ha1 Hb). reflexivity.
Qed.

Lemma observe_itemCount (r : running) (el : Value) :
  run_itemCount (observe r el) = run_itemCount r + 1.
Proof.
  unfold observe.
  destruct (float_gt (value el) (value (run_max r))); [reflexivity |].
  destruct (float_lt (value el) (value (run_min r))); reflexivity.
Qed.

Lemma Stats_step_tracked (t : datetime) (p : list Value)
  (maps maps' : dict lists * dict running) (el : Value) :
  tracked p maps -> Stats_step t maps el = Ok maps' -> tracked (p ++ [el]) maps'.
Proof.
  destruct maps as [tm rm]. intros Hp H. rewrite Stats_step_eq in H.
  inv_bind H. rename a into i. cbv zeta in H. inversion H; subst maps'. clear H.
  intros s. rewrite readings_snoc. cbn [fst snd].
  destruct (Hp s) as [Hnone Hsome]. cbn [fst snd] in Hnone, Hsome.
  destruct (Symbols_eqb (symbol el) s) eqn:Hs.
  - apply Symbols_eqb_eq in Hs. subst s.
    split; [intros Hnil; now apply app_eq_nil in Hnil |].
    intros _. rewrite !get_set_same. unfold get_default.
    destruct (readings (symbol el) p) as [| v rs] eqn:Hrs.
    + destruct Hnone as [Htm Hrm]; [reflexivity |]. rewrite Htm, Hrm.
      exists [i], (observe (seeded t) el). cbn [app map mapM length].
      rewrite Ha. cbn [bind]. repeat split. now rewrite observe_itemCount.
    + destruct Hsome as [ints [r [Hints [Htm [Hrm Hcount]]]]]; [discriminate |].
      rewrite Htm, Hrm. exists (ints ++ [i]), (observe r el).
      cbn [values iList]. rewrite map_app. cbn [map].
      split; [apply mapM_app; [exact Hints |]; cbn [mapM]; now rewrite Ha |].
      repeat split.
      rewrite observe_itemCount, Hcount, length_app, Nat2Z.inj_add.
      reflexivity.
  - apply Symbols_eqb_neq in Hs.
    rewrite !get_set_other by exact Hs. split; assumption.
Qed.

Lemma for_each_tracked (t : datetime) (l p : list Value)
  (maps maps' : dict lists * dict running) :
  tracked p maps -> for_each l (Stats_step t) maps = Ok maps' ->
  tracked (p ++ l) maps'.
Proof.
  revert p maps. induction l as [| el l IH]; intros p maps Hp H.
  - simpl in H. inversion H; subst. now rewrite app_nil_r.
  - simpl in H. inv_bind H.
    replace (p ++ el :: l) with ((p ++ [el]) ++ l)
      by now rewrite <- app_assoc.
    eapply IH; [| exact H]. eapply Stats_step_tracked; eauto.
Qed.

Lemma first_pass_tracked (t : datetime) (dataList : list Value)
  (maps : dict lists * dict running) :
  first_pass t dataList = Ok maps -> tracked dataList maps.
Proof.
  intros H. change dataList with ([] ++ dataList).
  eapply for_each_tracked; [| exact H].
  intros s. split; [now split | intros Hne; now elim Hne].
Qed.

Lemma Stats_step_total (t : datetime) (maps maps' : dict lists * dict running)
  (el : Value) :
  Stats_step t maps el = Ok maps' ->
  (NoDup (keys (snd maps)) -> NoDup (keys (snd maps'))) /\
  running_total (snd maps') = running_total (snd maps) + 1.
Proof.
  destruct maps as [tm rm]. intros H. rewrite Stats_step_eq in H.
  inv_bind H. cbv zeta in H. inversion H; subst maps'. clear H. cbn [snd].
  split; [apply NoDup_keys_set |].
  rewrite running_total_set, observe_itemCount. unfold get_default.
  destruct (get rm (symbol el)); cbn; lia.
Qed.

Lemma first_pass_total (t : datetime) (dataList : list Value)
  (maps : dict lists * dict running) :
  first_pass t dataList = Ok maps ->
  NoDup (keys (snd maps)) /\
  running_total (snd maps) = Z.of_nat (length dataList).
Proof.
  unfold first_pass.
  assert (G : forall l m m',
             for_each l (Stats_step t) m = Ok m' ->
             (NoDup (keys (snd m)) -> NoDup (keys (snd m'))) /\
             running_total (snd m') = running_total (snd m) + Z.of_nat (length l)).
  { induction l as [| el l IH]; intros m m' H; simpl in H.
    - inversion H; subst. split; [auto | simpl; lia].
    - inv_bind H. destruct (Stats_step_total _ _ _ _ Ha) as [Hd Ht].
      destruct (IH _ _ H) as [Hd' Ht'].
      split; [auto |]. rewrite Ht', Ht. cbn [length]. lia. }
  intros H. destruct (G _ _ _ H) as [Hd Ht].
  split; [apply Hd; constructor | exact Ht].
Qed.

(** ** The second loop of Stats *)

Lemma finish_Ok (tempMap : dict lists) (s s' : Symbols) (r : running)
  (a : aggregate) :
  finish tempMap (s, r) = Ok (s', a) ->
  s' = s /\ itemCount a = run_itemCount r /\
  agg_max a = run_max r /\ agg_min a = run_min r /\
  exists t, get tempMap s = Some t /\
            stdev (values t) = Ok (agg_stdev a) /\
            mean (values t) = Ok (agg_mean a) /\
            float_mean_int (iList t) = Ok (mode a).
Proof.
  unfold finish, getitem. intros H.
  destruct (get tempMap s) as [t |]; [| discriminate]. cbn [bind] in H.
  inv_bind H. inv_bind H. inv_bind H. inversion H; subst. cbn.
  repeat split. exists t. auto.
Qed.

Lemma mapM_finish (tempMap : dict lists) (resultMap : dict running)
  (results : dict aggregate) :
  mapM (finish tempMap) resultMap = Ok results ->
  keys results = keys resultMap /\
  total_itemCount results = running_total resultMap /\
  forall s a, get results s = Some a ->
              exists r, get resultMap s = Some r /\
                        finish tempMap (s, r) = Ok (s, a).
Proof.
  revert results. induction resultMap as [| [k r] rm IH]; intros results H.
  - simpl in H. inversion H; subst. repeat split. discriminate.
  - cbn [mapM] in H. inv_bind H. destruct a as [k' a]. inv_bind H.
    inversion H; subst results. clear H.
    destruct (IH _ Ha0) as [Hk [Ht Hg]].
    destruct (finish_Ok _ _ _ _ _ Ha) as [-> [Hc _]].
    split; [unfold keys in *; cbn [map fst]; now rewrite Hk |].
    split; [unfold total_itemCount, running_total, Zsum in *;
            cbn [map snd fold_right]; now rewrite Ht, Hc |].
    intros s b. cbn [get].
    destruct (Symbols_eqb k s) eqn:Hs; [| apply Hg].
    apply Symbols_eqb_eq in Hs. subst s.
    intros E. inversion E; subst. eauto.
Qed.


Lemma mapM_length {A B : Type} (f : A -> result B) (l : list A) (ys : list B) :
  mapM f l = Ok ys -> length ys = length l.
Proof.
  revert ys. induction l as [| x l IH]; simpl; intros ys H.
  - now inversion H.
  - inv_bind H. inv_bind H. inversion H; subst. simpl. f_equal. auto.
Qed.

Lemma Stats_Ok (t : datetime) (dataList : list Value) (results : dict aggregate) :
  Stats t dataList = Ok results ->
  exists tempMap resultMap,
    first_pass t dataList = Ok (tempMap, resultMap) /\
    mapM (finish tempMap) resultMap = Ok results.
Proof.
  unfold Stats. intros H. inv_bind H. destruct a as [tm rm]. eauto.
Qed.

(** What [Stats] has put in the aggregate of a symbol, in terms of the
    readings of that symbol. *)
Lemma Stats_aggregate (t : datetime) (dataList : list Value)
  (results : dict aggregate) (s : Symbols) (a : aggregate) :
  Stats t dataList = Ok results -> get results s = Some a ->
  exists ints,
    readings s dataList <> [] /\
    mapM py_int (map value (readings s dataList)) = Ok ints /\
    stdev (map value (readings s dataList)) = Ok (agg_stdev a) /\
    mean (map value (readings s dataList)) = Ok (agg_mean a) /\
    float_mean_int ints = Ok (mode a) /\
    itemCount a = Z.of_nat (length (readings s dataList)).
Proof.
  intros H Hget. destruct (Stats_Ok _ _ _ H) as [tm [rm [Hfirst Hsecond]]].
  destruct (mapM_finish _ _ _ Hsecond) as [_ [_ Hg]].
  destruct (Hg _ _ Hget) as [r [Hr Hfin]].
  destruct (finish_Ok _ _ _ _ _ Hfin) as [_ [Hc [_ [_ [l [Hl [Hsd [Hmn Hmd]]]]]]]].
  destruct (first_pass_tracked _ _ _ Hfirst s) as [Hnone Hsome].
  cbn [fst snd] in Hnone, Hsome.
  destruct (readings s dataList) as [| v rs] eqn:Hrs.
  - destruct Hnone as [_ Hrm]; [reflexivity | congruence].
  - destruct Hsome as [ints [r' [Hints [Htm [Hrm Hcount]]]]]; [discriminate |].
    rewrite Hl in Htm. inversion Htm; subst l. clear Htm.
    cbn [values iList] in *. exists ints.
    split; [discriminate |]. repeat split; try assumption. congruence.
Qed.

(** ** The aggregates *)

(** C5.  The [itemCount]s of the result add up to the length of the input,
    each symbol being counted once; this holds of [resultMap] as the first
    loop leaves it and of the result that [Stats] sets; the empty input gives
    the empty result. *)
Theorem Stats_count_consistency (t : datetime) :
  (forall dataList maps,
      first_pass t dataList = Ok maps ->
      NoDup (keys (snd maps)) /\
      running_total (snd maps) = Z.of_nat (length dataList)) /\
  (forall dataList results,
      Stats t dataList = Ok results ->
      NoDup (keys results) /\
      total_itemCount results = Z.of_nat (length dataList)) /\
  Stats t [] = Ok [].
Proof.
  split; [intros; now apply (first_pass_total t) |].
  split; [| reflexivity].
  intros dataList results H.
  destruct (Stats_Ok _ _ _ H) as [tm [rm [Hfirst Hsecond]]].
  destruct (mapM_finish _ _ _ Hsecond) as [Hk [Ht _]].
  destruct (first_pass_total _ _ _ Hfirst) as [Hd Hn]. cbn [snd] in Hd, Hn.
  rewrite Hk, Ht. auto.
Qed.

Lemma Stats_count_consistency_witness :
  NoDup (keys (results_of (at_hour 0) rising)) /\
  total_itemCount (results_of (at_hour 0) rising) = Z.of_nat (length rising).
Proof.
  apply (proj1 (proj2 (Stats_count_consistency (at_hour 0))) rising).
  vm_compute. reflexivity.
Defined.

Lemma Qsum_inject_Z (l : list Z) : (Qsum (map inject_Z l) == inject_Z (Zsum l))%Q.
Proof.
  induction l as [| x l IH]; [reflexivity |].
  change (Qsum (map inject_Z (x :: l)))
    with (inject_Z x + Qsum (map inject_Z l))%Q.
  change (Zsum (x :: l)) with (x + Zsum l).
  now rewrite IH, inject_Z_plus.
Qed.

(** [float(statistics.mean(iList))] is the truncated mean of the values from
    which [iList] was made. *)
Lemma float_mean_int_truncated (vals : list pyfloat) (ints : list Z) :
  vals <> [] -> mapM py_int vals = Ok ints ->
  float_mean_int ints = truncated_mean vals.
Proof.
  intros Hne Hints. unfold truncated_mean, float_mean_int.
  rewrite Hints. cbn [bind].
  pose proof (mapM_length _ _ _ Hints) as Hlen.
  destruct ints as [| i ints]; [destruct vals; [congruence | discriminate] |].
  cbn [length Nat.ltb Nat.leb]. f_equal. apply Qred_complete.
  unfold count. rewrite length_map, Qsum_inject_Z. reflexivity.
Qed.

Lemma py_int_truncates (x : pyfloat) (n : Z) :
  py_int x = Ok n -> truncates x n.
Proof.
  destruct x as [[a b] | |]; try discriminate. cbn [py_int Qnum Qden].
  intros H. inversion H as [Hn]. clear H. exists (a # b). split; [reflexivity |].
  pose proof (Z.quot_rem' a (Z.pos b)) as Hqr.
  unfold Qle, Qlt. cbn [Qnum Qden inject_Z Qplus Qminus Qopp].
  split; intros Hsign.
  - assert (Ha : 0 <= a) by lia.
    pose proof (Z.rem_bound_pos a (Z.pos b) Ha ltac:(lia)). nia.
  - assert (Ha : a <= 0) by lia.
    pose proof (Z.rem_bound_pos_neg a (Z.pos b) ltac:(lia) Ha). nia.
Qed.

Lemma mapM_py_int_truncates (vals : list pyfloat) (ints : list Z) :
  mapM py_int vals = Ok ints -> Forall2 truncates vals ints.
Proof.
  revert ints. induction vals as [| x vals IH]; intros ints H.
  - inversion H. constructor.
  - cbn [mapM] in H. inv_bind H. rename a into n. inv_bind H.
    inversion H; subst. constructor; [now apply py_int_truncates | now apply IH].
Qed.

(** C6.  The field [mode] of the aggregate of a symbol is the arithmetic mean
    of the values of the readings of that symbol, each cut towards zero to an
    integer, as the nearest float.  It is not the most frequent value: of 1,
    1 and 4 it is 2.  Of 2.5, -1.5 and 4.75 it is the float above 5/3, the
    mean of 2, -1 and 4; of 2^53 and 2^53 + 2 it is 2^53, the even one of the
    two floats nearest to their mean. *)
Theorem Stats_mode_is_truncated_mean (t : datetime) :
  (forall (dataList : list Value) (results : dict aggregate) (s : Symbols)
          (a : aggregate),
      Stats t dataList = Ok results -> get results s = Some a ->
      truncated_mean (map value (readings s dataList)) = Ok (mode a) /\
      exists ints,
        Forall2 truncates (map value (readings s dataList)) ints /\
        true_division
          (Qred (inject_Z (Zsum ints) / inject_Z (Z.of_nat (length ints))))
        = Ok (mode a)) /\
  mode (temperature_of (results_of t skewed)) = Fin 2 /\
  mode (temperature_of (results_of t signed_readings))
  = Fin (7505999378950827 # 4503599627370496) /\
  mode (temperature_of (results_of t tied_readings)) = Fin 9007199254740992.
Proof.
  split; [| repeat split; vm_compute; reflexivity].
  intros dataList results s a H Hget.
  destruct (Stats_aggregate _ _ _ _ _ H Hget)
    as [ints [Hne [Hints [_ [_ [Hmode _]]]]]].
  assert (Hmean : truncated_mean (map value (readings s dataList))
                  = Ok (mode a)).
  { rewrite <- Hmode. symmetry.
    apply float_mean_int_truncated; [| exact Hints].
    intros E. apply map_eq_nil in E. contradiction. }
  split; [exact Hmean |].
  exists ints. split; [now apply mapM_py_int_truncates |].
  unfold truncated_mean in Hmean. rewrite Hints in Hmean. exact Hmean.
Qed.

Lemma Stats_mode_is_truncated_mean_witness :
  truncated_mean (map value (readings temperature skewed))
  = Ok (mode (temperature_of (results_of (at_hour 0) skewed))) /\
  exists ints,
    Forall2 truncates (map value (readings temperature skewed)) ints /\
    true_division
      (Qred (inject_Z (Zsum ints) / inject_Z (Z.of_nat (length ints))))
    = Ok (mode (temperature_of (results_of (at_hour 0) skewed))).
Proof.
  apply (proj1 (Stats_mode_is_truncated_mean (at_hour 0)) skewed
           (results_of (at_hour 0) skewed) temperature);
    vm_compute; reflexivity.
Defined.

(** The field [mode] is not the most frequent value: of the readings 1, 1
    and 4 it is 2, which none of them has. *)
Example mode_of_skewed :
  mode (temperature_of (results_of (at_hour 0) skewed)) = Fin 2 /\
  map value skewed = [Fin 1; Fin 1; Fin 4].
Proof. split; vm_compute; reflexivity. Qed.

(** *** The standard deviation *)








(** ** Where the code departs from the specification *)

(** C1.  On two rising temperature readings, 1 then 2, [Stats] returns an
    aggregate whose [min] is the seed 10000000 and not a reading: the second
    test of the loop is skipped whenever the first one succeeds. *)
Theorem Stats_min_of_rising (t : datetime) :
  exists a,
    Stats t rising = Ok [(temperature, a)] /\
    agg_min a = mkValue (Fin 10000000) temperature t /\
    agg_max a = mkValue (Fin 2) temperature (at_hour 9) /\
    Forall (fun r => float_le (value (agg_min a)) (value r) = false) rising.
Proof.
  eexists. split; [vm_compute; reflexivity |].
  split; [reflexivity |]. split; [reflexivity |].
  repeat constructor.
Qed.

(** C2.  On a single temperature reading the first loop leaves an entry whose
    count is 1 and whose [max] is the reading, but whose [min] is the seed;
    and [Stats] then raises. *)
Theorem Stats_lone_reading (t : datetime) :
  exists tempMap r,
    first_pass t lone = Ok (tempMap, [(temperature, r)]) /\
    run_itemCount r = 1 /\
    [run_max r] = lone /\
    run_min r = mkValue (Fin 10000000) temperature t /\
    Stats t lone = Raise StatisticsError.
Proof.
  do 2 eexists. split; [vm_compute; reflexivity |].
  repeat split.
Qed.

(** ** What holds of the extremes

    The [max] of an aggregate does bound the readings of its symbol. *)

Lemma float_le_refl (q : Q) : float_le (Fin q) (Fin q) = true.
Proof.
  cbn. destruct (Qcompare_spec q q) as [_ | H | H]; try reflexivity.
  exfalso. exact (Qlt_irrefl _ H).
Qed.

Lemma float_gt_false_le (a b : Q) :
  float_gt (Fin a) (Fin b) = false -> float_le (Fin a) (Fin b) = true.
Proof.
  cbn. rewrite <- (Qcompare_antisym a b).
  destruct (a ?= b)%Q; cbn; congruence.
Qed.

Lemma float_le_gt_trans (x : pyfloat) (m e : Q) :
  float_le x (Fin m) = true -> float_gt (Fin e) (Fin m) = true ->
  float_le x (Fin e) = true.
Proof.
  destruct x as [q | [] |]; cbn; try congruence.
  intros Hle Hgt.
  destruct (Qcompare_spec q m) as [Hqm | Hqm | Hqm]; try discriminate;
    destruct (Qcompare_spec m e) as [Hme | Hme | Hme]; try discriminate;
    destruct (Qcompare_spec q e) as [Hqe | Hqe | Hqe]; try reflexivity;
    exfalso.
  - rewrite Hqm in Hqe. exact (Qlt_irrefl _ (Qlt_trans _ _ _ Hqe Hme)).
  - exact (Qlt_irrefl _ (Qlt_trans _ _ _ Hqm (Qlt_trans _ _ _ Hme Hqe))).
Qed.

Lemma py_int_finite (x : pyfloat) (i : Z) : py_int x = Ok i -> exists q, x = Fin q.
Proof. destruct x; simpl; intros H; try discriminate. eauto. Qed.

Lemma observe_max (r : running) (el : Value) (m q : Q) :
  value (run_max r) = Fin m -> value el = Fin q ->
  (exists m', value (run_max (observe r el)) = Fin m') /\
  float_le (value el) (value (run_max (observe r el))) = true /\
  forall x, float_le x (value (run_max r)) = true ->
            float_le x (value (run_max (observe r el))) = true.
Proof.
  intros Hm Hq. unfold observe. rewrite Hm, Hq.
  destruct (float_gt (Fin q) (Fin m)) eqn:Hgt; cbn [run_max].
  - rewrite Hq. split; [eauto |]. split; [apply float_le_refl |].
    intros x Hx. eapply float_le_gt_trans; eauto.
  - assert (Hle := float_gt_false_le _ _ Hgt).
    destruct (float_lt (Fin q) (value (run_min r))); cbn [run_max];
      rewrite Hm; eauto.
Qed.

Lemma Stats_step_max_bounds (t : datetime) (p : list Value)
  (maps maps' : dict lists * dict running) (el : Value) :
  tracked p maps -> max_bounds p (snd maps) ->
  Stats_step t maps el = Ok maps' -> max_bounds (p ++ [el]) (snd maps').
Proof.
  destruct maps as [tm rm]. intros Htr Hmb H. cbn [snd] in Hmb.
  rewrite Stats_step_eq in H. inv_bind H. rename a into i. cbv zeta in H.
  inversion H; subst maps'. clear H. cbn [snd].
  destruct (py_int_finite _ _ Ha) as [q Hq].
  intros s r. rewrite readings_snoc, get_set.
  destruct (Symbols_eqb (symbol el) s) eqn:Hs; [| apply Hmb].
  apply Symbols_eqb_eq in Hs. subst s.
  intros E. inversion E; subst r. clear E. unfold get_default.
  destruct (get rm (symbol el)) as [r0 |] eqn:Hr0.
  - destruct (Hmb _ _ Hr0) as [[m Hm] Hall].
    destruct (observe_max r0 el m q Hm Hq) as [Hfin [Hel Hold]].
    split; [exact Hfin |]. intros x Hx. apply in_app_or in Hx.
    destruct Hx as [Hx | [<- | []]]; auto.
  - destruct (observe_max (seeded t) el (-10000000) q eq_refl Hq)
      as [Hfin [Hel _]].
    split; [exact Hfin |]. intros x Hx.
    destruct (Htr (symbol el)) as [_ Hsome]. cbn [fst snd] in Hsome.
    destruct (readings (symbol el) p) as [| v rs] eqn:Hrs.
    + destruct Hx as [<- | []]. exact Hel.
    + destruct Hsome as [_ [r' [_ [_ [Hr' _]]]]]; [discriminate | congruence].
Qed.

Lemma first_pass_max_bounds (t : datetime) (dataList : list Value)
  (maps : dict lists * dict running) :
  first_pass t dataList = Ok maps -> max_bounds dataList (snd maps).
Proof.
  unfold first_pass.
  assert (G : forall l p m m',
             tracked p m -> max_bounds p (snd m) ->
             for_each l (Stats_step t) m = Ok m' -> max_bounds (p ++ l) (snd m')).
  { induction l as [| el l IH]; intros p m m' Htr Hmb H; simpl in H.
    - inversion H; subst. now rewrite app_nil_r.
    - inv_bind H.
      replace (p ++ el :: l) with ((p ++ [el]) ++ l)
        by now rewrite <- app_assoc.
      eapply IH; [| | exact H].
      + eapply Stats_step_tracked; eauto.
      + eapply Stats_step_max_bounds; eauto. }
  intros H. apply (G dataList [] ([], []) maps); [| | exact H].
  - intros s. split; [now split | intros Hne; now elim Hne].
  - intros s r E. discriminate.
Qed.

(** Whenever [Stats] returns, no reading of a symbol exceeds the [max] of its
    aggregate. *)
Lemma Stats_max_bound (t : datetime) (dataList : list Value)
  (results : dict aggregate) (s : Symbols) (a : aggregate) (el : Value) :
  Stats t dataList = Ok results -> get results s = Some a ->
  In el (readings s dataList) ->
  float_le (value el) (value (agg_max a)) = true.
Proof.
  intros H Hget Hin. destruct (Stats_Ok _ _ _ H) as [tm [rm [Hfirst Hsecond]]].
  destruct (mapM_finish _ _ _ Hsecond) as [_ [_ Hg]].
  destruct (Hg _ _ Hget) as [r [Hr Hfin]].
  destruct (finish_Ok _ _ _ _ _ Hfin) as [_ [_ [Hmax _]]].
  rewrite Hmax. apply first_pass_max_bounds in Hfirst.
  destruct (Hfirst _ _ Hr) as [_ Hall]. auto.
Qed.

(** ** Which rows the scan returns

    A day directory whose midnight is after [start] is dropped whole, with
    the rows of that day that lie in the range; a day whose midnight lies in
    the range contributes every row in the range. *)

Section scan_completeness.

Variables start end_ : datetime.

Lemma scan_day_dropped year month found dPath dNode found' day pivot :
  scan_day start end_ year month found (dPath, dNode) = Ok found' ->
  int_of_str (lastPathElement dPath) = Ok day ->
  pivot_of year month day = Ok pivot ->
  dt_gt start pivot = true ->
  found' = found.
Proof.
  unfold scan_day, pivot_of. intros H Hday Hpivot Hgt.
  rewrite Hday in H. cbn [bind] in H. rewrite Hpivot in H. cbn [bind] in H.
  rewrite Hgt in H. cbn [orb] in H. congruence.
Qed.

Lemma for_each_establishes {A S : Type} (Q : S -> Prop)
  (body : S -> A -> result S) (l : list A) (x : A) :
  In x l ->
  (forall s y s', Q s -> body s y = Ok s' -> Q s') ->
  (forall s s', body s x = Ok s' -> Q s') ->
  forall s s', for_each l body s = Ok s' -> Q s'.
Proof.
  intros Hin Hkeep Hx. induction l as [| y l IH]; [destruct Hin |].
  intros s s' H. simpl in H. inv_bind H.
  destruct Hin as [-> | Hin]; [| eauto].
  eapply (for_each_preserves Q); eauto.
Qed.

Lemma scan_line_keeps v type found line found' :
  In v found -> scan_line start end_ type found line = Ok found' -> In v found'.
Proof.
  unfold scan_line. intros Hin H.
  destruct (length (split "," line) <? 2)%nat; [now inversion H; subst |].
  inv_bind H. destruct (dt_gt start a || dt_lt end_ a);
    [now inversion H; subst |].
  inv_bind H. inv_bind H. inversion H; subst. apply in_or_app. now left.
Qed.

Lemma scan_file_keeps v found element found' :
  In v found -> scan_file start end_ found element = Ok found' -> In v found'.
Proof.
  destruct element as [elementPath elementNode]. unfold scan_file.
  intros Hin H. inv_bind H. inv_bind H. inv_bind H.
  revert Hin H. apply (for_each_preserves (In v)).
  intros. eapply scan_line_keeps; eauto.
Qed.

Lemma scan_day_keeps v y m found d found' :
  In v found -> scan_day start end_ y m found d = Ok found' -> In v found'.
Proof.
  destruct d as [dPath dNode]. unfold scan_day.
  intros Hin H. inv_bind H. inv_bind H.
  destruct (dt_gt start a0 || dt_gt a0 end_); [now inversion H; subst |].
  revert Hin H. apply (for_each_preserves (In v)).
  intros. eapply scan_file_keeps; eauto.
Qed.

Lemma scan_month_keeps v y found m found' :
  In v found -> scan_month start end_ y found m = Ok found' -> In v found'.
Proof.
  destruct m as [mPath mNode]. unfold scan_month.
  intros Hin H. inv_bind H.
  revert Hin H. apply (for_each_preserves (In v)).
  intros. eapply scan_day_keeps; eauto.
Qed.

Lemma scan_year_keeps v found y found' :
  In v found -> scan_year start end_ found y = Ok found' -> In v found'.
Proof.
  destruct y as [yPath yNode]. unfold scan_year.
  intros Hin H. inv_bind H.
  revert Hin H. apply (for_each_preserves (In v)).
  intros. eapply scan_month_keeps; eauto.
Qed.

Lemma in_range_filters (t : datetime) :
  in_range start end_ t = true ->
  dt_gt start t = false /\ dt_lt end_ t = false.
Proof.
  unfold in_range. intros H. apply andb_true_iff in H. destruct H as [Hs He].
  split.
  - destruct (dt_gt start t) eqn:E; [| reflexivity].
    apply dt_gt_not_le in E. congruence.
  - destruct (dt_lt end_ t) eqn:E; [| reflexivity].
    change (dt_gt t end_ = true) in E. apply dt_gt_not_le in E. congruence.
Qed.

Lemma scan_line_adds type found line found' t :
  row_in_range start end_ line t ->
  scan_line start end_ type found line = Ok found' ->
  exists v, reading_of_row line t v /\ symbol v = type /\ In v found'.
Proof.
  intros [Hlen [Ht Hrange]]. unfold scan_line.
  apply Nat.ltb_ge in Hlen. rewrite Hlen, Ht. cbn [bind].
  destruct (in_range_filters _ Hrange) as [-> ->]. cbn [orb].
  intros H. inv_bind H. rename a into x. inv_bind H. rename a into v.
  inversion H; subst found'.
  destruct (Value_init_Ok _ _ _ _ Ha0) as [Hround [Hsym Hinst]].
  exists v. split; [exists x; auto |]. split; [exact Hsym |].
  apply in_or_app. right. now left.
Qed.

(** A row in the range, in a CSV file of a day directory whose midnight lies
    in the range, is among the readings returned. *)
Lemma betweenDatetimes_complete dati found yPath yNode mPath mNode dPath dNode
  fPath content year month day pivot line t :
  betweenDatetimes start end_ dati = Ok found ->
  In (yPath, yNode) (glob "dati" dati "2*") ->
  In (mPath, mNode) (glob yPath yNode "*") ->
  In (dPath, dNode) (glob mPath mNode "*") ->
  In (fPath, File content) (glob dPath dNode "*.csv") ->
  int_of_str (lastPathElement yPath) = Ok year ->
  int_of_str (lastPathElement mPath) = Ok month ->
  int_of_str (lastPathElement dPath) = Ok day ->
  pivot_of year month day = Ok pivot ->
  in_range start end_ pivot = true ->
  In line (readlines_from [] (list_ascii_of_string content)) ->
  row_in_range start end_ line t ->
  exists v, reading_of_row line t v /\ In v found.
Proof.
  intros H Hy Hm Hd Hf Hyear Hmonth Hday Hpivot Hprange Hline Hrow.
  pose (Q := fun l : list Value =>
               exists v, reading_of_row line t v /\ In v l).
  change (Q found). unfold betweenDatetimes in H. revert H.
  apply (for_each_establishes Q _ _ _ Hy).
  { intros s y s' [v [Hv Hin]] Hs. exists v. split; [exact Hv |].
    eapply scan_year_keeps; eauto. }
  intros s s'. unfold scan_year. rewrite Hyear. cbn [bind].
  apply (for_each_establishes Q _ _ _ Hm).
  { intros s0 y s0' [v [Hv Hin]] Hs. exists v. split; [exact Hv |].
    eapply scan_month_keeps; eauto. }
  intros s0 s0'. unfold scan_month. rewrite Hmonth. cbn [bind].
  apply (for_each_establishes Q _ _ _ Hd).
  { intros s1 y s1' [v [Hv Hin]] Hs. exists v. split; [exact Hv |].
    eapply scan_day_keeps; eauto. }
  intros s1 s1'. unfold scan_day. rewrite Hday. cbn [bind].
  unfold pivot_of in Hpivot. rewrite Hpivot. cbn [bind].
  destruct (in_range_filters _ Hprange) as [Hps Hpe].
  rewrite Hps. change (dt_gt pivot end_) with (dt_lt end_ pivot).
  rewrite Hpe. cbn [orb].
  apply (for_each_establishes Q _ _ _ Hf).
  { intros s2 y s2' [v [Hv Hin]] Hs. exists v. split; [exact Hv |].
    eapply scan_file_keeps; eauto. }
  intros s2 s2'. unfold scan_file. intros H.
  inv_bind H. inv_bind H. inv_bind H. cbn in Ha1. inversion Ha1; subst a1.
  revert H. apply (for_each_establishes Q _ _ _ Hline).
  { intros s3 y s3' [v [Hv Hin]] Hs. exists v. split; [exact Hv |].
    eapply scan_line_keeps; eauto. }
  intros s3 s3' H.
  destruct (scan_line_adds _ _ _ _ _ Hrow H) as [v [Hv [_ Hin]]].
  exists v. split; assumption.
Qed.

End scan_completeness.

(** ** The entries of [resultMap], in closed form

    The entry of a symbol is the seeded entry after its readings, taken in
    input order. *)

Lemma first_pass_running (t : datetime) (dataList : list Value)
  (maps : dict lists * dict running) (s : Symbols) :
  first_pass t dataList = Ok maps ->
  readings s dataList <> [] ->
  get (snd maps) s = Some (fold_left observe (readings s dataList) (seeded t)).
Proof.
  unfold first_pass.
  assert (G : forall l p m m',
             tracked p m ->
             (readings s p <> [] ->
              get (snd m) s = Some (fold_left observe (readings s p) (seeded t))) ->
             for_each l (Stats_step t) m = Ok m' ->
             readings s (p ++ l) <> [] ->
             get (snd m') s
             = Some (fold_left observe (readings s (p ++ l)) (seeded t))).
  { induction l as [| el l IH]; intros p m m' Htr Hp H; simpl in H.
    - inversion H; subst. now rewrite app_nil_r.
    - inv_bind H. rename a into m1.
      replace (p ++ el :: l) with ((p ++ [el]) ++ l)
        by now rewrite <- app_assoc.
      eapply IH; [| | exact H].
      + eapply Stats_step_tracked; eauto.
      + clear H IH. destruct m as [tm rm]. rewrite Stats_step_eq in Ha.
        inv_bind Ha. cbv zeta in Ha. inversion Ha; subst m1. clear Ha.
        cbn [snd] in *. rewrite readings_snoc, get_set.
        destruct (Symbols_eqb (symbol el) s) eqn:Hs; [| exact Hp].
        apply Symbols_eqb_eq in Hs. subst s. intros _.
        rewrite fold_left_app. cbn [fold_left]. do 2 f_equal.
        unfold get_default. destruct (Htr (symbol el)) as [Hnone _].
        cbn [fst snd] in Hnone.
        destruct (readings (symbol el) p) as [| v rs] eqn:Hrs.
        * destruct Hnone as [_ ->]; reflexivity.
        * rewrite Hp by discriminate. reflexivity. }
  intros H. apply (G dataList [] ([], []) maps); [| | exact H].
  - intros k. split; [now split | intros Hne; now elim Hne].
  - intros Hne. now elim Hne.
Qed.

(** The first reading of a symbol, when it is above the seed of [max],
    becomes the [max] and leaves the seed of [min] in place: a symbol with
    that reading alone never has it as [min]. *)
Lemma first_pass_lone_reading (t : datetime) (dataList : list Value)
  (maps : dict lists * dict running) (el : Value) :
  first_pass t dataList = Ok maps ->
  readings (symbol el) dataList = [el] ->
  float_gt (value el) (Fin (-10000000)) = true ->
  get (snd maps) (symbol el)
  = Some (mkRunning el (mkValue (Fin 10000000) temperature t) 1).
Proof.
  intros H Hone Hgt.
  rewrite (first_pass_running _ _ _ (symbol el) H), Hone by congruence.
  cbn [fold_left]. unfold observe. cbn [seeded run_max run_min value].
  rewrite Hgt. reflexivity.
Qed.

(** ** The symbols of the result *)

Lemma mapM_finish_get (tempMap : dict lists) (resultMap : dict running)
  (results : dict aggregate) (s : Symbols) :
  mapM (finish tempMap) resultMap = Ok results ->
  get resultMap s <> None -> get results s <> None.
Proof.
  revert results. induction resultMap as [| [k r] rm IH]; intros results H.
  - intros Hne. now elim Hne.
  - cbn [mapM] in H. inv_bind H. destruct a as [k' a]. inv_bind H.
    inversion H; subst results. clear H.
    destruct (finish_Ok _ _ _ _ _ Ha) as [-> _]. cbn [get].
    destruct (Symbols_eqb k s); [discriminate | eauto].
Qed.

(** The symbols that have an aggregate are those that have readings. *)
Lemma Stats_symbols (t : datetime) (dataList : list Value)
  (results : dict aggregate) (s : Symbols) :
  Stats t dataList = Ok results ->
  (get results s <> None <-> readings s dataList <> []).
Proof.
  intros H. split.
  - destruct (get results s) as [a |] eqn:Hget; [| congruence]. intros _.
    destruct (Stats_aggregate _ _ _ _ _ H Hget) as [_ [Hne _]]. exact Hne.
  - intros Hne. destruct (Stats_Ok _ _ _ H) as [tm [rm [Hfirst Hsecond]]].
    apply (mapM_finish_get _ _ _ _ Hsecond).
    pose proof (first_pass_running _ _ _ s Hfirst Hne) as Hr.
    cbn [snd] in Hr. rewrite Hr. discriminate.
Qed.

Example lastPathElement_of_year :
  lastPathElement "dati/2023" = list_ascii_of_string "2023".
Proof. reflexivity. Qed.

(** * Further properties *)

(** ** The catalog lookups *)

Lemma find_first_match {A : Type} (p : A -> bool) (l : list A) :
  match find p l with
  | Some x => exists before after,
                l = before ++ x :: after /\ p x = true /\
                Forall (fun y => p y = false) before
  | None => Forall (fun y => p y = false) l
  end.
Proof.
  induction l as [| y l IH]; simpl; [constructor |].
  destruct (p y) eqn:Hy.
  - exists [], l. repeat split; [exact Hy | constructor].
  - destruct (find p l) as [x |].
    + destruct IH as [before [after [-> [Hx Hb]]]].
      exists (y :: before), after. repeat split; [exact Hx |].
      constructor; assumption.
    + constructor; assumption.
Qed.

Lemma lookup_first_match (field : DataType.t -> string) (key : string) :
  first_match field key
    (find (fun dataType => String.eqb (field dataType) key) data).
Proof.
  pose proof (find_first_match
                (fun dataType => String.eqb (field dataType) key) data) as H.
  unfold first_match.
  destruct (find _ data) as [e |].
  - destruct H as [before [after [Hd [He Hb]]]].
    exists before, after. split; [exact Hd |].
    split; [now apply String.eqb_eq |].
    eapply Forall_impl; [| exact Hb]. intros d Hdne. now apply String.eqb_neq.
  - eapply Forall_impl; [| exact H]. intros d Hdne. now apply String.eqb_neq.
Qed.

(** X1.  Each of the four lookups returns the first entry of the catalog
    whose attribute equals the key, and [None] exactly when no entry has it;
    it never returns an entry with another key. *)
Theorem catalog_lookups_first_match (key : string) :
  first_match DataType.symbol key (fromSymbol key) /\
  first_match DataType.unit key (fromUnit key) /\
  first_match DataType.fileName key (fromFileName key) /\
  first_match DataType.italianName key (fromItalianName key).
Proof. repeat split; apply lookup_first_match. Qed.

(** X2.  Looking an entry up by its own symbol, file name or Italian name
    returns that entry, for each of the [len] = 6 entries; by its unit it
    does so for the first four only: PM25 and S share the unit of PM10, and
    [fromUnit] returns PM10 for them. *)
Theorem catalog_round_trips :
  DataTypeArchive_len = 6%nat /\
  Forall (fun e => fromSymbol (DataType.symbol e) = Some e /\
                   fromFileName (DataType.fileName e) = Some e /\
                   fromItalianName (DataType.italianName e) = Some e) data /\
  map (fun e => option_map DataType.symbol (fromUnit (DataType.unit e))) data
  = map Some ["T"; "H"; "P"; "PM10"; "PM10"; "PM10"]%string.
Proof.
  split; [reflexivity |]. split; [| reflexivity].
  repeat constructor.
Qed.

Lemma Symbols_of_catalog_symbol (e : DataType.t) :
  In e data ->
  exists m, Symbols_of_value (DataType.symbol e) = Ok m /\
            Symbols_value m = DataType.symbol e.
Proof.
  intros H. repeat (destruct H as [<- | H]; [eexists; split; reflexivity |]).
  destruct H.
Qed.

Lemma type_of_file_lookup (lep : string) :
  match fromFileName lep with
  | Some e => exists m, type_of_file lep = Ok m /\
                        Symbols_value m = DataType.symbol e /\
                        DataType.fileName e = lep
  | None => type_of_file lep = Raise AttributeError
  end.
Proof.
  unfold type_of_file.
  pose proof (lookup_first_match DataType.fileName lep) as H.
  change (find _ data) with (fromFileName lep) in H.
  destruct (fromFileName lep) as [e |]; [| reflexivity].
  destruct H as [before [after [Hd [He _]]]].
  assert (Hin : In e data) by (rewrite Hd; apply in_elt).
  destruct (Symbols_of_catalog_symbol e Hin) as [m [Hm Hv]].
  exists m. cbn [attribute bind]. auto.
Qed.

(** X3.  The members of [Symbols] are the symbols of the catalog, in order;
    so the conversion [Symbols(fromFileName(lep).symbol)] of the scan yields
    the member whose value is the symbol of the entry found, and fails only
    when the file name is not in the catalog, with [AttributeError], never
    with the [ValueError] of a value that is no member. *)
Theorem type_of_file_outcome (lep : string) :
  map Symbols_value Symbols_members = map DataType.symbol data /\
  match fromFileName lep with
  | Some e => exists m, type_of_file lep = Ok m /\
                        Symbols_value m = DataType.symbol e /\
                        DataType.fileName e = lep
  | None => type_of_file lep = Raise AttributeError
  end.
Proof.
  split; [reflexivity | apply type_of_file_lookup].
Qed.

(** ** Paths *)

Lemma split_nonempty (sep : ascii) (s : list ascii) : split sep s <> [].
Proof.
  destruct s as [| c s]; simpl; [discriminate |].
  destruct (Ascii.eqb c sep); [discriminate |].
  destruct (split sep s); discriminate.
Qed.

Lemma split_app_sep (sep : ascii) (a b : list ascii) :
  split sep (a ++ sep :: b) = split sep a ++ split sep b.
Proof.
  induction a as [| c a IH]; simpl.
  - now rewrite Ascii.eqb_refl.
  - destruct (Ascii.eqb c sep); [now rewrite IH |].
    rewrite IH. pose proof (split_nonempty sep a) as Hne.
    destruct (split sep a) as [| h t]; [congruence | reflexivity].
Qed.

Lemma split_without_sep (sep : ascii) (s : list ascii) :
  ~ In sep s -> split sep s = [s].
Proof.
  induction s as [| c s IH]; simpl; intros H; [reflexivity |].
  destruct (Ascii.eqb_spec c sep) as [-> | Hne]; [tauto |].
  rewrite IH by tauto. reflexivity.
Qed.

Lemma list_ascii_of_string_app (a b : string) :
  list_ascii_of_string (a ++ b)
  = list_ascii_of_string a ++ list_ascii_of_string b.
Proof. induction a as [| c a IH]; simpl; [reflexivity | now rewrite IH]. Qed.

Lemma lastPathElement_join (dirname name : string) :
  no_slash name ->
  lastPathElement (dirname ++ "/" ++ name) = list_ascii_of_string name.
Proof.
  intros H. unfold lastPathElement.
  rewrite list_ascii_of_string_app.
  change (list_ascii_of_string ("/" ++ name))
    with ("/"%char :: list_ascii_of_string name).
  rewrite split_app_sep, (split_without_sep _ _ H).
  apply last_last.
Qed.

Lemma glob_In (dirname : string) (d : node) (pattern path : string) (n : node) :
  In (path, n) (glob dirname d pattern) <->
  exists name,
    In (name, n) (entries_of d) /\ path = (dirname ++ "/" ++ name)%string /\
    (ishidden pattern || negb (ishidden name)) = true /\
    fnmatch (list_ascii_of_string pattern) (list_ascii_of_string name) = true.
Proof.
  unfold glob. destruct d as [content | entries]; cbn [entries_of].
  - split; [intros [] | intros [name [[] _]]].
  - rewrite in_map_iff. split.
    + intros [[name n'] [E Hin]]. cbn [fst snd] in E. inversion E; subst.
      apply filter_In in Hin. destruct Hin as [Hin Hp]. cbn [fst] in Hp.
      apply andb_true_iff in Hp. exists name. tauto.
    + intros [name [Hin [-> [Hv Hm]]]]. exists (name, n). split; [reflexivity |].
      apply filter_In. split; [exact Hin |]. cbn [fst]. now rewrite Hv, Hm.
Qed.

(** X4.  [glob] returns, for each visible entry of the directory that matches
    the pattern, the path of the entry under the directory, and nothing else;
    and of such a path [__lastPathElement] gives back the name of the entry,
    names being without a slash. *)
Theorem glob_lastPathElement (dirname : string) (d : node)
  (pattern path : string) (n : node) :
  In (path, n) (glob dirname d pattern) ->
  exists name,
    In (name, n) (entries_of d) /\
    path = (dirname ++ "/" ++ name)%string /\
    fnmatch (list_ascii_of_string pattern) (list_ascii_of_string name) = true /\
    (no_slash name -> lastPathElement path = list_ascii_of_string name).
Proof.
  intros H. apply glob_In in H. destruct H as [name [Hin [-> [_ Hm]]]].
  exists name. repeat split; try assumption. apply lastPathElement_join.
Qed.

Lemma glob_lastPathElement_witness :
  exists name,
    In (name, File "") (entries_of (Dir [("2023", File "")]%string)) /\
    "dati/2023"%string = ("dati" ++ "/" ++ name)%string /\
    fnmatch (list_ascii_of_string "2*") (list_ascii_of_string name) = true /\
    (no_slash name ->
     lastPathElement "dati/2023" = list_ascii_of_string name).
Proof.
  apply (glob_lastPathElement "dati" (Dir [("2023", File "")]%string) "2*").
  cbn. now left.
Defined.

(** ** The scan as a concatenation *)

Lemma for_each_app {A S : Type} (body : S -> A -> result S) (l1 l2 : list A)
  (s : S) :
  for_each (l1 ++ l2) body s = (s' <- for_each l1 body s ;; for_each l2 body s').
Proof.
  revert s. induction l1 as [| x l1 IH]; intros s; simpl; [reflexivity |].
  destruct (body s x); simpl; [apply IH | reflexivity].
Qed.

(** A loop whose body only appends to the list it is given appends what it
    would have built from the empty list. *)
Lemma for_each_appends {A B : Type} (body : list B -> A -> result (list B))
  (l : list A) :
  (forall acc x, body acc x = (r <- body [] x ;; Ok (acc ++ r))) ->
  forall acc, for_each l body acc = (r <- for_each l body [] ;; Ok (acc ++ r)).
Proof.
  intros Hbody. induction l as [| x l IH]; intros acc; simpl.
  - now rewrite app_nil_r.
  - rewrite (Hbody acc x). destruct (body [] x) as [r | e]; simpl; [| reflexivity].
    rewrite (IH (acc ++ r)), (IH r).
    destruct (for_each l body []) as [r2 | e]; simpl; [| reflexivity].
    now rewrite app_assoc.
Qed.

Section scan_appends.

Variables start end_ : datetime.

Lemma scan_line_appends type acc line :
  scan_line start end_ type acc line
  = (r <- scan_line start end_ type [] line ;; Ok (acc ++ r)).
Proof.
  unfold scan_line.
  destruct (length (split "," line) <? 2)%nat; simpl;
    [now rewrite app_nil_r |].
  destruct (strptime_datetime (nth 0 (split "," line) [])) as [dateT | e];
    simpl; [| reflexivity].
  destruct (dt_gt start dateT || dt_lt end_ dateT); simpl;
    [now rewrite app_nil_r |].
  destruct (float_of_str (nth 1 (split "," line) [])) as [x | e]; simpl;
    [| reflexivity].
  destruct (Value_init x type dateT); reflexivity.
Qed.

Lemma scan_file_appends acc element :
  scan_file start end_ acc element
  = (r <- scan_file start end_ [] element ;; Ok (acc ++ r)).
Proof.
  destruct element as [elementPath elementNode]. unfold scan_file.
  destruct (attribute _ DataType.symbol) as [sym | e]; simpl; [| reflexivity].
  destruct (Symbols_of_value sym) as [type | e]; simpl; [| reflexivity].
  destruct (open_readlines elementNode) as [lines | e]; simpl; [| reflexivity].
  apply for_each_appends. intros. apply scan_line_appends.
Qed.

Lemma scan_day_appends y m acc d :
  scan_day start end_ y m acc d
  = (r <- scan_day start end_ y m [] d ;; Ok (acc ++ r)).
Proof.
  destruct d as [dPath dNode]. unfold scan_day.
  destruct (int_of_str (lastPathElement dPath)) as [day |]; simpl;
    [| reflexivity].
  destruct (strptime_date _) as [pivot |]; simpl; [| reflexivity].
  destruct (dt_gt start pivot || dt_gt pivot end_); simpl;
    [now rewrite app_nil_r |].
  apply for_each_appends. intros. apply scan_file_appends.
Qed.

Lemma scan_month_appends y acc m :
  scan_month start end_ y acc m
  = (r <- scan_month start end_ y [] m ;; Ok (acc ++ r)).
Proof.
  destruct m as [mPath mNode]. unfold scan_month.
  destruct (int_of_str (lastPathElement mPath)) as [month |]; simpl;
    [| reflexivity].
  apply for_each_appends. intros. apply scan_day_appends.
Qed.

Lemma scan_year_appends acc y :
  scan_year start end_ acc y
  = (r <- scan_year start end_ [] y ;; Ok (acc ++ r)).
Proof.
  destruct y as [yPath yNode]. unfold scan_year.
  destruct (int_of_str (lastPathElement yPath)) as [year |]; simpl;
    [| reflexivity].
  apply for_each_appends. intros. apply scan_month_appends.
Qed.

(** X5.  The scan of a listing of [dati] in two parts is the scan of the
    first part followed by the scan of the second: the readings come in
    listing order, and an exception in the first part is the outcome. *)
Theorem betweenDatetimes_app (a b : list (string * node)) :
  betweenDatetimes start end_ (Dir (a ++ b))
  = (ra <- betweenDatetimes start end_ (Dir a) ;;
     rb <- betweenDatetimes start end_ (Dir b) ;;
     Ok (ra ++ rb)).
Proof.
  unfold betweenDatetimes, glob. rewrite filter_app, map_app, for_each_app.
  destruct (for_each _ (scan_year start end_) []) as [ra | e]; simpl;
    [| reflexivity].
  apply for_each_appends. intros. apply scan_year_appends.
Qed.

End scan_appends.

(** ** Days outside the range *)

Lemma dt_le_false (a b : datetime) : dt_le a b = false -> dt_gt a b = true.
Proof.
  unfold dt_gt, dt_lt, dt_le, dt_compare.
  rewrite (lex_compare_antisym (fields a) (fields b)).
  destruct (lex_compare (fields a) (fields b)); simpl; congruence.
Qed.

(** A day directory whose date, at midnight, is outside the range is passed
    over: the scan of it adds nothing and raises nothing. *)
Lemma scan_day_out_of_range (start end_ : datetime) (year month : Z)
  (found : list Value) (dPath : string) (dNode : node) (day : Z)
  (pivot : datetime) :
  int_of_str (lastPathElement dPath) = Ok day ->
  pivot_of year month day = Ok pivot ->
  in_range start end_ pivot = false ->
  scan_day start end_ year month found (dPath, dNode) = Ok found.
Proof.
  unfold scan_day, pivot_of, in_range. intros Hday Hpivot Hout.
  rewrite Hday. cbn [bind]. rewrite Hpivot. cbn [bind].
  apply andb_false_iff in Hout.
  destruct Hout as [H | H]; apply dt_le_false in H; rewrite H;
    [| rewrite orb_true_r]; reflexivity.
Qed.

Lemma glob_app (dirname : string) (a b : list (string * node))
  (pattern : string) :
  glob dirname (Dir (a ++ b)) pattern
  = glob dirname (Dir a) pattern ++ glob dirname (Dir b) pattern.
Proof.
  unfold glob. now rewrite filter_app, map_app.
Qed.

(** A loop over a listing goes the same way when an entry holds something
    else, if its body does the same on the two. *)
Lemma for_each_glob_replace {S : Type} (dirname : string)
  (a b : list (string * node)) (name : string) (n n' : node)
  (pattern : string) (body : S -> string * node -> result S) (s : S) :
  (forall s0, body s0 ((dirname ++ "/" ++ name)%string, n)
              = body s0 ((dirname ++ "/" ++ name)%string, n')) ->
  for_each (glob dirname (Dir (a ++ (name, n) :: b)) pattern) body s
  = for_each (glob dirname (Dir (a ++ (name, n') :: b)) pattern) body s.
Proof.
  intros Hbody.
  change (a ++ (name, n) :: b) with (a ++ [(name, n)] ++ b).
  change (a ++ (name, n') :: b) with (a ++ [(name, n')] ++ b).
  rewrite !glob_app, !for_each_app.
  destruct (for_each (glob dirname (Dir a) pattern) body s) as [s1 | e];
    cbn [bind]; [| reflexivity].
  unfold glob at 1 3. cbn [filter map fst snd].
  destruct (_ && _); cbn [map app for_each fst snd]; [| reflexivity].
  now rewrite Hbody.
Qed.

(** X6.  What a day directory outside the range holds is never looked at:
    when the date that the names of a day directory compose is, at midnight,
    outside the range, or is no date, the scan has the same outcome, readings
    or exception, whatever is put in the place of that directory. *)
Theorem betweenDatetimes_ignores_day_outside (start end_ : datetime)
  (ya yb ma mb da db : list (string * node)) (yname mname dname : string)
  (y m d : Z) (held other : node) :
  ascii_text yname = true -> ascii_text mname = true ->
  ascii_text dname = true ->
  no_slash yname -> no_slash mname -> no_slash dname ->
  int_of_str (list_ascii_of_string yname) = Ok y ->
  int_of_str (list_ascii_of_string mname) = Ok m ->
  int_of_str (list_ascii_of_string dname) = Ok d ->
  (forall pivot,
      pivot_of y m d = Ok pivot -> in_range start end_ pivot = false) ->
  betweenDatetimes start end_
    (archive_with_day ya yb ma mb da db yname mname dname held)
  = betweenDatetimes start end_
      (archive_with_day ya yb ma mb da db yname mname dname other).
Proof.
  intros _ _ _ Sy Sm Sd Hy Hm Hd Hout.
  unfold betweenDatetimes, archive_with_day.
  apply for_each_glob_replace. intros s0. unfold scan_year.
  rewrite (lastPathElement_join _ _ Sy), Hy. cbn [bind].
  apply for_each_glob_replace. intros s1. unfold scan_month.
  rewrite (lastPathElement_join _ _ Sm), Hm. cbn [bind].
  apply for_each_glob_replace. intros s2.
  destruct (pivot_of y m d) as [pivot | e] eqn:Hpivot.
  - rewrite !(scan_day_out_of_range start end_ y m s2 _ _ d pivot);
      try reflexivity; try exact Hpivot; try (now apply Hout);
      now rewrite (lastPathElement_join _ _ Sd).
  - unfold scan_day. rewrite (lastPathElement_join _ _ Sd), Hd. cbn [bind].
    unfold pivot_of in Hpivot. rewrite Hpivot. reflexivity.
Qed.

Lemma betweenDatetimes_ignores_day_outside_witness :
  betweenDatetimes (at_hour 8) (at_hour 18)
    (two_days (File "not even a directory"))
  = betweenDatetimes (at_hour 8) (at_hour 18) (two_days (Dir [])).
Proof.
  apply (betweenDatetimes_ignores_day_outside (at_hour 8) (at_hour 18)
           [] [] [] [] [] _ "2023" "05" "09" 2023 5 9);
    try reflexivity;
    try (intros H; cbn in H; intuition discriminate).
  intros pivot H. vm_compute in H. inversion H. reflexivity.
Defined.

(** ** What makes the scan raise *)

Lemma for_each_raises {A S : Type} (body : S -> A -> result S) (l : list A)
  (x : A) :
  In x l -> (forall s, exists e, body s x = Raise e) ->
  forall s, exists e, for_each l body s = Raise e.
Proof.
  intros Hin Hx. induction l as [| y l IH]; [destruct Hin |].
  intros s. simpl. destruct Hin as [-> | Hin].
  - destruct (Hx s) as [e ->]. simpl. eauto.
  - destruct (body s y) as [s' | e]; simpl; [apply (IH Hin) | eauto].
Qed.

Lemma fnmatch_any (name : string) :
  fnmatch (list_ascii_of_string "*") (list_ascii_of_string name) = true.
Proof. apply fnmatch_star. Qed.

Lemma glob_star (dirname name : string) (entries : list (string * node))
  (n : node) :
  In (name, n) entries -> ishidden name = false ->
  In ((dirname ++ "/" ++ name)%string, n) (glob dirname (Dir entries) "*").
Proof.
  intros Hin Hv. apply glob_In. exists name. cbn [entries_of].
  rewrite Hv, fnmatch_any. auto.
Qed.

Lemma glob_2_star (name : string) (entries : list (string * node)) (n : node) :
  In (name, n) entries -> begins_with_2 name = true ->
  In (("dati" ++ "/" ++ name)%string, n) (glob "dati" (Dir entries) "2*").
Proof.
  intros Hin H2. apply glob_In. exists name. cbn [entries_of].
  rewrite fnmatch_2_star, H2.
  destruct name as [| c name]; [discriminate |].
  destruct c as [[] [] [] [] [] [] [] []]; try discriminate. auto.
Qed.

Section scan_raises.

Variables start end_ : datetime.

Lemma scan_day_stray year month found dirname name n :
  stray name ->
  exists e,
    scan_day start end_ year month found ((dirname ++ "/" ++ name)%string, n)
    = Raise e.
Proof.
  intros [_ [Hs [_ [e He]]]]. unfold scan_day.
  rewrite (lastPathElement_join _ _ Hs), He. simpl. eauto.
Qed.

Lemma scan_month_stray year found dirname name n :
  stray name ->
  exists e,
    scan_month start end_ year found ((dirname ++ "/" ++ name)%string, n)
    = Raise e.
Proof.
  intros [_ [Hs [_ [e He]]]]. unfold scan_month.
  rewrite (lastPathElement_join _ _ Hs), He. simpl. eauto.
Qed.

Lemma scan_year_stray found dirname name n :
  stray name ->
  exists e,
    scan_year start end_ found ((dirname ++ "/" ++ name)%string, n) = Raise e.
Proof.
  intros [_ [Hs [_ [e He]]]]. unfold scan_year.
  rewrite (lastPathElement_join _ _ Hs), He. simpl. eauto.
Qed.

Lemma scan_month_holds_stray year found dirname mname ds name n :
  no_slash mname -> In (name, n) ds -> stray name ->
  exists e,
    scan_month start end_ year found
      ((dirname ++ "/" ++ mname)%string, Dir ds) = Raise e.
Proof.
  intros Hm Hin Hstray. unfold scan_month.
  rewrite (lastPathElement_join _ _ Hm).
  destruct (int_of_str (list_ascii_of_string mname)) as [month | e]; simpl;
    [| eauto].
  apply (for_each_raises _ _
           (((dirname ++ "/" ++ mname) ++ "/" ++ name)%string, n)).
  - apply glob_star; [exact Hin | apply Hstray].
  - intros s. now apply scan_day_stray.
Qed.

Lemma scan_year_holds_stray found dirname yname ms name n :
  no_slash yname -> In (name, n) ms -> stray name ->
  exists e,
    scan_year start end_ found ((dirname ++ "/" ++ yname)%string, Dir ms)
    = Raise e.
Proof.
  intros Hy Hin Hstray. unfold scan_year.
  rewrite (lastPathElement_join _ _ Hy).
  destruct (int_of_str (list_ascii_of_string yname)) as [year | e]; simpl;
    [| eauto].
  apply (for_each_raises _ _
           (((dirname ++ "/" ++ yname) ++ "/" ++ name)%string, n)).
  - apply glob_star; [exact Hin | apply Hstray].
  - intros s. now apply scan_month_stray.
Qed.

(** X7.  An entry with an ASCII name that [int] refuses aborts every scan,
    whatever the range, when it sits where a year, a month or a day is
    expected: in [dati] with a name that begins with 2, in such a year
    directory, or in a month directory of one.  A note left beside the
    months is enough. *)
Theorem betweenDatetimes_stray_entry (entries : list (string * node))
  (name : string) (n : node) :
  stray name ->
  (In (name, n) entries /\ begins_with_2 name = true) \/
  (exists yname ms,
      In (yname, Dir ms) entries /\ begins_with_2 yname = true /\
      no_slash yname /\ In (name, n) ms) \/
  (exists yname ms mname ds,
      In (yname, Dir ms) entries /\ begins_with_2 yname = true /\
      no_slash yname /\ In (mname, Dir ds) ms /\ no_slash mname /\
      ishidden mname = false /\ In (name, n) ds) ->
  exists e, betweenDatetimes start end_ (Dir entries) = Raise e.
Proof.
  intros Hstray H. unfold betweenDatetimes.
  destruct H as [[Hin H2] | [[yname [ms [Hin [H2 [Hy Hn]]]]]
                            | [yname [ms [mname [ds [Hin [H2 [Hy [Hm [Hms [Hmv Hn]]]]]]]]]]]].
  - apply (for_each_raises _ _ (("dati" ++ "/" ++ name)%string, n)).
    + now apply glob_2_star.
    + intros s. now apply scan_year_stray.
  - apply (for_each_raises _ _ (("dati" ++ "/" ++ yname)%string, Dir ms)).
    + now apply glob_2_star.
    + intros s. now apply (scan_year_holds_stray s "dati" yname ms name n).
  - apply (for_each_raises _ _ (("dati" ++ "/" ++ yname)%string, Dir ms)).
    + now apply glob_2_star.
    + intros s. unfold scan_year. rewrite (lastPathElement_join _ _ Hy).
      destruct (int_of_str (list_ascii_of_string yname)) as [year | e]; simpl;
        [| eauto].
      apply (for_each_raises _ _
               ((("dati" ++ "/" ++ yname) ++ "/" ++ mname)%string, Dir ds)).
      * apply (glob_star ("dati" ++ "/" ++ yname) mname ms (Dir ds) Hm Hmv).
      * intros s'.
        apply (scan_month_holds_stray year s' ("dati" ++ "/" ++ yname)%string
                 mname ds name n Hms Hn Hstray).
Qed.

End scan_raises.

(** ** The readings of a scan, exactly *)

Section scan_exactly.

Variables start end_ : datetime.

Lemma scan_file_eq found fPath fNode :
  scan_file start end_ found (fPath, fNode)
  = (type <- type_of_file (string_of_list_ascii (lastPathElement fPath)) ;;
     lines <- open_readlines fNode ;;
     for_each lines (scan_line start end_ type) found).
Proof.
  unfold scan_file, type_of_file.
  destruct (attribute _ DataType.symbol) as [sym | e]; simpl; [| reflexivity].
  destruct (Symbols_of_value sym); reflexivity.
Qed.

Lemma opened_raises dati fPath fNode :
  opened start end_ dati fPath fNode ->
  (forall found, exists e, scan_file start end_ found (fPath, fNode) = Raise e) ->
  exists e, betweenDatetimes start end_ dati = Raise e.
Proof.
  intros [pivot [[yPath [yNode [mPath [mNode [dPath [dNode [year [month [day
            [Hy [Hyear [Hm [Hmonth [Hd [Hday [Hpivot Hf]]]]]]]]]]]]]]]] Hrange]]
         Hraise.
  unfold betweenDatetimes.
  apply (for_each_raises _ _ _ Hy). intros s.
  unfold scan_year. rewrite Hyear. cbn [bind].
  apply (for_each_raises _ _ _ Hm). intros s0.
  unfold scan_month. rewrite Hmonth. cbn [bind].
  apply (for_each_raises _ _ _ Hd). intros s1.
  unfold scan_day. rewrite Hday. cbn [bind].
  unfold pivot_of in Hpivot. rewrite Hpivot. cbn [bind].
  destruct (in_range_filters _ _ _ Hrange) as [Hps Hpe].
  rewrite Hps. change (dt_gt pivot end_) with (dt_lt end_ pivot).
  rewrite Hpe. cbn [orb].
  apply (for_each_raises _ _ _ Hf). exact Hraise.
Qed.

Lemma unreadable_raises fPath fNode found :
  unreadable start end_ fPath fNode ->
  exists e, scan_file start end_ found (fPath, fNode) = Raise e.
Proof.
  intros H. rewrite scan_file_eq.
  pose proof (type_of_file_lookup
                (string_of_list_ascii (lastPathElement fPath))) as Htype.
  destruct H as [Hname | [[entries ->] | [H | H]]].
  - rewrite Hname in Htype. rewrite Htype. simpl. eauto.
  - destruct (type_of_file _) as [type | e]; simpl; eauto.
  - destruct H as [content [line [e [-> [Hin [Hlen Hts]]]]]].
    destruct (type_of_file _) as [type | e']; simpl; [| eauto].
    apply (for_each_raises _ _ _ Hin). intros s. unfold scan_line.
    apply Nat.ltb_ge in Hlen. rewrite Hlen, Hts. simpl. eauto.
  - destruct H as [content [line [t [e [-> [Hin [[Hlen [Hts Hr]] Hfl]]]]]]].
    destruct (type_of_file _) as [type | e']; simpl; [| eauto].
    apply (for_each_raises _ _ _ Hin). intros s. unfold scan_line.
    apply Nat.ltb_ge in Hlen. rewrite Hlen, Hts. cbn [bind].
    destruct (in_range_filters _ _ _ Hr) as [-> ->]. cbn [orb].
    rewrite Hfl. simpl. eauto.
Qed.

(** X8.  In an archive of ASCII text, a file that the scan opens and cannot
    read makes the scan raise: a CSV name that is not in the catalog, a
    directory with a CSV name, a row with a comma whose first field is no
    timestamp, wherever its instant was meant to be, or a row in the range
    whose value is no float. *)
Theorem betweenDatetimes_unreadable_file (dati : node) (fPath : string)
  (fNode : node) :
  ascii_archive dati = true ->
  opened start end_ dati fPath fNode ->
  unreadable start end_ fPath fNode ->
  exists e, betweenDatetimes start end_ dati = Raise e.
Proof.
  intros _ Hopen Hbad. apply (opened_raises _ _ _ Hopen).
  intros found. now apply unreadable_raises.
Qed.

End scan_exactly.

Section scan_sound.

Variables start end_ : datetime.

Lemma for_each_preserves_In {A S : Type} (P : S -> Prop)
  (body : S -> A -> result S) (l : list A) :
  (forall s x s', In x l -> P s -> body s x = Ok s' -> P s') ->
  forall s s', P s -> for_each l body s = Ok s' -> P s'.
Proof.
  induction l as [| x l IH]; simpl; intros Hbody s s' Hs H.
  - now inversion H; subst.
  - inv_bind H. eapply IH; [| | exact H].
    + intros; eapply Hbody; eauto.
    + eapply Hbody; eauto.
Qed.

Lemma scan_line_Ok type found line found' :
  scan_line start end_ type found line = Ok found' ->
  found' = found \/
  exists t v,
    row_in_range start end_ line t /\ reading_of_row line t v /\
    symbol v = type /\ found' = found ++ [v].
Proof.
  unfold scan_line. intros H.
  destruct (length (split "," line) <? 2)%nat eqn:Hlen;
    [left; congruence |].
  apply Nat.ltb_ge in Hlen. inv_bind H. rename a into t.
  destruct (dt_gt start t || dt_lt end_ t) eqn:Hout; [left; congruence |].
  apply orb_false_iff in Hout. destruct Hout as [Hs He].
  inv_bind H. rename a into x. inv_bind H. rename a into v.
  inversion H; subst found'. right. exists t, v.
  destruct (Value_init_Ok _ _ _ _ Ha1) as [Hround [Hsym Hinst]].
  split.
  - split; [exact Hlen |]. split; [exact Ha |]. unfold in_range.
    now rewrite (dt_gt_false _ _ Hs), (dt_lt_false _ _ He).
  - split; [exists x; auto | auto].
Qed.

Lemma reading_of_row_unique line t v v' :
  reading_of_row line t v -> reading_of_row line t v' ->
  symbol v = symbol v' -> v = v'.
Proof.
  intros [x [Hx [Hr Hi]]] [x' [Hx' [Hr' Hi']]] Hs.
  rewrite Hx in Hx'. inversion Hx'; subst x'. rewrite Hr in Hr'.
  inversion Hr'. destruct v, v'. simpl in *. congruence.
Qed.

Lemma betweenDatetimes_reads_opened (dati : node) (found : list Value)
  (v : Value) :
  betweenDatetimes start end_ dati = Ok found ->
  In v found ->
  exists fPath fNode,
    opened start end_ dati fPath fNode /\ read_from start end_ fPath fNode v.
Proof.
  intros H.
  revert v. apply Forall_forall. unfold betweenDatetimes in H. revert H.
  apply for_each_preserves_In; [| constructor].
  intros s [yPath yNode] s' Hy Hs H. unfold scan_year in H.
  inv_bind H. rename a into year. rename Ha into Hyear. revert Hs H.
  apply for_each_preserves_In.
  intros s0 [mPath mNode] s0' Hm Hs0 H. unfold scan_month in H.
  inv_bind H. rename a into month. rename Ha into Hmonth. revert Hs0 H.
  apply for_each_preserves_In.
  intros s1 [dPath dNode] s1' Hd Hs1 H. unfold scan_day in H.
  inv_bind H. rename a into day. rename Ha into Hday.
  inv_bind H. rename a into pivot. rename Ha into Hpivot.
  destruct (dt_gt start pivot || dt_gt pivot end_) eqn:Hout;
    [now inversion H; subst |].
  apply orb_false_iff in Hout. destruct Hout as [Hps Hpe].
  assert (Hrange : in_range start end_ pivot = true).
  { unfold in_range.
    now rewrite (dt_gt_false _ _ Hps), (dt_gt_false _ _ Hpe). }
  revert Hs1 H. apply for_each_preserves_In.
  intros s2 [fPath fNode] s2' Hf Hs2 H. rewrite scan_file_eq in H.
  inv_bind H. rename a into type. rename Ha into Htype.
  inv_bind H. rename a into lines. rename Ha into Hlines.
  revert Hs2 H. apply for_each_preserves_In.
  intros s3 line s3' Hline Hs3 H.
  destruct (scan_line_Ok _ _ _ _ H) as [-> | [t [w [Hrow [Hw [Hsym ->]]]]]];
    [exact Hs3 |].
  apply Forall_app. split; [exact Hs3 |]. constructor; [| constructor].
  exists fPath, fNode. split.
  + exists pivot. split; [| exact Hrange].
    exists yPath, yNode, mPath, mNode, dPath, dNode, year, month, day.
    unfold pivot_of. repeat split; assumption.
  + exists lines, line, t. rewrite Hsym.
    split; [exact Htype |]. split; [exact Hlines |].
    split; [exact Hline |]. split; assumption.
Qed.

Lemma betweenDatetimes_returns_read (dati : node) (found : list Value)
  (v : Value) :
  betweenDatetimes start end_ dati = Ok found ->
  (exists fPath fNode,
     opened start end_ dati fPath fNode /\ read_from start end_ fPath fNode v) ->
  In v found.
Proof.
  intros H.
  intros [fPath [fNode [Hopen Hread]]].
  destruct Hopen as
    [pivot [[yPath [yNode [mPath [mNode [dPath [dNode [year [month [day
     [Hy [Hyear [Hm [Hmonth [Hd [Hday [Hpivot Hf]]]]]]]]]]]]]]]] Hrange]].
  destruct Hread as [lines [line [t [Htype [Hlines [Hline [Hrow Hv]]]]]]].
  unfold betweenDatetimes in H. revert H.
  apply (for_each_establishes (In v) _ _ _ Hy).
  { intros; eapply scan_year_keeps; eauto. }
  intros s s'. unfold scan_year. rewrite Hyear. cbn [bind].
  apply (for_each_establishes (In v) _ _ _ Hm).
  { intros; eapply scan_month_keeps; eauto. }
  intros s0 s0'. unfold scan_month. rewrite Hmonth. cbn [bind].
  apply (for_each_establishes (In v) _ _ _ Hd).
  { intros; eapply scan_day_keeps; eauto. }
  intros s1 s1'. unfold scan_day. rewrite Hday. cbn [bind].
  unfold pivot_of in Hpivot. rewrite Hpivot. cbn [bind].
  destruct (in_range_filters _ _ _ Hrange) as [Hps Hpe].
  rewrite Hps. change (dt_gt pivot end_) with (dt_lt end_ pivot).
  rewrite Hpe. cbn [orb].
  apply (for_each_establishes (In v) _ _ _ Hf).
  { intros; eapply scan_file_keeps; eauto. }
  intros s2 s2'. rewrite scan_file_eq, Htype, Hlines. cbn [bind].
  apply (for_each_establishes (In v) _ _ _ Hline).
  { intros; eapply scan_line_keeps; eauto. }
  intros s3 s3' H.
  destruct (scan_line_adds _ _ _ _ _ _ _ Hrow H) as [w [Hw [Hsym Hin]]].
  rewrite (reading_of_row_unique _ _ _ _ Hv Hw); [exact Hin | congruence].
Qed.

Lemma betweenDatetimes_reads (dati : node) (found : list Value) (v : Value) :
  betweenDatetimes start end_ dati = Ok found ->
  (In v found <->
   exists fPath fNode,
     opened start end_ dati fPath fNode /\ read_from start end_ fPath fNode v).
Proof.
  intros H. split.
  - exact (betweenDatetimes_reads_opened dati found v H).
  - exact (betweenDatetimes_returns_read dati found v H).
Qed.

(** X9.  When the scan of an archive of ASCII text returns, its readings are
    those of the rows in the range of the files it opens, no other and each
    of them: a reading is returned exactly when some CSV file with a catalog
    name, listed in a day directory whose midnight lies in the range, has a
    row in the range that stands for it. *)
Theorem betweenDatetimes_exactly (dati : node) (found : list Value) (v : Value) :
  ascii_archive dati = true ->
  betweenDatetimes start end_ dati = Ok found ->
  (In v found <->
   exists fPath fNode,
     opened start end_ dati fPath fNode /\ read_from start end_ fPath fNode v).
Proof.
  intros _ H. split.
  - exact (betweenDatetimes_reads_opened dati found v H).
  - exact (betweenDatetimes_returns_read dati found v H).
Qed.

End scan_sound.

Lemma betweenDatetimes_stray_entry_witness :
  exists e,
    betweenDatetimes (at_hour 8) (at_hour 18) (Dir noted_archive) = Raise e.
Proof.
  apply (betweenDatetimes_stray_entry (at_hour 8) (at_hour 18) noted_archive
           "README" (File "")).
  - split; [reflexivity |]. split; [| split; [reflexivity | eexists; reflexivity]].
    intros H. cbn in H. intuition discriminate.
  - right. left. exists "2023"%string, [("README"%string, File "")].
    split; [now left |]. split; [reflexivity |].
    split; [| now left].
    intros H. cbn in H. intuition discriminate.
Defined.

Lemma wind_archive_opened :
  opened (at_hour 0) (at_hour 18) wind_archive
    "dati/2023/05/10/wind.csv" (File "").
Proof.
  exists (at_hour 0). split; [| reflexivity].
  exists "dati/2023"%string,
    (Dir [("05"%string, Dir [("10"%string, Dir [("wind.csv"%string, File "")])])]),
    "dati/2023/05"%string,
    (Dir [("10"%string, Dir [("wind.csv"%string, File "")])]),
    "dati/2023/05/10"%string, (Dir [("wind.csv"%string, File "")]),
    2023, 5, 10.
  repeat split; try reflexivity; cbn; now left.
Qed.

Lemma padded_value_archive_opened :
  opened (at_hour 0) (at_hour 18) padded_value_archive
    "dati/2023/05/10/temperature.csv"
    (File ("2023-05-10 12:00:00,20.0"
           ++ String "031" (String newline EmptyString))%string).
Proof.
  exists (at_hour 0). split; [| reflexivity].
  exists "dati/2023"%string,
    (Dir [("05"%string, Dir [("10"%string, padded_value_day)])]),
    "dati/2023/05"%string, (Dir [("10"%string, padded_value_day)]),
    "dati/2023/05/10"%string, padded_value_day, 2023, 5, 10.
  repeat split; try reflexivity; cbn; now left.
Qed.

Lemma betweenDatetimes_unreadable_file_witness :
  (exists e, betweenDatetimes (at_hour 0) (at_hour 18) wind_archive = Raise e)
  /\ (exists e,
        betweenDatetimes (at_hour 0) (at_hour 18) padded_value_archive
        = Raise e).
Proof.
  split.
  - apply (betweenDatetimes_unreadable_file (at_hour 0) (at_hour 18)
             wind_archive "dati/2023/05/10/wind.csv" (File "")).
    + reflexivity.
    + exact wind_archive_opened.
    + left. reflexivity.
  - apply (betweenDatetimes_unreadable_file (at_hour 0) (at_hour 18)
             padded_value_archive "dati/2023/05/10/temperature.csv"
             (File ("2023-05-10 12:00:00,20.0"
                    ++ String "031" (String newline EmptyString))%string)).
    + reflexivity.
    + exact padded_value_archive_opened.
    + right. right. right.
      exists ("2023-05-10 12:00:00,20.0"
              ++ String "031" (String newline EmptyString))%string,
        (list_ascii_of_string
           ("2023-05-10 12:00:00,20.0"
            ++ String "031" (String newline EmptyString))),
        (at_hour 12), ValueError.
      split; [reflexivity |]. split; [now left |].
      split; [| reflexivity].
      split; [cbn; lia |]. split; reflexivity.
Defined.

Lemma betweenDatetimes_exactly_witness :
  In (mkValue (Fin 20) temperature (at_hour 12))
     [mkValue (Fin 20) temperature (at_hour 12)] <->
  exists fPath fNode,
    opened (at_hour 0) (at_hour 18) one_day_archive fPath fNode /\
    read_from (at_hour 0) (at_hour 18) fPath fNode
      (mkValue (Fin 20) temperature (at_hour 12)).
Proof.
  apply (betweenDatetimes_exactly (at_hour 0) (at_hour 18) one_day_archive).
  - reflexivity.
  - vm_compute. reflexivity.
Defined.

(** ** The date of a day directory *)

Lemma forallb_range (p : Z -> bool) (n : nat) (z : Z) :
  forallb p (map Z.of_nat (seq 1 n)) = true ->
  1 <= z <= Z.of_nat n -> p z = true.
Proof.
  intros H Hz. rewrite forallb_forall in H. apply H.
  apply in_map_iff. exists (Z.to_nat z). split; [lia |].
  apply in_seq. lia.
Qed.

Lemma all_years_ok : forallb year_text_ok all_years = true.
Proof. vm_compute. reflexivity. Qed.

Lemma all_month_days_ok :
  forallb (fun m => forallb (month_day_text_ok m) all_days) all_months = true.
Proof. vm_compute. reflexivity. Qed.

Lemma match_year_group (a b c e : ascii) (ts : list token) (rest : list ascii) :
  digit a = true -> digit b = true -> digit c = true -> digit e = true ->
  match_tokens (directive_Y :: ts) (a :: b :: c :: e :: rest)
  = match match_tokens ts rest with
    | Some (gs, r) => Some ([a; b; c; e] :: gs, r)
    | None => None
    end.
Proof.
  intros Ha Hb Hc He.
  cbn [match_tokens directive_Y first_alt match_classes].
  rewrite Ha, Hb, Hc, He.
  destruct (match_tokens ts rest) as [[gs r] |]; reflexivity.
Qed.

(** X10.  For a year from 1 to 9999, a month from 1 to 12 and a day from 1 to
    31, the text that the scan composes with [str], [zfill] and [+] and hands
    to [strptime] is read back as that very date: the pivot of a day
    directory is the midnight of the date its path names, and the scan raises
    [ValueError] when the month has no such day. *)
Theorem pivot_of_date (y m d : Z) :
  1 <= y <= 9999 -> 1 <= m <= 12 -> 1 <= d <= 31 ->
  pivot_of y m d = datetime_new y m d 0 0 0.
Proof.
  intros Hy Hm Hd.
  pose proof (forallb_range _ _ y all_years_ok Hy) as Hyear.
  pose proof (forallb_range _ _ m all_month_days_ok Hm) as Hmd.
  cbv beta in Hmd.
  pose proof (forallb_range _ _ d Hmd Hd) as Hmonth. clear Hmd.
  unfold year_text_ok in Hyear. unfold month_day_text_ok in Hmonth.
  unfold pivot_of, strptime_date, strptime_groups.
  destruct (zfill (str_of_int y) 4) as [| a [| b [| c [| e [| ? ?]]]]];
    try discriminate.
  apply andb_true_iff in Hyear. destruct Hyear as [Hdigits Hint].
  do 3 (apply andb_true_iff in Hdigits; destruct Hdigits as [Hdigits ?]).
  cbn [app]. rewrite match_year_group by assumption.
  destruct (match_tokens _ _) as [[[| gm [| gd [| ? ?]]] [| ? ?]] |];
    try discriminate.
  cbn [mapM].
  destruct (int_of_str [a; b; c; e]) as [y' |]; [| discriminate].
  apply Z.eqb_eq in Hint. subst y'.
  destruct (int_of_str gm) as [m' |]; [| discriminate].
  destruct (int_of_str gd) as [d' |]; [| discriminate].
  apply andb_true_iff in Hmonth. destruct Hmonth as [Hm' Hd'].
  apply Z.eqb_eq in Hm', Hd'. subst m' d'. reflexivity.
Qed.

Lemma pivot_of_date_witness : pivot_of 2023 5 10 = datetime_new 2023 5 10 0 0 0.
Proof. apply (pivot_of_date 2023 5 10); lia. Defined.

(** ** More on the aggregates *)

Lemma Stats_running (t : datetime) (dataList : list Value)
  (results : dict aggregate) (s : Symbols) (a : aggregate) :
  Stats t dataList = Ok results -> get results s = Some a ->
  agg_max a = run_max (fold_left observe (readings s dataList) (seeded t)) /\
  agg_min a = run_min (fold_left observe (readings s dataList) (seeded t)) /\
  itemCount a
  = run_itemCount (fold_left observe (readings s dataList) (seeded t)).
Proof.
  intros H Hget. destruct (Stats_Ok _ _ _ H) as [tm [rm [Hfirst Hsecond]]].
  destruct (mapM_finish _ _ _ Hsecond) as [_ [_ Hg]].
  destruct (Hg _ _ Hget) as [r [Hr Hfin]].
  destruct (finish_Ok _ _ _ _ _ Hfin) as [_ [Hc [Hmax [Hmin _]]]].
  destruct (Stats_aggregate _ _ _ _ _ H Hget) as [_ [Hne _]].
  pose proof (first_pass_running _ _ _ s Hfirst Hne) as Hrun.
  cbn [snd] in Hrun. rewrite Hr in Hrun. inversion Hrun; subst r. auto.
Qed.

(** X11.  The aggregate of a symbol counts the readings of that symbol, and
    its [mean] is the arithmetic mean of their values, rounded once, to the
    nearest float: of 2.5, -1.5 and 4.75 it is the float above 23/12, and of
    2^53 and 2^53 + 2 it is 2^53, the even one of the two floats nearest to
    the mean. *)
Theorem Stats_count_and_mean (t : datetime) :
  (forall (dataList : list Value) (results : dict aggregate) (s : Symbols)
          (a : aggregate),
      Stats t dataList = Ok results -> get results s = Some a ->
      itemCount a = Z.of_nat (length (readings s dataList)) /\
      exists qs,
        exact_ratios (map value (readings s dataList)) = Some qs /\
        true_division (Qred (arithmetic_mean qs)) = Ok (agg_mean a)) /\
  agg_mean (temperature_of (results_of t signed_readings))
  = Fin (8631899285793451 # 4503599627370496) /\
  itemCount (temperature_of (results_of t signed_readings)) = 3 /\
  agg_mean (temperature_of (results_of t tied_readings))
  = Fin 9007199254740992.
Proof.
  split; [| repeat split; vm_compute; reflexivity].
  intros dataList results s a H Hget.
  destruct (Stats_aggregate _ _ _ _ _ H Hget)
    as [ints [Hne [Hints [_ [Hmean [_ Hcount]]]]]].
  split; [exact Hcount |].
  unfold mean in Hmean.
  destruct (length (map value (readings s dataList)) <? 1)%nat;
    [discriminate |].
  destruct (exact_ratios (map value (readings s dataList))) as [qs |] eqn:Hqs.
  - exists qs. auto.
  - exfalso. clear - Hints Hqs.
    revert ints Hints Hqs.
    induction (map value (readings s dataList)) as [| x l IH];
      intros ints Hints Hqs; [discriminate |].
    simpl in Hints, Hqs. inv_bind Hints. inv_bind Hints.
    destruct x as [q | |]; try discriminate. cbn in Hqs.
    destruct (exact_ratios l); [discriminate | eauto].
Qed.

Lemma Stats_count_and_mean_witness :
  itemCount (aggregate_of (results_of (at_hour 0) mixed) humidity)
  = Z.of_nat (length (readings humidity mixed)) /\
  exists qs,
    exact_ratios (map value (readings humidity mixed)) = Some qs /\
    true_division (Qred (arithmetic_mean qs))
    = Ok (agg_mean (aggregate_of (results_of (at_hour 0) mixed) humidity)).
Proof.
  apply (proj1 (Stats_count_and_mean (at_hour 0)) mixed
           (results_of (at_hour 0) mixed) humidity);
    vm_compute; reflexivity.
Defined.

(** *** The order of the symbols *)

Lemma existsb_Symbols_eqb (k : Symbols) (l : list Symbols) :
  existsb (Symbols_eqb k) l = true <-> In k l.
Proof.
  rewrite existsb_exists. split.
  - intros [x [Hin Hx]]. apply Symbols_eqb_eq in Hx. now subst.
  - intros Hin. exists k. split; [exact Hin | apply Symbols_eqb_refl].
Qed.

Lemma contains_keys {V : Type} (m : dict V) (k : Symbols) :
  contains m k = existsb (Symbols_eqb k) (keys m).
Proof.
  unfold contains.
  destruct (get m k) as [v |] eqn:Hg.
  - symmetry. apply existsb_Symbols_eqb.
    apply get_Some_In in Hg. apply (in_map fst) in Hg. exact Hg.
  - symmetry. apply not_true_is_false. rewrite existsb_Symbols_eqb.
    now apply get_None_keys.
Qed.

Lemma get_Some_keys {V : Type} (m : dict V) (k : Symbols) :
  get m k <> None <-> In k (keys m).
Proof.
  induction m as [| [k0 v0] m IH]; simpl; [tauto |].
  destruct (Symbols_eqb k0 k) eqn:Hk.
  - apply Symbols_eqb_eq in Hk. split; [auto | discriminate].
  - apply Symbols_eqb_neq in Hk. rewrite IH. tauto.
Qed.

Lemma first_pass_keys (t : datetime) (dataList : list Value)
  (maps : dict lists * dict running) :
  first_pass t dataList = Ok maps ->
  keys (snd maps) = first_appearances (map symbol dataList).
Proof.
  unfold first_pass, first_appearances.
  assert (G : forall l m m' seen,
             keys (snd m) = seen ->
             for_each l (Stats_step t) m = Ok m' ->
             keys (snd m')
             = fold_left
                 (fun seen k => if existsb (Symbols_eqb k) seen then seen
                                else seen ++ [k]) (map symbol l) seen).
  { induction l as [| el l IH]; intros m m' seen Hk H; simpl in H.
    - inversion H; subst. reflexivity.
    - inv_bind H. cbn [map fold_left]. apply (IH _ _ _ eq_refl) in H.
      rewrite H. f_equal. clear H IH. destruct m as [tm rm].
      rewrite Stats_step_eq in Ha. inv_bind Ha. cbv zeta in Ha.
      inversion Ha; subst a. cbn [snd] in *.
      rewrite keys_set, contains_keys, Hk. reflexivity. }
  intros H. now apply (G dataList ([], []) maps []).
Qed.

(** X12.  The symbols of the result are those that have readings, each once,
    in the order in which the input first shows them. *)
Theorem Stats_keys (t : datetime) (dataList : list Value)
  (results : dict aggregate) :
  Stats t dataList = Ok results ->
  keys results = first_appearances (map symbol dataList) /\
  NoDup (keys results) /\
  forall s, In s (keys results) <-> readings s dataList <> [].
Proof.
  intros H. destruct (Stats_Ok _ _ _ H) as [tm [rm [Hfirst Hsecond]]].
  destruct (mapM_finish _ _ _ Hsecond) as [Hk _].
  destruct (first_pass_total _ _ _ Hfirst) as [Hd _]. cbn [snd] in Hd.
  split; [rewrite Hk; exact (first_pass_keys _ _ _ Hfirst) |].
  split; [now rewrite Hk |].
  intros s. rewrite <- (Stats_symbols _ _ _ s H). symmetry.
  apply get_Some_keys.
Qed.

Lemma Stats_keys_witness :
  keys (results_of (at_hour 0) mixed) = first_appearances (map symbol mixed) /\
  NoDup (keys (results_of (at_hour 0) mixed)) /\
  forall s, In s (keys (results_of (at_hour 0) mixed)) <-> readings s mixed <> [].
Proof.
  apply (Stats_keys (at_hour 0) mixed). vm_compute. reflexivity.
Defined.

(** X13.  The aggregate of a symbol depends on the readings of that symbol
    alone, in their order: two inputs with the same readings of a symbol give
    it the same aggregate, whatever else they hold and however the readings
    of other symbols are placed. *)
Theorem Stats_per_symbol (t : datetime) (l1 l2 : list Value)
  (r1 r2 : dict aggregate) (s : Symbols) :
  Stats t l1 = Ok r1 -> Stats t l2 = Ok r2 ->
  readings s l1 = readings s l2 ->
  get r1 s = get r2 s.
Proof.
  intros H1 H2 Hsame.
  destruct (get r1 s) as [a1 |] eqn:G1; destruct (get r2 s) as [a2 |] eqn:G2.
  - destruct (Stats_aggregate _ _ _ _ _ H1 G1)
      as [i1 [_ [Hi1 [Hsd1 [Hmn1 [Hmd1 _]]]]]].
    destruct (Stats_aggregate _ _ _ _ _ H2 G2)
      as [i2 [_ [Hi2 [Hsd2 [Hmn2 [Hmd2 _]]]]]].
    destruct (Stats_running _ _ _ _ _ H1 G1) as [Hx1 [Hn1 Hc1]].
    destruct (Stats_running _ _ _ _ _ H2 G2) as [Hx2 [Hn2 Hc2]].
    rewrite Hsame in *. rewrite Hi1 in Hi2. inversion Hi2; subst i2.
    rewrite Hsd1 in Hsd2. rewrite Hmn1 in Hmn2. rewrite Hmd1 in Hmd2.
    inversion Hsd2. inversion Hmn2. inversion Hmd2.
    destruct a1, a2. simpl in *. congruence.
  - exfalso. apply (proj1 (Stats_symbols _ _ _ s H1)); [congruence |].
    rewrite Hsame. destruct (readings s l2) eqn:E; [reflexivity |].
    exfalso. apply (proj2 (Stats_symbols _ _ _ s H2)); [congruence | exact G2].
  - exfalso. apply (proj1 (Stats_symbols _ _ _ s H2)); [congruence |].
    rewrite <- Hsame. destruct (readings s l1) eqn:E; [reflexivity |].
    exfalso. apply (proj2 (Stats_symbols _ _ _ s H1)); [congruence | exact G1].
  - reflexivity.
Qed.

Lemma Stats_per_symbol_witness :
  get (results_of (at_hour 0) mixed) temperature
  = get (results_of (at_hour 0) mixed_again) temperature.
Proof.
  apply (Stats_per_symbol (at_hour 0) mixed mixed_again); vm_compute; reflexivity.
Defined.

(** *** The extremes, exactly *)

Lemma float_gt_Fin (x y : Q) : float_gt (Fin x) (Fin y) = true <-> (y < x)%Q.
Proof.
  cbn. destruct (Qcompare_spec y x) as [H | H | H]; split; intros G;
    try reflexivity; try discriminate; try assumption; exfalso.
  - rewrite H in G. exact (Qlt_irrefl _ G).
  - exact (Qlt_irrefl _ (Qlt_trans _ _ _ G H)).
Qed.

Lemma float_lt_Fin (x y : Q) : float_lt (Fin x) (Fin y) = true <-> (x < y)%Q.
Proof. exact (float_gt_Fin y x). Qed.

Lemma float_le_Fin (x y : Q) : float_le (Fin x) (Fin y) = true <-> (x <= y)%Q.
Proof.
  cbn. destruct (Qcompare_spec x y) as [H | H | H]; split; intros G;
    try reflexivity; try discriminate.
  - rewrite H. apply Qle_refl.
  - now apply Qlt_le_weak.
  - exfalso. exact (Qlt_irrefl _ (Qlt_le_trans _ _ _ H G)).
Qed.

Lemma float_gt_false_Fin (x y : Q) :
  float_gt (Fin x) (Fin y) = false <-> (x <= y)%Q.
Proof.
  rewrite <- not_true_iff_false, float_gt_Fin. split.
  - apply Qnot_lt_le.
  - intros H G. exact (Qlt_irrefl _ (Qlt_le_trans _ _ _ G H)).
Qed.

Lemma first_pass_finite (t : datetime) (dataList : list Value)
  (maps : dict lists * dict running) :
  first_pass t dataList = Ok maps ->
  Forall (fun el => is_finite (value el)) dataList.
Proof.
  unfold first_pass. generalize (@nil (Symbols * lists), @nil (Symbols * running)).
  induction dataList as [| el l IH]; intros m H; [constructor |].
  simpl in H. inv_bind H. constructor; [| eauto].
  destruct m as [tm rm]. rewrite Stats_step_eq in Ha. inv_bind Ha.
  exact (py_int_finite _ _ Ha0).
Qed.

(** The [max] after a run of finite readings: it bounds them and the [max]
    before, and it is either the one before, never exceeded, or the first of
    the readings that no other exceeds. *)
Lemma fold_observe_max (l : list Value) (r0 : running) (m0 : Q) :
  value (run_max r0) = Fin m0 ->
  Forall (fun el => is_finite (value el)) l ->
  exists m,
    value (run_max (fold_left observe l r0)) = Fin m /\ (m0 <= m)%Q /\
    Forall (fun el => float_le (value el) (Fin m) = true) l /\
    ((run_max (fold_left observe l r0) = run_max r0) \/
     (exists before after,
         l = before ++ run_max (fold_left observe l r0) :: after /\
         (m0 < m)%Q /\
         Forall (fun el => float_gt (Fin m) (value el) = true) before)).
Proof.
  intros Hm0. induction l as [| x l IH] using rev_ind; intros Hfin.
  - exists m0. cbn [fold_left]. split; [exact Hm0 |].
    split; [apply Qle_refl |]. split; [constructor | now left].
  - apply Forall_app in Hfin. destruct Hfin as [Hl Hx].
    inversion Hx as [| ? ? [q Hq] _]; subst.
    destruct (IH Hl) as [m [Hm [Hle [Hall Hcase]]]]. clear IH.
    rewrite fold_left_app. cbn [fold_left].
    set (r := fold_left observe l r0) in *.
    unfold observe. rewrite Hm, Hq.
    destruct (float_gt (Fin q) (Fin m)) eqn:Hgt.
    + apply float_gt_Fin in Hgt. cbn [run_max]. exists q.
      split; [exact Hq |]. split; [apply Qlt_le_weak; eapply Qle_lt_trans; eauto |].
      split.
      * apply Forall_app. split.
        -- eapply Forall_impl; [| exact Hall].
           intros el Hel. cbv beta in Hel.
           destruct (value el) as [v | [] |]; try discriminate; try reflexivity.
           apply float_le_Fin. apply float_le_Fin in Hel.
           apply Qlt_le_weak. eapply Qle_lt_trans; eauto.
        -- constructor; [| constructor]. rewrite Hq. apply float_le_refl.
      * right. exists l, []. split; [reflexivity |].
        split; [eapply Qle_lt_trans; eauto |].
        rewrite Forall_forall in Hall, Hl. apply Forall_forall.
        intros el Hin. destruct (Hl el Hin) as [v Hv]. rewrite Hv.
        apply float_gt_Fin. specialize (Hall el Hin). rewrite Hv in Hall.
        apply float_le_Fin in Hall. eapply Qle_lt_trans; eauto.
    + apply float_gt_false_Fin in Hgt. exists m.
      assert (Hsame : forall b : bool,
                 run_max (if b then mkRunning (run_max r) x (run_itemCount r + 1)
                          else mkRunning (run_max r) (run_min r)
                                 (run_itemCount r + 1)) = run_max r)
        by (intros []; reflexivity).
      rewrite Hsame. split; [exact Hm |]. split; [exact Hle |]. split.
      * apply Forall_app. split; [exact Hall |].
        constructor; [| constructor]. rewrite Hq. now apply float_le_Fin.
      * destruct Hcase as [Hcase | [before [after [Hsplit [Hlt Hb]]]]];
          [now left |].
        right. exists before, (after ++ [x]). split; [| auto].
        rewrite Hsplit at 1. now rewrite <- app_assoc.
Qed.

Lemma observe_min (r : running) (x : Value) (m n q : Q) :
  value (run_max r) = Fin m -> value (run_min r) = Fin n -> value x = Fin q ->
  exists n',
    value (run_min (observe r x)) = Fin n' /\ (n' <= n)%Q /\
    ((m < q)%Q \/ (n' <= q)%Q).
Proof.
  intros Hm Hn Hq. unfold observe. rewrite Hm, Hn, Hq.
  destruct (float_gt (Fin q) (Fin m)) eqn:Hgt.
  - apply float_gt_Fin in Hgt. exists n. cbn [run_min].
    split; [exact Hn |]. split; [apply Qle_refl | now left].
  - destruct (float_lt (Fin q) (Fin n)) eqn:Hlt; cbn [run_min].
    + apply float_lt_Fin in Hlt. exists q.
      split; [exact Hq |]. split; [now apply Qlt_le_weak |].
      right. apply Qle_refl.
    + exists n. split; [exact Hn |]. split; [apply Qle_refl |].
      right. now apply (float_gt_false_Fin n q).
Qed.

(** The [min] after a run of finite readings: it is at most the [min]
    before, and it bounds every reading of the run that did not exceed, when
    it was read, the [max] before the run and all the readings before it. *)
Lemma fold_observe_min (l : list Value) (r0 : running) (m0 n0 : Q) :
  value (run_max r0) = Fin m0 -> value (run_min r0) = Fin n0 ->
  Forall (fun el => is_finite (value el)) l ->
  exists n,
    value (run_min (fold_left observe l r0)) = Fin n /\ (n <= n0)%Q /\
    forall before el after,
      l = before ++ el :: after ->
      float_le (Fin n) (value el) = true \/
      (float_gt (value el) (Fin m0) = true /\
       Forall (fun p => float_gt (value el) (value p) = true) before).
Proof.
  intros Hm0 Hn0. induction l as [| x l IH] using rev_ind; intros Hfin.
  - exists n0. cbn [fold_left]. split; [exact Hn0 |].
    split; [apply Qle_refl |]. intros [| ? ?] el after E; discriminate.
  - apply Forall_app in Hfin. destruct Hfin as [Hl Hx].
    inversion Hx as [| ? ? [q Hq] _]; subst.
    destruct (IH Hl) as [n [Hn [Hle Hall]]]. clear IH.
    destruct (fold_observe_max l r0 m0 Hm0 Hl) as [m [Hm [Hm0m [Hbound _]]]].
    rewrite fold_left_app. cbn [fold_left].
    destruct (observe_min _ x m n q Hm Hn Hq) as [n' [Hn' [Hle' Hx']]].
    exists n'. split; [exact Hn' |].
    split; [eapply Qle_trans; eauto |].
    intros before el after E.
    destruct after as [| y after] using rev_ind.
    + apply app_inj_tail in E. destruct E as [-> ->]. rewrite Hq.
      destruct Hx' as [Hnew | Hold]; [right | left; now apply float_le_Fin].
      split; [apply float_gt_Fin; eapply Qle_lt_trans; eauto |].
      rewrite Forall_forall in Hbound, Hl. apply Forall_forall.
      intros p Hin. destruct (Hl p Hin) as [v Hv]. rewrite Hv.
      apply float_gt_Fin. specialize (Hbound p Hin). rewrite Hv in Hbound.
      apply float_le_Fin in Hbound. eapply Qle_lt_trans; eauto.
    + clear IHafter. rewrite app_comm_cons, app_assoc in E.
      apply app_inj_tail in E. destruct E as [-> ->].
      destruct (Hall before el after eq_refl) as [Hb | Hnew]; [left | now right].
      assert (Hel : is_finite (value el)).
      { rewrite Forall_forall in Hl. apply Hl. apply in_elt. }
      destruct Hel as [v Hv]. rewrite Hv in *.
      apply float_le_Fin. apply float_le_Fin in Hb. eapply Qle_trans; eauto.
Qed.

(** X14.  Whenever [Stats] returns, the [max] of a symbol bounds its
    readings; it is the first of the readings that none exceeds, and each
    reading before it is strictly below it, unless no reading is above the
    seed -10E6, in which case the seed stays. *)
Theorem Stats_max_exactly (t : datetime) (dataList : list Value)
  (results : dict aggregate) (s : Symbols) (a : aggregate) :
  Stats t dataList = Ok results -> get results s = Some a ->
  exists m,
    value (agg_max a) = Fin m /\
    Forall (fun el => float_le (value el) (Fin m) = true) (readings s dataList) /\
    ((agg_max a = mkValue (Fin (-10000000)) temperature t) \/
     (exists before after,
         readings s dataList = before ++ agg_max a :: after /\
         (-10000000 < m)%Q /\
         Forall (fun el => float_gt (Fin m) (value el) = true) before)).
Proof.
  intros H Hget. destruct (Stats_running _ _ _ _ _ H Hget) as [Hmax _].
  destruct (Stats_Ok _ _ _ H) as [tm [rm [Hfirst _]]].
  apply first_pass_finite in Hfirst.
  assert (Hfin : Forall (fun el => is_finite (value el)) (readings s dataList)).
  { apply Forall_forall. intros el Hin. apply filter_In in Hin.
    rewrite Forall_forall in Hfirst. now apply Hfirst. }
  destruct (fold_observe_max _ (seeded t) (-10000000) eq_refl Hfin)
    as [m [Hm [_ [Hbound Hcase]]]].
  exists m. rewrite Hmax. split; [exact Hm |]. split; [exact Hbound |].
  destruct Hcase as [-> | Hcase]; [now left | now right].
Qed.

Lemma Stats_max_exactly_witness :
  exists m,
    value (agg_max (aggregate_of (results_of (at_hour 0) skewed) temperature))
    = Fin m /\
    Forall (fun el => float_le (value el) (Fin m) = true)
      (readings temperature skewed) /\
    ((agg_max (aggregate_of (results_of (at_hour 0) skewed) temperature)
      = mkValue (Fin (-10000000)) temperature (at_hour 0)) \/
     (exists before after,
         readings temperature skewed
         = before
           ++ agg_max (aggregate_of (results_of (at_hour 0) skewed) temperature)
           :: after /\
         (-10000000 < m)%Q /\
         Forall (fun el => float_gt (Fin m) (value el) = true) before)).
Proof.
  apply (Stats_max_exactly (at_hour 0) skewed (results_of (at_hour 0) skewed));
    vm_compute; reflexivity.
Defined.

(** X15.  Whenever [Stats] returns, the [min] of a symbol is at most the seed
    10E6 and bounds every reading of the symbol except those that, when read,
    were above the seed -10E6 and above all the readings before them: these
    set [max] and are not compared with [min]. *)
Theorem Stats_min_bound (t : datetime) (dataList : list Value)
  (results : dict aggregate) (s : Symbols) (a : aggregate) :
  Stats t dataList = Ok results -> get results s = Some a ->
  exists n,
    value (agg_min a) = Fin n /\ (n <= 10000000)%Q /\
    forall before el after,
      readings s dataList = before ++ el :: after ->
      float_le (Fin n) (value el) = true \/
      (float_gt (value el) (Fin (-10000000)) = true /\
       Forall (fun p => float_gt (value el) (value p) = true) before).
Proof.
  intros H Hget. destruct (Stats_running _ _ _ _ _ H Hget) as [_ [Hmin _]].
  destruct (Stats_Ok _ _ _ H) as [tm [rm [Hfirst _]]].
  apply first_pass_finite in Hfirst.
  assert (Hfin : Forall (fun el => is_finite (value el)) (readings s dataList)).
  { apply Forall_forall. intros el Hin. apply filter_In in Hin.
    rewrite Forall_forall in Hfirst. now apply Hfirst. }
  destruct (fold_observe_min _ (seeded t) (-10000000) 10000000
              eq_refl eq_refl Hfin) as [n [Hn [Hle Hall]]].
  exists n. rewrite Hmin. auto.
Qed.

Lemma Stats_min_bound_witness :
  exists n,
    value (agg_min (aggregate_of (results_of (at_hour 0) rising) temperature))
    = Fin n /\ (n <= 10000000)%Q /\
    forall before el after,
      readings temperature rising = before ++ el :: after ->
      float_le (Fin n) (value el) = true \/
      (float_gt (value el) (Fin (-10000000)) = true /\
       Forall (fun p => float_gt (value el) (value p) = true) before).
Proof.
  apply (Stats_min_bound (at_hour 0) rising (results_of (at_hour 0) rising));
    vm_compute; reflexivity.
Defined.

(** ** The exceptions of Stats *)

Lemma for_each_Raise {A S : Type} (body : S -> A -> result S) (l : list A)
  (s : S) (e : exn) :
  for_each l body s = Raise e -> exists s' x, In x l /\ body s' x = Raise e.
Proof.
  revert s. induction l as [| x l IH]; intros s H; simpl in H; [discriminate |].
  destruct (body s x) as [s' |] eqn:Hx; simpl in H.
  - destruct (IH _ H) as [s'' [y [Hin Hy]]]. exists s'', y. split; [now right | auto].
  - inversion H; subst. exists s, x. split; [now left | auto].
Qed.

Lemma mapM_Raise {A B : Type} (f : A -> result B) (l : list A) (e : exn) :
  mapM f l = Raise e -> exists x, In x l /\ f x = Raise e.
Proof.
  induction l as [| x l IH]; intros H; simpl in H; [discriminate |].
  destruct (f x) as [y |] eqn:Hx; simpl in H.
  - destruct (mapM f l) as [ys |]; simpl in H; [discriminate |].
    destruct (IH H) as [z [Hin Hz]]. exists z. split; [now right | auto].
  - inversion H; subst. exists x. split; [now left | auto].
Qed.

Lemma In_get {V : Type} (m : dict V) (k : Symbols) (v : V) :
  In (k, v) m -> get m k <> None.
Proof.
  intros H. apply get_Some_keys. apply (in_map fst) in H. exact H.
Qed.

Lemma true_division_Raise (x : Q) (e : exn) :
  true_division x = Raise e -> e = OverflowError.
Proof.
  unfold true_division. destruct (float_of_Q x); intros H; congruence.
Qed.

Lemma float_sqrt_of_frac_Raise (n m : Z) (e : exn) :
  float_sqrt_of_frac n m = Raise e -> e = OverflowError.
Proof.
  unfold float_sqrt_of_frac.
  destruct (0 <=? _); apply true_division_Raise.
Qed.

Lemma mapM_py_int_exact (vals : list pyfloat) (ints : list Z) :
  mapM py_int vals = Ok ints -> exists qs, exact_ratios vals = Some qs.
Proof.
  revert ints. induction vals as [| x l IH]; intros ints H; [simpl; eauto |].
  simpl in H. inv_bind H. inv_bind H.
  destruct x as [q | |]; try discriminate.
  destruct (IH _ Ha0) as [qs Hqs]. exists (q :: qs). cbn. now rewrite Hqs.
Qed.

Lemma first_pass_Raise (t : datetime) (dataList : list Value) (e : exn) :
  first_pass t dataList = Raise e ->
  exists el, In el dataList /\ py_int (value el) = Raise e.
Proof.
  unfold first_pass. intros H.
  destruct (for_each_Raise _ _ _ _ H) as [[tm rm] [el [Hin Hel]]].
  exists el. split; [exact Hin |].
  rewrite Stats_step_eq in Hel.
  destruct (py_int (value el)); simpl in Hel; [discriminate | congruence].
Qed.

(** X16.  [Stats] raises one of three exceptions, and nothing else: the
    [ValueError] of [int] for a reading that is NaN, the [OverflowError] of
    [int] for an infinite one or of a result too large for a float, and the
    [StatisticsError] of [stdev] for a symbol with a single reading.  No key
    is ever missing from its dictionaries. *)
Theorem Stats_exceptions (t : datetime) (dataList : list Value) (e : exn) :
  Stats t dataList = Raise e ->
  (e = ValueError /\ exists el, In el dataList /\ value el = NaN) \/
  e = OverflowError \/
  (e = StatisticsError /\ exists s, length (readings s dataList) = 1%nat).
Proof.
  unfold Stats. intros H.
  destruct (first_pass t dataList) as [[tm rm] | e'] eqn:Hfirst; simpl in H.
  - (* the second loop *)
    destruct (mapM_Raise _ _ _ H) as [[k r] [Hin Hfin]].
    destruct (first_pass_tracked _ _ _ Hfirst k) as [Hnone Hsome].
    cbn [fst snd] in Hnone, Hsome.
    destruct (readings k dataList) as [| v rs] eqn:Hrs.
    { destruct Hnone as [_ Hrm]; [reflexivity |].
      exfalso. exact (In_get _ _ _ Hin Hrm). }
    destruct Hsome as [ints [r' [Hints [Htm _]]]]; [discriminate |].
    destruct (mapM_py_int_exact _ _ Hints) as [qs Hqs].
    pose proof (mapM_length _ _ _ Hints) as Hlen.
    unfold finish, getitem in Hfin. rewrite Htm in Hfin.
    cbn [bind values iList] in Hfin.
    unfold stdev in Hfin at 1.
    destruct (length (map value (v :: rs)) <? 2)%nat eqn:Hshort.
    + right. right. cbn [bind] in Hfin. inversion Hfin; subst e.
      split; [reflexivity |]. exists k. rewrite Hrs.
      apply Nat.ltb_lt in Hshort. rewrite length_map in Hshort.
      cbn [length] in *. lia.
    + right. left. rewrite Hqs in Hfin.
      destruct (float_sqrt_of_frac _ _) as [sd |] eqn:Hsd; cbn [bind] in Hfin;
        [| inversion Hfin; subst; now apply float_sqrt_of_frac_Raise in Hsd].
      unfold mean in Hfin at 1. rewrite Hqs in Hfin. cbn [map length] in Hfin.
      cbn [Nat.ltb Nat.leb] in Hfin.
      destruct (true_division _) as [mn |] eqn:Hmn in Hfin; cbn [bind] in Hfin;
        [| inversion Hfin; subst; now apply true_division_Raise in Hmn].
      unfold float_mean_int in Hfin.
      destruct ints as [| i ints]; [discriminate |].
      cbn [length Nat.ltb Nat.leb] in Hfin.
      destruct (true_division _) as [md |] eqn:Hmd in Hfin; cbn [bind] in Hfin;
        [discriminate |].
      inversion Hfin; subst. now apply true_division_Raise in Hmd.
  - (* the first loop *)
    inversion H; subst e'. destruct (first_pass_Raise _ _ _ Hfirst) as [el [Hin Hel]].
    destruct (value el) as [q | neg |] eqn:Hv; simpl in Hel; try discriminate;
      inversion Hel; subst e; [now (right; left) |].
    left. split; [reflexivity |]. exists el. auto.
Qed.

Lemma Stats_exceptions_witness :
  (StatisticsError = ValueError /\ exists el, In el lone /\ value el = NaN) \/
  StatisticsError = OverflowError \/
  (StatisticsError = StatisticsError /\
   exists s, length (readings s lone) = 1%nat).
Proof. apply (Stats_exceptions (at_hour 0) lone). reflexivity. Defined.

Lemma first_pass_total_on_finite (t : datetime) (dataList : list Value) :
  Forall (fun el => is_finite (value el)) dataList ->
  exists maps, first_pass t dataList = Ok maps.
Proof.
  intros Hfin. destruct (first_pass t dataList) as [maps | e] eqn:H; [eauto |].
  destruct (first_pass_Raise _ _ _ H) as [el [Hin Hel]].
  rewrite Forall_forall in Hfin. destruct (Hfin el Hin) as [q Hq].
  rewrite Hq in Hel. discriminate.
Qed.

(** X17.  The first loop runs to its end exactly when every reading is
    finite; a single NaN or infinite reading, of any symbol and anywhere in
    the input, makes [Stats] raise and leaves no result for the others. *)
Theorem Stats_needs_finite (t : datetime) (dataList : list Value) :
  ((exists maps, first_pass t dataList = Ok maps) <->
   Forall (fun el => is_finite (value el)) dataList) /\
  (forall el, In el dataList -> ~ is_finite (value el) ->
              exists e, Stats t dataList = Raise e).
Proof.
  split.
  - split; [intros [maps H]; now apply (first_pass_finite t _ maps) |
            apply first_pass_total_on_finite].
  - intros el Hin Hnot. unfold Stats.
    destruct (first_pass t dataList) as [maps | e] eqn:H; [| simpl; eauto].
    apply first_pass_finite in H. rewrite Forall_forall in H.
    elim Hnot. now apply H.
Qed.

Lemma Stats_needs_finite_witness :
  exists e, Stats (at_hour 0) with_nan = Raise e.
Proof.
  apply (proj2 (Stats_needs_finite (at_hour 0) with_nan)
           (mkValue NaN temperature (at_hour 9))).
  - right. now left.
  - intros [q Hq]. discriminate.
Defined.

(** ** Today and this month *)

Lemma pivot_of_midnight (y m d : Z) (pivot : datetime) :
  pivot_of y m d = Ok pivot -> is_midnight pivot.
Proof.
  unfold pivot_of, strptime_date. intros H. inv_bind H.
  destruct a as [| y' [| m' [| d' [| ? ?]]]]; try discriminate.
  unfold datetime_new in H.
  destruct (_ && _); [| discriminate].
  inversion H; subst. repeat split.
Qed.

Ltac lex_cases :=
  unfold in_range, dt_le, dt_compare, fields;
  cbn [lex_compare year month day hour minute second microsecond];
  repeat match goal with
         | |- context [Z.compare ?a ?b] =>
             destruct (Z.compare_spec a b); cbn [andb]
         end.

Lemma day_range (now1 now2 pivot : datetime) :
  year now1 = year now2 -> month now1 = month now2 -> day now1 = day now2 ->
  time_of_day_ok now2 -> is_midnight pivot ->
  (in_range (midnight now1) now2 pivot = true <-> pivot = midnight now1).
Proof.
  intros Hy Hm Hd [Hh [Hmi [Hs Hus]]] [Ph [Pmi [Ps Pus]]].
  destruct pivot as [yp mp dp hp mip sp usp]. cbn in Ph, Pmi, Ps, Pus. subst.
  unfold midnight. cbn [year month day hour minute second microsecond].
  split.
  - intros H. f_equal; revert H; lex_cases; intros; try discriminate; lia.
  - intros H. inversion H; subst.
    lex_cases; try reflexivity; lia.
Qed.

Lemma month_range (now1 now2 pivot : datetime) :
  year now1 = year now2 -> month now1 = month now2 ->
  time_of_day_ok now2 -> is_midnight pivot ->
  (in_range (first_of_month now1) now2 pivot = true <->
   year pivot = year now2 /\ month pivot = month now2 /\
   1 <= day pivot <= day now2).
Proof.
  intros Hy Hm [Hh [Hmi [Hs Hus]]] [Ph [Pmi [Ps Pus]]].
  destruct pivot as [yp mp dp hp mip sp usp]. cbn in Ph, Pmi, Ps, Pus. subst.
  unfold first_of_month. cbn [year month day hour minute second microsecond].
  split.
  - intros H. revert H; lex_cases; intros; try discriminate; lia.
  - intros [-> [-> Hday]]. rewrite Hy, Hm.
    lex_cases; try reflexivity; lia.
Qed.

Lemma opened_on_midnight (dati : node) (pivot : datetime) (fPath : string)
  (fNode : node) :
  opened_on dati pivot fPath fNode -> is_midnight pivot.
Proof.
  intros [yPath [yNode [mPath [mNode [dPath [dNode [year [month [day
            [_ [_ [_ [_ [_ [_ [Hpivot _]]]]]]]]]]]]]]]].
  exact (pivot_of_midnight _ _ _ _ Hpivot).
Qed.

(** X18.  On an archive of ASCII text [day()], when the clock does not pass
    midnight between its two readings, returns exactly the readings of the
    rows, timed from today's midnight to now, of the CSV files in the day
    directories whose composed date is today: the day of the start is never
    dropped here, since the start is its midnight. *)
Theorem DataArchive_day_exactly (now1 now2 : datetime) (dati : node)
  (found : list Value) (v : Value) :
  ascii_archive dati = true ->
  year now1 = year now2 -> month now1 = month now2 -> day now1 = day now2 ->
  time_of_day_ok now2 ->
  DataArchive_day now1 now2 dati = Ok found ->
  (In v found <->
   exists fPath fNode,
     opened_on dati (midnight now1) fPath fNode /\
     read_from (midnight now1) now2 fPath fNode v).
Proof.
  intros _ Hy Hm Hd Htime H. unfold DataArchive_day in H. cbv zeta in H.
  rewrite (betweenDatetimes_reads _ _ _ _ v H).
  split; intros [fPath [fNode [Hopen Hread]]]; exists fPath, fNode;
    (split; [| exact Hread]).
  - destruct Hopen as [pivot [Hon Hrange]].
    apply (day_range now1 now2 pivot Hy Hm Hd Htime) in Hrange;
      [now subst | exact (opened_on_midnight _ _ _ _ Hon)].
  - exists (midnight now1). split; [exact Hopen |].
    apply (day_range now1 now2 _ Hy Hm Hd Htime); [| reflexivity].
    repeat split.
Qed.

Lemma DataArchive_day_exactly_witness :
  In (mkValue (Fin 20) temperature (at_hour 12))
     [mkValue (Fin 20) temperature (at_hour 12)] <->
  exists fPath fNode,
    opened_on one_day_archive (midnight noon_now) fPath fNode /\
    read_from (midnight noon_now) evening_now fPath fNode
      (mkValue (Fin 20) temperature (at_hour 12)).
Proof.
  apply (DataArchive_day_exactly noon_now evening_now one_day_archive);
    try reflexivity.
  repeat split; cbn; lia.
Defined.

(** X19.  On an archive of ASCII text [month()], when the clock stays in one
    month between its two readings, returns exactly the readings of the
    rows, timed from the first of the month at midnight to now, of the CSV
    files in the day directories whose composed date is in this month and
    not after today. *)
Theorem DataArchive_month_exactly (now1 now2 : datetime) (dati : node)
  (found : list Value) (v : Value) :
  ascii_archive dati = true ->
  year now1 = year now2 -> month now1 = month now2 ->
  time_of_day_ok now2 ->
  DataArchive_month now1 now2 dati = Ok found ->
  (In v found <->
   exists pivot fPath fNode,
     opened_on dati pivot fPath fNode /\
     year pivot = year now2 /\ month pivot = month now2 /\
     1 <= day pivot <= day now2 /\
     read_from (first_of_month now1) now2 fPath fNode v).
Proof.
  intros _ Hy Hm Htime H. unfold DataArchive_month in H. cbv zeta in H.
  rewrite (betweenDatetimes_reads _ _ _ _ v H). split.
  - intros [fPath [fNode [[pivot [Hon Hrange]] Hread]]].
    exists pivot, fPath, fNode. split; [exact Hon |].
    apply (month_range now1 now2 pivot Hy Hm Htime) in Hrange;
      [tauto | exact (opened_on_midnight _ _ _ _ Hon)].
  - intros [pivot [fPath [fNode [Hon [Hpy [Hpm [Hpd Hread]]]]]]].
    exists fPath, fNode. split; [| exact Hread].
    exists pivot. split; [exact Hon |].
    apply (month_range now1 now2 pivot Hy Hm Htime);
      [exact (opened_on_midnight _ _ _ _ Hon) | auto].
Qed.

Lemma DataArchive_month_exactly_witness :
  In (mkValue (Fin 20) temperature (at_hour 12))
     [mkValue (Fin 20) temperature (at_hour 12)] <->
  exists pivot fPath fNode,
    opened_on one_day_archive pivot fPath fNode /\
    year pivot = year evening_now /\ month pivot = month evening_now /\
    1 <= day pivot <= day evening_now /\
    read_from (first_of_month noon_now) evening_now fPath fNode
      (mkValue (Fin 20) temperature (at_hour 12)).
Proof.
  apply (DataArchive_month_exactly noon_now evening_now one_day_archive);
    try reflexivity.
  repeat split; cbn; lia.
Defined.

(** ** The calendar *)

Ltac tables :=
  repeat match goal with
         | |- context [item ?l ?i] =>
             let v := eval vm_compute in (item l i) in change (item l i) with v
         | H : context [item ?l ?i] |- _ =>
             let v := eval vm_compute in (item l i) in
             change (item l i) with v in H
         end.

Ltac closed_tests :=
  repeat match goal with
         | |- context [if ?b then _ else _] =>
             let v := eval vm_compute in b in
             first [constr_eq v true | constr_eq v false];
             progress change b with v; cbv iota
         | H : context [if ?b then _ else _] |- _ =>
             let v := eval vm_compute in b in
             first [constr_eq v true | constr_eq v false];
             progress change b with v in H; cbv iota in H
         end.

Ltac tests :=
  repeat match goal with
         | |- context [?a >? ?b] => rewrite (Z.gtb_ltb a b)
         | |- context [?a <? ?b] => destruct (Z.ltb_spec a b)
         | |- context [?a =? ?b] => destruct (Z.eqb_spec a b)
         end.

Ltac months m H :=
  let E := fresh "E" in
  assert (E : m = 1 \/ m = 2 \/ m = 3 \/ m = 4 \/ m = 5 \/ m = 6 \/ m = 7
              \/ m = 8 \/ m = 9 \/ m = 10 \/ m = 11 \/ m = 12) by H;
  repeat (destruct E as [E | E]; [rewrite E in *; clear E |]);
  try (rewrite E in *; clear E).

Lemma days_before_year_closed (a b c e : Z) :
  0 <= b <= 3 -> 0 <= c <= 24 -> 0 <= e <= 3 ->
  days_before_year (400 * a + 100 * b + 4 * c + e + 1)
  = 146097 * a + 36524 * b + 1461 * c + 365 * e.
Proof.
  intros Hb Hc He. unfold days_before_year. cbv zeta.
  replace (400 * a + 100 * b + 4 * c + e + 1 - 1)
    with (400 * a + 100 * b + 4 * c + e) by lia.
  Z.div_mod_to_equations. lia.
Qed.

Lemma is_leap_closed (a b c e : Z) :
  0 <= b <= 3 -> 0 <= c <= 24 -> 0 <= e <= 3 ->
  is_leap (400 * a + 100 * b + 4 * c + e + 1)
  = (e =? 3) && (negb (c =? 24) || (b =? 3)).
Proof.
  intros Hb Hc He. unfold is_leap.
  Z.div_mod_to_equations.
  repeat match goal with
         | |- context [?a =? ?b] => destruct (Z.eqb_spec a b)
         end; cbn [andb orb negb]; try reflexivity; lia.
Qed.

Lemma year_part (n0 : Z) : 0 <= n0 < MAXORDINAL ->
  let n400 := n0 / 146097 in let r1 := n0 mod 146097 in
  let n100 := r1 / 36524 in let r2 := r1 mod 36524 in
  let n4 := r2 / 1461 in let r3 := r2 mod 1461 in
  let n1 := r3 / 365 in let r4 := r3 mod 365 in
  let year := n400 * 400 + 1 + n100 * 100 + n4 * 4 + n1 in
  (n1 = 4 \/ n100 = 4 ->
   1 <= year - 1 <= 9999 /\
   days_before_year (year - 1) + 366 = n0 + 1 /\
   is_leap (year - 1) = true) /\
  (n1 <> 4 -> n100 <> 4 ->
   1 <= year <= 9999 /\
   days_before_year year + r4 = n0 /\
   is_leap year = (n1 =? 3) && (negb (n4 =? 24) || (n100 =? 3)) /\
   0 <= r4 < 365 + (if is_leap year then 1 else 0)).
Proof.
  intros H. cbv zeta. unfold MAXORDINAL in H.
  pose proof (Z.div_mod n0 146097 ltac:(lia)) as D1.
  pose proof (Z.mod_pos_bound n0 146097 ltac:(lia)) as B1.
  set (n400 := n0 / 146097) in *. set (r1 := n0 mod 146097) in *.
  pose proof (Z.div_mod r1 36524 ltac:(lia)) as D2.
  pose proof (Z.mod_pos_bound r1 36524 ltac:(lia)) as B2.
  set (n100 := r1 / 36524) in *. set (r2 := r1 mod 36524) in *.
  pose proof (Z.div_mod r2 1461 ltac:(lia)) as D3.
  pose proof (Z.mod_pos_bound r2 1461 ltac:(lia)) as B3.
  set (n4 := r2 / 1461) in *. set (r3 := r2 mod 1461) in *.
  pose proof (Z.div_mod r3 365 ltac:(lia)) as D4.
  pose proof (Z.mod_pos_bound r3 365 ltac:(lia)) as B4.
  set (n1 := r3 / 365) in *. set (r4 := r3 mod 365) in *.
  clearbody n400 r1 n100 r2 n4 r3 n1 r4.
  split.
  - intros [E | E].
    + replace (n400 * 400 + 1 + n100 * 100 + n4 * 4 + n1 - 1)
        with (400 * n400 + 100 * n100 + 4 * n4 + 3 + 1) by lia.
      rewrite days_before_year_closed, is_leap_closed by lia.
      destruct (Z.eqb_spec n4 24), (Z.eqb_spec n100 3);
        cbn [andb orb negb]; repeat split; lia.
    + replace (n400 * 400 + 1 + n100 * 100 + n4 * 4 + n1 - 1)
        with (400 * n400 + 100 * 3 + 4 * 24 + 3 + 1) by lia.
      rewrite days_before_year_closed, is_leap_closed by lia.
      repeat split; lia.
  - intros E1 E2.
    replace (n400 * 400 + 1 + n100 * 100 + n4 * 4 + n1)
      with (400 * n400 + 100 * n100 + 4 * n4 + n1 + 1) by lia.
    rewrite days_before_year_closed, is_leap_closed by lia.
    destruct (Z.eqb_spec n1 3), (Z.eqb_spec n4 24), (Z.eqb_spec n100 3);
      cbn [andb orb negb]; repeat split; lia.
Qed.

Lemma month_part (leapyear : bool) (n : Z) :
  0 <= n < 365 + (if leapyear then 1 else 0) ->
  let month := Z.shiftr (n + 50) 5 in
  let preceding :=
    item DAYS_BEFORE_MONTH month
    + (if (month >? 2) && leapyear then 1 else 0) in
  let '(m, preceding) :=
    if preceding >? n
    then (month - 1,
          preceding - (item DAYS_IN_MONTH (month - 1)
                       + (if (month - 1 =? 2) && leapyear then 1 else 0)))
    else (month, preceding) in
  1 <= m <= 12 /\
  preceding
  = item DAYS_BEFORE_MONTH m + (if (m >? 2) && leapyear then 1 else 0) /\
  1 <= n - preceding + 1
  <= item DAYS_IN_MONTH m + (if (m =? 2) && leapyear then 1 else 0).
Proof.
  intros H. cbv zeta. rewrite Z.shiftr_div_pow2 by lia.
  change (2 ^ 5) with 32.
  pose proof (Z.div_mod (n + 50) 32 ltac:(lia)) as Hdiv.
  pose proof (Z.mod_pos_bound (n + 50) 32 ltac:(lia)) as Hmod.
  set (k := (n + 50) / 32) in *.
  destruct leapyear; months k lia; tests; tables; cbn [andb] in *; lia.
Qed.

Lemma days_in_month_item (y m : Z) :
  1 <= m <= 12 ->
  item DAYS_IN_MONTH m + (if (m =? 2) && is_leap y then 1 else 0)
  = days_in_month y m.
Proof.
  intros H. unfold days_in_month.
  destruct (is_leap y); months m lia; reflexivity.
Qed.

Lemma ord2ymd_spec (n : Z) :
  1 <= n <= MAXORDINAL ->
  let '(y, m, d) := ord2ymd n in
  1 <= y <= 9999 /\ 1 <= m <= 12 /\ 1 <= d <= days_in_month y m /\
  ymd2ord y m d = n.
Proof.
  intros H. unfold ord2ymd. cbv zeta.
  destruct (year_part (n - 1) ltac:(lia)) as [Hlast Hother]. cbv zeta in *.
  set (n400 := (n - 1) / 146097) in *.
  set (r1 := (n - 1) mod 146097) in *.
  set (n100 := r1 / 36524) in *. set (r2 := r1 mod 36524) in *.
  set (n4 := r2 / 1461) in *. set (r3 := r2 mod 1461) in *.
  set (n1 := r3 / 365) in *. set (r4 := r3 mod 365) in *.
  set (y := n400 * 400 + 1 + n100 * 100 + n4 * 4 + n1) in *.
  destruct (Z.eqb_spec n1 4) as [E1 | E1]; cbn [orb].
  - destruct (Hlast (or_introl E1)) as [Hy [Hord Hleap]].
    unfold ymd2ord, days_before_month. rewrite Hleap.
    change (days_in_month (y - 1) 12) with 31.
    change (item DAYS_BEFORE_MONTH 12) with 334.
    change (12 >? 2) with true. cbn [andb].
    repeat split; lia.
  - destruct (Z.eqb_spec n100 4) as [E2 | E2].
    + destruct (Hlast (or_intror E2)) as [Hy [Hord Hleap]].
      unfold ymd2ord, days_before_month. rewrite Hleap.
      change (days_in_month (y - 1) 12) with 31.
      change (item DAYS_BEFORE_MONTH 12) with 334.
      change (12 >? 2) with true. cbn [andb].
      repeat split; lia.
    + destruct (Hother E1 E2) as [Hy [Hord [Hleap Hr]]].
      rewrite <- Hleap.
      pose proof (month_part (is_leap y) r4 Hr) as Hm. cbv zeta in Hm.
      destruct (if _ >? r4 then _ else _) as [m preceding].
      destruct Hm as [Hm [Hp Hd]].
      rewrite days_in_month_item in Hd by exact Hm.
      repeat split; try lia.
      unfold ymd2ord, days_before_month. lia.
Qed.

Lemma days_before_year_step (y : Z) :
  days_before_year (y + 1)
  = days_before_year y + 365 + (if is_leap y then 1 else 0).
Proof.
  unfold days_before_year, is_leap. cbv zeta.
  Z.div_mod_to_equations.
  repeat match goal with
         | |- context [?a =? ?b] => destruct (Z.eqb_spec a b)
         end; cbn [andb orb negb]; lia.
Qed.

Lemma days_before_year_mono (a b : Z) :
  a <= b -> days_before_year a <= days_before_year b.
Proof.
  intros H. unfold days_before_year. cbv zeta.
  Z.div_mod_to_equations. lia.
Qed.

Lemma day_of_year_bound (y m d : Z) :
  1 <= m <= 12 -> 1 <= d <= days_in_month y m ->
  1 <= days_before_month y m + d <= 365 + (if is_leap y then 1 else 0).
Proof.
  intros Hm Hd. unfold days_before_month, days_in_month in *.
  destruct (is_leap y); months m lia; tables; closed_tests; lia.
Qed.

Lemma month_before (y m d m' : Z) :
  1 <= m -> m < m' -> m' <= 12 -> d <= days_in_month y m ->
  days_before_month y m + d <= days_before_month y m'.
Proof.
  intros H1 H2 H3 Hd. unfold days_before_month, days_in_month in *.
  destruct (is_leap y); months m lia; months m' lia; try lia;
    tables; closed_tests; lia.
Qed.

Lemma toordinal_lt (a b : datetime) :
  valid_date a -> valid_date b ->
  year a < year b
  \/ (year a = year b /\ month a < month b)
  \/ (year a = year b /\ month a = month b /\ day a < day b) ->
  toordinal a < toordinal b.
Proof.
  intros [Hya [Hma Hda]] [Hyb [Hmb Hdb]] H. unfold toordinal, ymd2ord.
  pose proof (day_of_year_bound _ _ _ Hma Hda) as Ba.
  pose proof (day_of_year_bound _ _ _ Hmb Hdb) as Bb.
  destruct H as [H | [[Hy H] | [Hy [Hm H]]]].
  - pose proof (days_before_year_step (year a)) as Hs.
    pose proof (days_before_year_mono (year a + 1) (year b) ltac:(lia)). lia.
  - rewrite Hy in *.
    pose proof (month_before (year b) (month a) (day a) (month b)
                  ltac:(lia) H ltac:(lia) ltac:(lia)). lia.
  - rewrite Hy, Hm. lia.
Qed.

Lemma dt_le_toordinal (a b : datetime) :
  valid_date a -> valid_date b -> is_midnight a -> time_of_day_ok b ->
  (dt_le a b = true <-> toordinal a <= toordinal b).
Proof.
  intros Va Vb [Ha [Hmi [Hs Hus]]] [Hb [Hbmi [Hbs Hbus]]].
  pose proof (toordinal_lt a b Va Vb) as Hab.
  pose proof (toordinal_lt b a Vb Va) as Hba.
  assert (Heq : year a = year b -> month a = month b -> day a = day b ->
                toordinal a = toordinal b)
    by (unfold toordinal; intros -> -> ->; reflexivity).
  destruct a as [ya ma da ha mia sa usa], b as [yb mb db hb mib sb usb].
  cbn [year month day hour minute second microsecond] in *. subst.
  lex_cases; split; intros; try reflexivity; try discriminate; try lia.
Qed.

Lemma weekday_range (t : datetime) : 0 <= weekday t <= 6.
Proof.
  unfold weekday. pose proof (Z.mod_pos_bound (toordinal t + 6) 7). lia.
Qed.

(** ** This week *)

Lemma pivot_of_valid (y m d : Z) (pivot : datetime) :
  pivot_of y m d = Ok pivot -> valid_date pivot.
Proof.
  unfold pivot_of, strptime_date. intros H. inv_bind H.
  destruct a as [| y' [| m' [| d' [| ? ?]]]]; try discriminate.
  unfold datetime_new in H.
  destruct (_ && _) eqn:E; [| discriminate].
  inversion H; subst. unfold valid_date. cbn [year month day].
  repeat (apply andb_true_iff in E; destruct E as [E ?]).
  repeat match goal with
         | H : (_ <=? _) = true |- _ => apply Z.leb_le in H
         end.
  lia.
Qed.

Lemma toordinal_range (t : datetime) :
  valid_date t -> 1 <= toordinal t <= MAXORDINAL.
Proof.
  intros [Hy [Hm Hd]]. unfold toordinal, ymd2ord.
  pose proof (day_of_year_bound _ _ _ Hm Hd) as B.
  pose proof (days_before_year_step (year t)) as Hs.
  pose proof (days_before_year_mono 1 (year t) ltac:(lia)) as Hlow.
  pose proof (days_before_year_mono (year t + 1) 10000 ltac:(lia)) as Hhigh.
  change (days_before_year 1) with 0 in Hlow.
  change (days_before_year 10000) with 3652059 in Hhigh.
  unfold MAXORDINAL. lia.
Qed.

(** The Monday of the week of [now] is a date that [datetime] can hold. *)
Lemma minus_weekday (now : datetime) :
  valid_date now ->
  exists shifted,
    minus_days now (weekday now) = Ok shifted /\
    valid_date shifted /\
    toordinal shifted = toordinal now - weekday now /\
    weekday shifted = 0.
Proof.
  intros V. pose proof (toordinal_range now V) as R.
  pose proof (weekday_range now) as W.
  assert (Hmon : 1 <= toordinal now - weekday now
                 /\ (toordinal now - weekday now + 6) mod 7 = 0).
  { unfold weekday in *. Z.div_mod_to_equations. lia. }
  unfold minus_days. cbv zeta.
  replace ((0 <? toordinal now - weekday now)
           && (toordinal now - weekday now <=? MAXORDINAL)) with true
    by (symmetry; apply andb_true_iff; split;
        [apply Z.ltb_lt | apply Z.leb_le]; lia).
  pose proof (ord2ymd_spec (toordinal now - weekday now) ltac:(lia)) as S.
  destruct (ord2ymd _) as [[y m] d]. destruct S as [Sy [Sm [Sd So]]].
  eexists. split; [reflexivity |].
  unfold valid_date, weekday, toordinal.
  cbn [year month day]. rewrite So. repeat split; lia.
Qed.

(** X20.  [week()] never fails on its date arithmetic: whatever the day, it
    is the scan from the midnight of a Monday, today or one of the six days
    before, to now. *)
Theorem DataArchive_week_start (now : datetime) (dati : node) :
  valid_date now ->
  exists monday,
    DataArchive_week now dati = betweenDatetimes monday now dati /\
    is_midnight monday /\ valid_date monday /\ weekday monday = 0 /\
    toordinal now - 6 <= toordinal monday <= toordinal now.
Proof.
  intros V. destruct (minus_weekday now V) as [shifted [Hs [Vs [Ho Hw]]]].
  pose proof (weekday_range now) as W.
  exists (midnight shifted). unfold DataArchive_week. rewrite Hs.
  split; [reflexivity |]. split; [repeat split |].
  split; [exact Vs |]. split; [exact Hw |].
  change (toordinal (midnight shifted)) with (toordinal shifted). lia.
Qed.

Lemma DataArchive_week_start_witness :
  valid_date noon_now /\
  exists monday,
    DataArchive_week noon_now one_day_archive
    = betweenDatetimes monday noon_now one_day_archive /\
    is_midnight monday /\ valid_date monday /\ weekday monday = 0 /\
    toordinal noon_now - 6 <= toordinal monday <= toordinal noon_now.
Proof.
  assert (V : valid_date noon_now) by (repeat split; cbn; lia).
  split; [exact V |].
  exact (DataArchive_week_start noon_now one_day_archive V).
Defined.

(** X21.  On an archive of ASCII text [week()], when it returns, returns
    exactly the readings of the rows, timed from the Monday's midnight to
    now, of the CSV files in the day directories whose date is one of the
    days from that Monday to today. *)
Theorem DataArchive_week_exactly (now : datetime) (dati : node)
  (found : list Value) (v : Value) :
  ascii_archive dati = true ->
  valid_date now -> time_of_day_ok now ->
  DataArchive_week now dati = Ok found ->
  exists monday,
    is_midnight monday /\
    toordinal monday = toordinal now - weekday now /\
    (In v found <->
     exists pivot fPath fNode,
       opened_on dati pivot fPath fNode /\
       toordinal monday <= toordinal pivot <= toordinal now /\
       read_from monday now fPath fNode v).
Proof.
  intros _ V T H.
  destruct (minus_weekday now V) as [shifted [Hs [Vs [Ho Hw]]]].
  unfold DataArchive_week in H. rewrite Hs in H. cbn [bind] in H.
  exists (midnight shifted). split; [repeat split |]. split; [exact Ho |].
  assert (Hrange : forall pivot fPath fNode,
             opened_on dati pivot fPath fNode ->
             (in_range (midnight shifted) now pivot = true <->
              toordinal (midnight shifted) <= toordinal pivot
              <= toordinal now)).
  { intros pivot fPath fNode Hon.
    pose proof (opened_on_midnight _ _ _ _ Hon) as Mp.
    assert (Vp : valid_date pivot).
    { destruct Hon as [? [? [? [? [? [? [? [? [? [_ [_ [_ [_ [_ [_ [Hp _]]]]]]]]]]]]]]]].
      exact (pivot_of_valid _ _ _ _ Hp). }
    assert (Tp : time_of_day_ok pivot)
      by (destruct Mp as [M1 [M2 [M3 M4]]]; repeat split; lia).
    unfold in_range. rewrite andb_true_iff.
    rewrite (dt_le_toordinal (midnight shifted) pivot Vs Vp) by
      first [exact Tp | repeat split].
    rewrite (dt_le_toordinal pivot now Vp V Mp T). reflexivity. }
  rewrite (betweenDatetimes_reads _ _ _ _ v H).
  split.
  - intros [fPath [fNode [[pivot [Hon Hin]] Hread]]].
    exists pivot, fPath, fNode. split; [exact Hon |].
    split; [| exact Hread]. exact (proj1 (Hrange _ _ _ Hon) Hin).
  - intros [pivot [fPath [fNode [Hon [Hin Hread]]]]].
    exists fPath, fNode. split; [| exact Hread].
    exists pivot. split; [exact Hon |]. exact (proj2 (Hrange _ _ _ Hon) Hin).
Qed.

Lemma DataArchive_week_exactly_witness :
  exists monday,
    is_midnight monday /\
    toordinal monday = toordinal noon_now - weekday noon_now /\
    (In (mkValue (Fin 20) temperature (at_hour 12))
        [mkValue (Fin 20) temperature (at_hour 12)] <->
     exists pivot fPath fNode,
       opened_on one_day_archive pivot fPath fNode /\
       toordinal monday <= toordinal pivot <= toordinal noon_now /\
       read_from monday noon_now fPath fNode
         (mkValue (Fin 20) temperature (at_hour 12))).
Proof.
  apply (DataArchive_week_exactly noon_now one_day_archive).
  - reflexivity.
  - repeat split; cbn; lia.
  - repeat split; cbn; lia.
  - vm_compute. reflexivity.
Defined.

(** ** [int] reads what [str] writes *)

Ltac digit_chars :=
  repeat match goal with
         | |- context [is_digit ?c] =>
             let v := eval vm_compute in (is_digit c) in
             change (is_digit c) with v
         | |- context [digit_value ?c] =>
             let v := eval vm_compute in (digit_value c) in
             change (digit_value c) with v
         | |- context [Py_ISSPACE ?c] =>
             let v := eval vm_compute in (Py_ISSPACE c) in
             change (Py_ISSPACE c) with v
         end; cbv iota.

Lemma int_digits_uint (u : Decimal.uint) :
  (forall acc : positive,
      int_digits (Z.pos acc) true
        (list_ascii_of_string (NilEmpty.string_of_uint u))
      = Some (Z.pos (Pos.of_uint_acc u acc)))
  /\ (forall b : bool,
         u <> Decimal.Nil \/ b = true ->
         int_digits 0 b (list_ascii_of_string (NilEmpty.string_of_uint u))
         = Some (Z.of_N (Pos.of_uint u))).
Proof.
  induction u as [| u [IHacc IH0] | u [IHacc IH0] | u [IHacc IH0]
                  | u [IHacc IH0] | u [IHacc IH0] | u [IHacc IH0]
                  | u [IHacc IH0] | u [IHacc IH0] | u [IHacc IH0]
                  | u [IHacc IH0]];
    (split; [intros acc | intros b Hb]);
    cbn [NilEmpty.string_of_uint list_ascii_of_string int_digits
         Pos.of_uint Pos.of_uint_acc Z.of_N];
    digit_chars.
  1: reflexivity.
  1: destruct Hb as [Hb | ->]; [now destruct Hb | reflexivity].
  all: try (rewrite <- IHacc; f_equal; lia).
  all: try (rewrite <- (IH0 true) by (now right); f_equal; lia).
  all: rewrite <- IHacc; f_equal; lia.
Qed.

Lemma uint_chars_no_space (u : Decimal.uint) :
  Forall (fun c => Py_ISSPACE c = false)
    (list_ascii_of_string (NilEmpty.string_of_uint u)).
Proof.
  induction u; cbn [NilEmpty.string_of_uint list_ascii_of_string];
    constructor; solve [reflexivity | assumption].
Qed.

Lemma lstrip_no_space (s : list ascii) :
  Forall (fun c => Py_ISSPACE c = false) s -> lstrip s = s.
Proof.
  intros H. destruct H as [| c s Hc _]; [reflexivity |].
  simpl. now rewrite Hc.
Qed.

Lemma strip_no_space (s : list ascii) :
  Forall (fun c => Py_ISSPACE c = false) s -> strip s = s.
Proof.
  intros H. unfold strip. rewrite (lstrip_no_space s H).
  rewrite lstrip_no_space by (apply Forall_rev; exact H).
  apply rev_involutive.
Qed.

Lemma int_of_str_uint (u : Decimal.uint) :
  u <> Decimal.Nil ->
  int_of_str (list_ascii_of_string (NilEmpty.string_of_uint u))
  = Ok (Z.of_N (Pos.of_uint u)).
Proof.
  intros Hu. unfold int_of_str. cbv zeta.
  rewrite (strip_no_space _ (uint_chars_no_space u)).
  pose proof (proj2 (int_digits_uint u) false (or_introl Hu)) as H.
  destruct u; [now destruct Hu | ..];
    cbn [NilEmpty.string_of_uint list_ascii_of_string] in *;
    rewrite H; reflexivity.
Qed.

(** [int(str(n)) == n] for a positive [n]. *)
Lemma int_of_str_of_int (n : Z) :
  0 < n -> int_of_str (str_of_int n) = Ok n.
Proof.
  intros Hn. destruct n as [| p | p]; try lia.
  unfold str_of_int. cbn [Z.to_int NilZero.string_of_int].
  pose proof (Unsigned.to_uint_nonnil p) as Hnil.
  pose proof (Unsigned.of_to p) as Hof.
  replace (NilZero.string_of_uint (Pos.to_uint p))
    with (NilEmpty.string_of_uint (Pos.to_uint p))
    by (destruct (Pos.to_uint p); [now destruct Hnil | reflexivity ..]).
  rewrite (int_of_str_uint _ Hnil), Hof. reflexivity.
Qed.

(** ** The latest instant *)

Lemma In_py_range (n i : Z) : In i (py_range n) <-> 0 <= i < n.
Proof.
  unfold py_range. rewrite in_map_iff. split.
  - intros [k [<- Hk]]. apply in_seq in Hk. lia.
  - intros H. exists (Z.to_nat i). split; [lia |]. apply in_seq. lia.
Qed.

Lemma py_range_split (n i : Z) :
  0 <= i < n ->
  exists before after,
    py_range n = before ++ i :: after /\
    forall i', In i' before -> 0 <= i' < i.
Proof.
  intros H. exists (py_range i), (map Z.of_nat (seq (S (Z.to_nat i))
                                               (Z.to_nat n - S (Z.to_nat i)))).
  split; [| intros i'; apply In_py_range].
  unfold py_range.
  replace (Z.to_nat n) with (Z.to_nat i + S (Z.to_nat n - S (Z.to_nat i)))%nat
    at 1 by lia.
  rewrite seq_app, map_app. cbn [seq map Nat.add].
  now rewrite Z2Nat.id by lia.
Qed.

Lemma for_return_none {A B : Type} (l : list A)
  (body : A -> outcome (option B)) :
  (forall x, In x l -> body x = Returned None) ->
  for_return l body = Returned None.
Proof.
  induction l as [| x l IH]; intros H; [reflexivity |].
  cbn [for_return]. rewrite (H x (or_introl eq_refl)).
  apply IH. intros x' Hx'. apply H. now right.
Qed.

Lemma for_return_first {A B : Type} (before after : list A) (x : A)
  (body : A -> outcome (option B)) :
  (forall x', In x' before -> body x' = Returned None) ->
  body x <> Returned None ->
  for_return (before ++ x :: after) body = body x.
Proof.
  intros Hb Hx. induction before as [| x' before IH]; cbn [app for_return].
  - destruct (body x) as [[b |] | | e]; try reflexivity. now destruct Hx.
  - rewrite (Hb x' (or_introl eq_refl)). apply IH.
    intros x'' H. apply Hb. now right.
Qed.

(** A loop over [range(n)]: nothing is returned when no index makes the body
    return, and the first index that makes it return decides. *)
Lemma for_return_range_none {B : Type} (n : Z)
  (body : Z -> outcome (option B)) :
  (forall i, 0 <= i < n -> body i = Returned None) ->
  for_return (py_range n) body = Returned None.
Proof.
  intros H. apply for_return_none. intros i Hi. apply In_py_range in Hi.
  now apply H.
Qed.

Lemma for_return_range {B : Type} (n i : Z) (body : Z -> outcome (option B))
  (r : outcome (option B)) :
  0 <= i < n ->
  (forall i', 0 <= i' < i -> body i' = Returned None) ->
  body i = r -> r <> Returned None ->
  for_return (py_range n) body = r.
Proof.
  intros Hi Hbefore Hbody Hr.
  destruct (py_range_split n i Hi) as [before [after [-> Hb]]].
  rewrite for_return_first; [exact Hbody | |].
  - intros i' Hi'. apply Hbefore. exact (Hb i' Hi').
  - now rewrite Hbody.
Qed.

Lemma latest_in_day_returns (now2 : datetime) (dNode : option node) :
  latest_in_day now2 dNode <> Returned None.
Proof.
  unfold latest_in_day.
  destruct (entry dNode _) as [tfile |]; [| discriminate].
  destruct (open_readlines tfile) as [lines | e]; [| discriminate].
  cbv zeta. destruct (length _ =? 0)%nat; [discriminate |].
  destruct (strptime_datetime _); discriminate.
Qed.

Lemma entry_isdir (d : option node) (name : string) :
  isdir (entry d name) = true -> isdir d = true.
Proof.
  destruct d as [[content | entries] |]; try discriminate. reflexivity.
Qed.

Lemma day_directory_None (dati : node) (y m d : Z) :
  day_directory dati y m d = None ->
  isdir (entry (entry (entry (Some dati)
                         (string_of_list_ascii (str_of_int y)))
                  (string_of_list_ascii (zfill (str_of_int m) 2)))
           (string_of_list_ascii (zfill (str_of_int d) 2))) = false.
Proof.
  unfold day_directory. cbv zeta.
  destruct (isdir _) eqn:E; [| reflexivity].
  intros H. rewrite H in E. discriminate.
Qed.

Ltac not_a_directory :=
  match goal with
  | |- (if isdir ?n then _ else _) = _ =>
      destruct (isdir n); [| reflexivity]
  end.

(** X22.  [latestDatetime] reads the latest day directory and nothing else:
    when [dati/y/mm/dd] is a directory, with the year not after the current
    one, and no later date has its directory, the outcome is that of reading
    [temperature.csv] in [dati/y/mm/dd]; in particular a day directory
    without that file is a [FileNotFoundError], whatever the days before
    hold. *)
Theorem latestDatetime_latest_day (now1 now2 : datetime) (dati : node)
  (y m d : Z) (dNode : node) :
  1 <= y <= year now1 -> 1 <= m <= 12 -> 1 <= d <= 31 ->
  day_directory dati y m d = Some dNode ->
  (forall y' m' d',
      1 <= y' <= year now1 -> 1 <= m' <= 12 -> 1 <= d' <= 31 ->
      later y' m' d' y m d -> day_directory dati y' m' d' = None) ->
  latestDatetime now1 now2 dati = latest_in_day now2 (Some dNode) /\
  (entry (Some dNode) "temperature.csv" = None ->
   latestDatetime now1 now2 dati = FileNotFoundError).
Proof.
  intros Hy Hm Hd Hday Hlater.
  assert (Hlatest : latestDatetime now1 now2 dati
                    = latest_in_day now2 (Some dNode)).
  { unfold latestDatetime, strftime_Y.
    rewrite int_of_str_of_int by lia. cbv zeta.
    unfold day_directory in Hday. cbv zeta in Hday.
    destruct (isdir (entry (entry (entry (Some dati) _) _) _)) eqn:Ed;
      [| discriminate].
    pose proof (entry_isdir _ _ Ed) as Em.
    pose proof (entry_isdir _ _ Em) as Ey.
    apply (for_return_range (year now1) (year now1 - y));
      [lia | | | apply latest_in_day_returns].
    - (* the years after [y] *)
      intros i Hi. not_a_directory.
      apply for_return_range_none.
      intros j Hj. not_a_directory.
      apply for_return_range_none.
      intros k Hk.
      rewrite (day_directory_None dati (year now1 - i) (12 - j) (31 - k));
        [reflexivity |].
      apply Hlater; try lia. left. lia.
    - (* the year [y] *)
      replace (year now1 - (year now1 - y)) with y by lia. rewrite Ey.
      apply (for_return_range 12 (12 - m));
        [lia | | | apply latest_in_day_returns].
      + intros j Hj. not_a_directory.
        apply for_return_range_none.
        intros k Hk.
        rewrite (day_directory_None dati y (12 - j) (31 - k));
          [reflexivity |].
        apply Hlater; try lia. right. left. lia.
      + replace (12 - (12 - m)) with m by lia. rewrite Em.
        apply (for_return_range 31 (31 - d));
          [lia | | | apply latest_in_day_returns].
        * intros k Hk.
          rewrite (day_directory_None dati y m (31 - k)); [reflexivity |].
          apply Hlater; try lia. right. right. lia.
        * replace (31 - (31 - d)) with d by lia. rewrite Ed, Hday.
          reflexivity. }
  split; [exact Hlatest |].
  intros Hfile. rewrite Hlatest. unfold latest_in_day. now rewrite Hfile.
Qed.

Lemma latestDatetime_latest_day_witness :
  latestDatetime noon_now evening_now one_day_archive
  = latest_in_day evening_now
      (Some (Dir [("temperature.csv"%string,
                   File (line "2023-05-10 12:00:00,20.0"))])) /\
  (entry (Some (Dir [("temperature.csv"%string,
                      File (line "2023-05-10 12:00:00,20.0"))]))
     "temperature.csv" = None ->
   latestDatetime noon_now evening_now one_day_archive = FileNotFoundError).
Proof.
  apply (latestDatetime_latest_day noon_now evening_now one_day_archive
           2023 5 10); try (cbn; lia); try reflexivity.
  intros y' m' d' Hy' Hm' Hd' Hlater. cbn in Hy'.
  assert (Hmonths :
            forallb (fun v =>
                       (v <=? 5)
                       || match entry (entry (Some one_day_archive) "2023")
                                  (string_of_list_ascii
                                     (zfill (str_of_int v) 2)) with
                          | None => true
                          | Some _ => false
                          end)
              (map Z.of_nat (seq 1 12)) = true) by (vm_compute; reflexivity).
  assert (Hdays :
            forallb (fun v =>
                       (v <=? 10)
                       || match day_directory one_day_archive 2023 5 v with
                          | None => true
                          | Some _ => false
                          end)
              (map Z.of_nat (seq 1 31)) = true) by (vm_compute; reflexivity).
  destruct Hlater as [H | [[-> H] | [-> [-> H]]]]; [lia | |].
  - pose proof (forallb_range _ _ m' Hmonths ltac:(lia)) as Hm0.
    cbv beta in Hm0. apply orb_true_iff in Hm0.
    destruct Hm0 as [Hm0 | Hm0]; [apply Z.leb_le in Hm0; lia |].
    unfold day_directory. cbv zeta.
    change (string_of_list_ascii (str_of_int 2023)) with "2023"%string.
    destruct (entry (entry (Some one_day_archive) "2023") _);
      [discriminate | reflexivity].
  - pose proof (forallb_range _ _ d' Hdays ltac:(lia)) as Hd0.
    cbv beta in Hd0. apply orb_true_iff in Hd0.
    destruct Hd0 as [Hd0 | Hd0]; [apply Z.leb_le in Hd0; lia |].
    destruct (day_directory one_day_archive 2023 5 d');
      [discriminate | reflexivity].
Defined.

(** X23.  When no date up to the current year has its day directory,
    [latestDatetime] runs to its end: what it returns is [None], not a
    string. *)
Theorem latestDatetime_no_day (now1 now2 : datetime) (dati : node) :
  1 <= year now1 ->
  (forall y m d,
      1 <= y <= year now1 -> 1 <= m <= 12 -> 1 <= d <= 31 ->
      day_directory dati y m d = None) ->
  latestDatetime now1 now2 dati = Returned None.
Proof.
  intros Hyear Hnone. unfold latestDatetime, strftime_Y.
  rewrite int_of_str_of_int by lia. cbv zeta.
  apply for_return_range_none. intros i Hi. not_a_directory.
  apply for_return_range_none. intros j Hj. not_a_directory.
  apply for_return_range_none. intros k Hk.
  rewrite (day_directory_None dati (year now1 - i) (12 - j) (31 - k));
    [reflexivity |].
  apply Hnone; lia.
Qed.

Lemma latestDatetime_no_day_witness :
  latestDatetime noon_now evening_now empty_archive = Returned None.
Proof.
  apply (latestDatetime_no_day noon_now evening_now empty_archive).
  - cbn. lia.
  - intros y m d _ _ _. reflexivity.
Defined.

Lemma last_tdate_rows (lines : list (list ascii)) :
  last_tdate lines
  = match rev (filter is_row lines) with
    | [] => []
    | row :: _ => nth 0 (split "," row) []
    end.
Proof.
  unfold last_tdate.
  induction lines as [| line lines IH] using rev_ind; [reflexivity |].
  rewrite fold_left_app, filter_app, rev_app_distr. cbn [fold_left filter].
  unfold is_row at 1. cbv zeta.
  destruct (length (split "," line) <? 2)%nat; cbn [negb rev app];
    [exact IH | reflexivity].
Qed.

(** X24.  Of the file of the latest day, when it is ASCII text, only the
    last row counts, a row being a line of two fields or more: its first
    field is parsed and written back as day/month/year, the rows before are
    not looked at.  The time of the clock is returned instead when the file
    has no row, or when the first field of the last row is empty. *)
Theorem latest_in_day_last_row (now2 : datetime) (dNode : option node)
  (content : string) :
  entry dNode "temperature.csv" = Some (File content) ->
  ascii_text content = true ->
  latest_in_day now2 dNode
  = match rev (filter is_row
                 (readlines_from [] (list_ascii_of_string content))) with
    | [] => Returned (Some (strftime_dmY_HMS now2))
    | row :: _ =>
        match nth 0 (split "," row) [] with
        | [] => Returned (Some (strftime_dmY_HMS now2))
        | tdate =>
            match strptime_datetime tdate with
            | Ok t => Returned (Some (strftime_dmY_HMS t))
            | Raise e => Raised e
            end
        end
    end.
Proof.
  intros Hfile _. unfold latest_in_day. rewrite Hfile.
  cbn [open_readlines]. cbv zeta. rewrite last_tdate_rows.
  destruct (rev _) as [| row rows]; [reflexivity |].
  destruct (nth 0 (split "," row) []); reflexivity.
Qed.

Lemma latest_in_day_last_row_witness :
  latest_in_day evening_now (Some two_rows_day)
  = Returned (Some (list_ascii_of_string "10/05/2023 12:00:00")).
Proof.
  exact (latest_in_day_last_row evening_now (Some two_rows_day) _ eq_refl
           eq_refl).
Defined.
